(** * Quiz generation and answer evaluation client

    A shallow embedding of the Gemini service of the quiz generator
    ([generateQuiz], [evaluateAnswer] and their helpers), in its two
    versions: the one with the model fallback and the marks table
    ([src/unnamed/part_000], [Module Part000]) and
    [src/services/geminiService.ts] ([Module GeminiService]).

    JavaScript strings are modelled by [string], one [ascii] per UTF-16 code
    unit (so the model covers the code units below 256); JSON numbers by
    rationals. *)

From Stdlib Require Import String Ascii List ZArith QArith Bool Lia.
From Stdlib Require Import DecimalString.
From Stdlib Require DecimalPos DecimalZ.
Import ListNotations.
Open Scope string_scope.
Local Set Warnings "-register-all,-abstract-large-number".

(** ** JavaScript values *)

(** What [JSON.parse] can return. An object keeps its members in the order of
    the text. *)
Inductive json : Type :=
| JNull
| JBool (b : bool)
| JNum (n : Q)
| JStr (s : string)
| JArr (items : list json)
| JObj (members : list (string * json)).

(** A value read from a property: [None] is [undefined]. *)
Definition value : Type := option json.
Definition undefined : value := None.

(** ToBoolean: [undefined], [null], [false], [0] and the empty string are
    falsy, every array and object is truthy. *)
Definition truthy (v : value) : bool :=
  match v with
  | None => false
  | Some JNull => false
  | Some (JBool b) => b
  | Some (JNum n) => negb (Qeq_bool n 0)
  | Some (JStr s) => negb (s =? "")
  | Some (JArr _) => true
  | Some (JObj _) => true
  end.

(** [Array.isArray]. *)
Definition isArray (v : value) : bool :=
  match v with
  | Some (JArr _) => true
  | _ => false
  end.

(** [a || b], for a right operand that is a JSON value. *)
Definition or_else (a : value) (b : json) : json :=
  match a with
  | Some j => if truthy a then j else b
  | None => b
  end.

(** Own member of an object built by [JSON.parse]: when a name is repeated
    in the text the last member wins. *)
Fixpoint member (p : string) (members : list (string * json)) : value :=
  match members with
  | [] => undefined
  | (k, v) :: rest =>
      match member p rest with
      | Some v' => Some v'
      | None => if k =? p then Some v else undefined
      end
  end.

(** ** Exceptions *)

(** A thrown value: the runtime, the SDK and this code all throw [Error]
    objects; [message] is [None] when the property is [undefined]. *)
Record exn : Type := Throw { name : string; message : option string }.

Definition Error (msg : string) : exn := Throw "Error" (Some msg).
Definition TypeError (msg : string) : exn := Throw "TypeError" (Some msg).
Definition SyntaxError (msg : string) : exn := Throw "SyntaxError" (Some msg).

(** [e.message || dflt], for a string default. *)
Definition message_or (e : exn) (dflt : string) : string :=
  match message e with
  | Some m => if m =? "" then dflt else m
  | None => dflt
  end.

(** The [TypeError] of reading property [p] of [null] or [undefined]
    (wording of V8). *)
Definition cannot_read (base p : string) : exn :=
  TypeError ("Cannot read properties of " ++ base ++ " (reading '" ++ p ++ "')").

(** [v.p] for a value [v] that came out of [JSON.parse] and a property name
    [p] that no built-in prototype defines (the code reads only
    [questions], [question], [options], [correctAnswer], [modelAnswer],
    [context] and [explanation]): reading from [null] throws, an object
    gives its own member, every other value gives [undefined]. *)
Definition get (v : json) (p : string) : exn + value :=
  match v with
  | JNull => inl (cannot_read "null" p)
  | JObj members => inr (member p members)
  | _ => inr undefined
  end.

(** ** Strings *)

Definition dquote : ascii := "034"%char.
Definition backslash : ascii := "092"%char.
Definition dq : string := String dquote EmptyString.
Definition nl : string := String "010"%char EmptyString.

(** [s || dflt] for strings: the empty string is falsy. *)
Definition or_string (s dflt : string) : string :=
  if s =? "" then dflt else s.

(** Template interpolation of a number that is an integer. *)
Definition Number_toString (n : Z) : string :=
  NilZero.string_of_int (Z.to_int n).

(** White space and line terminators of [String.prototype.trim], among the
    code units below 256: TAB, LF, VT, FF, CR, SP and NBSP. *)
Definition is_js_space (c : ascii) : bool :=
  let n := nat_of_ascii c in
  ((9 <=? n) && (n <=? 13) || (n =? 32) || (n =? 160))%nat.

Fixpoint trimStart (s : string) : string :=
  match s with
  | String c r => if is_js_space c then trimStart r else s
  | EmptyString => EmptyString
  end.

Fixpoint trimEnd (s : string) : string :=
  match s with
  | String c r =>
      let r' := trimEnd r in
      if is_js_space c && (r' =? "") then EmptyString else String c r'
  | EmptyString => EmptyString
  end.

Definition trim (s : string) : string := trimEnd (trimStart s).

(** [['a', 'b', ...].includes(s)]. *)
Definition includes (l : list string) (s : string) : bool :=
  existsb (String.eqb s) l.

(** ** A JSON reader

    [JSON.parse] belongs to the runtime: the client below takes it as a
    parameter. [parse_json] is one instance, used to run the client on
    response texts: the JSON grammar of ECMA-404, with the [\u] escapes
    limited to the code units below 256. *)

Definition is_json_ws (c : ascii) : bool :=
  let n := nat_of_ascii c in
  ((n =? 32) || (n =? 9) || (n =? 10) || (n =? 13))%nat.

Fixpoint skip_ws (s : string) : string :=
  match s with
  | String c r => if is_json_ws c then skip_ws r else s
  | EmptyString => EmptyString
  end.

Fixpoint strip_prefix (p s : string) : option string :=
  match p, s with
  | EmptyString, _ => Some s
  | String a p', String b s' => if (a =? b)%char then strip_prefix p' s' else None
  | String _ _, EmptyString => None
  end.

Definition digit_of (c : ascii) : option Z :=
  let n := Z.of_nat (nat_of_ascii c) in
  if ((48 <=? n) && (n <=? 57))%Z then Some (n - 48)%Z else None.

Definition hex_of (c : ascii) : option nat :=
  let n := nat_of_ascii c in
  if ((48 <=? n) && (n <=? 57))%nat then Some (n - 48)%nat
  else if ((65 <=? n) && (n <=? 70))%nat then Some (n - 55)%nat
  else if ((97 <=? n) && (n <=? 102))%nat then Some (n - 87)%nat
  else None.

(** Reads a run of digits: the number read after [acc], how many digits were
    read, and the rest of the text. *)
Fixpoint digits (acc : Z) (count : nat) (s : string) : Z * nat * string :=
  match s with
  | String c r =>
      match digit_of c with
      | Some d => digits (10 * acc + d)%Z (S count) r
      | None => (acc, count, s)
      end
  | EmptyString => (acc, count, s)
  end.

(** [m * 10^e] as a rational in lowest terms. *)
Definition scale10 (m e : Z) : Q :=
  if (0 <=? e)%Z then inject_Z (m * 10 ^ e)
  else Qred (Qmake m (Z.to_pos (10 ^ (- e)))).

Definition parse_int_part (s : string) : option (Z * string) :=
  match s with
  | String c r =>
      match digit_of c with
      | Some 0%Z => Some (0%Z, r)
      | Some d => let '(m, _, r') := digits d 1 r in Some (m, r')
      | None => None
      end
  | EmptyString => None
  end.

Definition parse_frac_part (m : Z) (s : string) : option (Z * Z * string) :=
  match s with
  | String "." r =>
      let '(m', k, r') := digits m 0 r in
      if (k =? 0)%nat then None else Some (m', Z.of_nat k, r')
  | _ => Some (m, 0%Z, s)
  end.

Definition parse_exp_digits (sign : Z) (s : string) : option (Z * string) :=
  let '(e, k, r) := digits 0 0 s in
  if (k =? 0)%nat then None else Some ((sign * e)%Z, r).

Definition parse_exp_part (s : string) : option (Z * string) :=
  match s with
  | String c r =>
      if ((c =? "e") || (c =? "E"))%char then
        match r with
        | String "+" r' => parse_exp_digits 1 r'
        | String "-" r' => parse_exp_digits (-1) r'
        | _ => parse_exp_digits 1 r
        end
      else Some (0%Z, s)
  | EmptyString => Some (0%Z, s)
  end.

Definition parse_number (s : string) : option (Q * string) :=
  let '(sign, s1) :=
    match s with
    | String "-" r => ((-1)%Z, r)
    | _ => (1%Z, s)
    end in
  match parse_int_part s1 with
  | None => None
  | Some (i, s2) =>
      match parse_frac_part i s2 with
      | None => None
      | Some (m, k, s3) =>
          match parse_exp_part s3 with
          | None => None
          | Some (e, s4) => Some (scale10 (sign * m) (e - k), s4)
          end
      end
  end.

Definition escape_of (c : ascii) : option ascii :=
  if (c =? dquote)%char then Some dquote
  else if (c =? backslash)%char then Some backslash
  else if (c =? "/")%char then Some "/"%char
  else if (c =? "b")%char then Some "008"%char
  else if (c =? "f")%char then Some "012"%char
  else if (c =? "n")%char then Some "010"%char
  else if (c =? "r")%char then Some "013"%char
  else if (c =? "t")%char then Some "009"%char
  else None.

Definition hex4 (a b c d : ascii) : option ascii :=
  match hex_of a, hex_of b, hex_of c, hex_of d with
  | Some 0%nat, Some 0%nat, Some h, Some l => Some (ascii_of_nat (16 * h + l))
  | _, _, _, _ => None
  end.

(** The text after an opening quote, up to the closing one. *)
Fixpoint parse_string_body (s : string) : option (string * string) :=
  match s with
  | EmptyString => None
  | String c r =>
      if (c =? dquote)%char then Some (EmptyString, r)
      else if (c =? backslash)%char then
        match r with
        | String "u" (String h1 (String h2 (String h3 (String h4 r')))) =>
            match hex4 h1 h2 h3 h4, parse_string_body r' with
            | Some x, Some (body, rest) => Some (String x body, rest)
            | _, _ => None
            end
        | String e r' =>
            match escape_of e, parse_string_body r' with
            | Some x, Some (body, rest) => Some (String x body, rest)
            | _, _ => None
            end
        | EmptyString => None
        end
      else if (nat_of_ascii c <? 32)%nat then None
      else
        match parse_string_body r with
        | Some (body, rest) => Some (String c body, rest)
        | None => None
        end
  end.

Fixpoint parse_value (fuel : nat) (s : string) : option (json * string) :=
  match fuel with
  | O => None
  | S fuel' =>
      let s := skip_ws s in
      match s with
      | EmptyString => None
      | String c r =>
          if (c =? "n")%char then
            option_map (pair JNull) (strip_prefix "ull" r)
          else if (c =? "t")%char then
            option_map (pair (JBool true)) (strip_prefix "rue" r)
          else if (c =? "f")%char then
            option_map (pair (JBool false)) (strip_prefix "alse" r)
          else if (c =? dquote)%char then
            match parse_string_body r with
            | Some (body, rest) => Some (JStr body, rest)
            | None => None
            end
          else if (c =? "[")%char then
            match skip_ws r with
            | String "]" rest => Some (JArr [], rest)
            | _ =>
                match parse_elements fuel' r with
                | Some (items, rest) => Some (JArr items, rest)
                | None => None
                end
            end
          else if (c =? "{")%char then
            match skip_ws r with
            | String "}" rest => Some (JObj [], rest)
            | _ =>
                match parse_members fuel' r with
                | Some (members, rest) => Some (JObj members, rest)
                | None => None
                end
            end
          else
            match parse_number s with
            | Some (n, rest) => Some (JNum n, rest)
            | None => None
            end
      end
  end

with parse_elements (fuel : nat) (s : string) : option (list json * string) :=
  match fuel with
  | O => None
  | S fuel' =>
      match parse_value fuel' s with
      | None => None
      | Some (v, r) =>
          match skip_ws r with
          | String "," r' =>
              match parse_elements fuel' r' with
              | Some (items, rest) => Some (v :: items, rest)
              | None => None
              end
          | String "]" rest => Some ([v], rest)
          | _ => None
          end
      end
  end

with parse_members (fuel : nat) (s : string)
  : option (list (string * json) * string) :=
  match fuel with
  | O => None
  | S fuel' =>
      match skip_ws s with
      | String c r =>
          if (c =? dquote)%char then
            match parse_string_body r with
            | None => None
            | Some (key, r1) =>
                match skip_ws r1 with
                | String ":" r2 =>
                    match parse_value fuel' r2 with
                    | None => None
                    | Some (v, r3) =>
                        match skip_ws r3 with
                        | String "," r4 =>
                            match parse_members fuel' r4 with
                            | Some (members, rest) =>
                                Some ((key, v) :: members, rest)
                            | None => None
                            end
                        | String "}" rest => Some ([(key, v)], rest)
                        | _ => None
                        end
                    end
                | _ => None
                end
            end
          else None
      | EmptyString => None
      end
  end.

(** The whole text is one JSON value between optional white space. Every
    call above uses one unit of fuel and, every second call at least, reads
    a character. *)
Definition parse_json (s : string) : option json :=
  match parse_value (2 * String.length s + 2) s with
  | Some (v, rest) => if skip_ws rest =? "" then Some v else None
  | None => None
  end.

(** A response text written with apostrophes for its double quotes. *)
Fixpoint quoted (s : string) : string :=
  match s with
  | String c r => String (if (c =? "'")%char then dquote else c) (quoted r)
  | EmptyString => EmptyString
  end.

(** ** The SDK and the effects of a call *)

(** [new GoogleGenAI({ apiKey })]. *)
Record GoogleGenAI : Type := { apiKey : string }.

(** A part of a multimodal request. *)
Inductive Part : Type :=
| inlineData (mimeType data : string)
| text_part (text : string).

(** [contents]: a prompt, or an object with [parts]. *)
Inductive Contents : Type :=
| prompt_contents (prompt : string)
| parts_contents (parts : list Part).

Record GenerateContentConfig : Type :=
  { responseMimeType : string; responseSchema : json }.

(** The argument of [ai.models.generateContent]. *)
Record GenerateContentParameters : Type :=
  { model : string; contents : Contents; config : GenerateContentConfig }.

(** The resolved value of [generateContent]: its [text] accessor gives
    [undefined] when the candidate holds no text. *)
Record GenerateContentResponse : Type := { text : option string }.

(** What a call does that can be observed from outside. *)
Inductive event : Type :=
| generateContent_sent (ai : GoogleGenAI) (params : GenerateContentParameters)
| console_warn (label : string) (e : exn)
| console_error (label : string) (e : exn).

Definition is_request (ev : event) : bool :=
  match ev with
  | generateContent_sent _ _ => true
  | _ => false
  end.

(** The requests of a log, oldest first. *)
Definition requests (log : list event) : list event := filter is_request log.

(** A computation that appends to the log of events and returns or throws. *)
Definition M (A : Type) : Type := list event -> (exn + A) * list event.

Definition ret {A} (a : A) : M A := fun log => (inr a, log).
Definition throw {A} (e : exn) : M A := fun log => (inl e, log).
Definition emit (ev : event) : M unit := fun log => (inr tt, (log ++ [ev])%list).

Definition bind {A B} (m : M A) (k : A -> M B) : M B :=
  fun log =>
    match m log with
    | (inr a, log') => k a log'
    | (inl e, log') => (inl e, log')
    end.

(** [try { m } catch (e) { handler e }]. *)
Definition try_catch {A} (m : M A) (handler : exn -> M A) : M A :=
  fun log =>
    match m log with
    | (inr a, log') => (inr a, log')
    | (inl e, log') => handler e log'
    end.

(** A step that returns or throws without an effect. *)
Definition lift {A} (r : exn + A) : M A := fun log => (r, log).

Declare Scope js_scope.
Delimit Scope js_scope with js.
Notation "x <- m ;; k" := (bind m (fun x => k))
  (at level 61, m at next level, right associativity) : js_scope.
Notation "m ;; k" := (bind m (fun _ => k))
  (at level 61, right associativity) : js_scope.
Open Scope js_scope.

(** ** The schema sent with a generation request (the same object in both
    versions of the service) *)

Definition obj_schema (properties : list (string * json)) (required : list string)
  : json :=
  JObj [("type", JStr "OBJECT");
        ("properties", JObj properties);
        ("required", JArr (map JStr required))].

Definition described (type description : string) : json :=
  JObj [("type", JStr type); ("description", JStr description)].

Definition quizSchema : json :=
  obj_schema
    [("questions",
      JObj [("type", JStr "ARRAY");
            ("description", JStr "An array of quiz questions.");
            ("items",
             obj_schema
               [("type", described "STRING"
                   "The type of question generated (e.g., MCQ, Short, Long, CaseBased).");
                ("context", described "STRING"
                   "For Case Based or Extract Based questions, this is the paragraph/case study text. Empty for others.");
                ("question", described "STRING"
                   "The text of the question. For Fill in Blanks, use underscores (_______) to denote the blank.");
                ("options",
                 JObj [("type", JStr "ARRAY");
                       ("description", JStr "Array of 4 options (Only required if type is MCQ).");
                       ("items", JObj [("type", JStr "STRING")])]);
                ("correctAnswer", described "STRING"
                   "For MCQ: The correct option. For FillBlanks: The exact word(s) to fill. Empty for subjective.");
                ("modelAnswer", described "STRING"
                   ("For Subjective/Short/Long: A high-quality, " ++ dq ++ "Topper Style" ++ dq
                    ++ " answer that would get full marks in a Board Exam. Includes points, keywords, and structure. Empty for MCQs."));
                ("explanation", described "STRING"
                   "A concise explanation of the concept or why the answer is correct.")]
               ["question"; "type"])])]
    ["questions"].

Definition evaluationSchema : json :=
  obj_schema
    [("score", described "NUMBER" "Marks awarded out of maxMarks");
     ("maxMarks", described "NUMBER" "The maximum marks possible");
     ("mistakes",
      JObj [("type", JStr "ARRAY");
            ("items", JObj [("type", JStr "STRING")]);
            ("description", JStr "List of specific errors or missing points")]);
     ("feedback", described "STRING"
        "Constructive feedback on how to improve to topper level")]
    ["score"; "maxMarks"; "mistakes"; "feedback"].

(** The prompt of a generation request (the same template in both versions
    of the service). *)
Definition quiz_prompt (pdfText : string) (numQuestions : Z)
  (difficulty questionType examContext typeInstructions : string) : string :=
    nl ++
    "  Role: You are an expert Exam Setter and Examiner for " ++ or_string examContext "General Education" ++ "." ++ nl ++
    "  Task: Create a quiz/test based on the provided text." ++ nl ++
    "  " ++ nl ++
    "  Configuration:" ++ nl ++
    "  - Question Type: " ++ questionType ++ nl ++
    "  - Quantity: " ++ Number_toString numQuestions ++ " questions" ++ nl ++
    "  - Difficulty: " ++ difficulty ++ nl ++
    "  - Exam Context/Focus: " ++ or_string examContext "Standard Academic Standard" ++ nl ++
    "  " ++ nl ++
    "  Instructions:" ++ nl ++
    "  " ++ typeInstructions ++ nl ++
    "  " ++ nl ++
    "  General Rules:" ++ nl ++
    "  - Ensure questions are relevant to the provided text." ++ nl ++
    "  - Explanation field should clarify the concept for revision." ++ nl ++
    nl ++
    "  Text Content:" ++ nl ++
    "  ---" ++ nl ++
    "  " ++ substring 0 30000 pdfText ++ nl ++
    "  ---" ++ nl ++
    "  ".

(** The network: what the far end answers to a request, given everything
    that happened before. *)
Definition Network : Type :=
  list event -> GoogleGenAI -> GenerateContentParameters ->
  exn + GenerateContentResponse.

(** [await ai.models.generateContent(params)]. *)
Definition generateContent (network : Network) (ai : GoogleGenAI)
  (params : GenerateContentParameters) : M GenerateContentResponse :=
  fun log => (network log ai params, (log ++ [generateContent_sent ai params])%list).

(** [response.text.trim()]. *)
Definition text_trim (response : GenerateContentResponse) : exn + string :=
  match text response with
  | Some t => inr (trim t)
  | None => inl (cannot_read "undefined" "trim")
  end.

(** Sequencing of steps that return or throw without an effect. *)
Definition and_then {A B} (r : exn + A) (k : A -> exn + B) : exn + B :=
  match r with
  | inr a => k a
  | inl e => inl e
  end.

Notation "x <~ r ;; k" := (and_then r (fun x => k))
  (at level 61, r at next level, right associativity) : js_scope.

(** [items.map(f)] for a callback that can throw: elements are visited in
    order and the first exception ends the loop. *)
Fixpoint map_throwing {A B} (f : A -> exn + B) (items : list A) : exn + list B :=
  match items with
  | [] => inr []
  | x :: rest =>
      y <~ f x ;;
      ys <~ map_throwing f rest ;;
      inr (y :: ys)
  end.

(** The elements of a value known to be an array. *)
Definition elements (v : value) : list json :=
  match v with
  | Some (JArr items) => items
  | _ => []
  end.

(** ** The environment *)

(** Reading one of the two places where the key can be: the chain is
    undefined somewhere ([Unset]), it holds a string, or the access throws. *)
Inductive lookup : Type :=
| Unset
| Holds (v : string)
| Raises (e : exn).

Record environment : Type :=
  { process_env_API_KEY : lookup;          (* process.env?.API_KEY *)
    import_meta_env_VITE_API_KEY : lookup  (* import.meta.env?.VITE_API_KEY *) }.

Definition read (l : lookup) : M (option string) :=
  match l with
  | Unset => ret None
  | Holds v => ret (Some v)
  | Raises e => throw e
  end.

Definition truthy_string (v : option string) : bool :=
  match v with
  | Some s => negb (s =? "")
  | None => false
  end.

(** ** The service with the model fallback ([src/unnamed/part_000]) *)

Module Part000.

Definition API_KEY_MISSING : string :=
  "API Key is missing. Please set the 'API_KEY' (or 'VITE_API_KEY') environment variable in your Netlify Site Settings.".

Definition getApiKey (env : environment) : M string :=
  found <-
    try_catch
      (a <- read (process_env_API_KEY env) ;;
       if truthy_string a then ret a
       else
         b <- read (import_meta_env_VITE_API_KEY env) ;;
         if truthy_string b then ret b else ret None)
      (fun e =>
         emit (console_warn "Error accessing environment variables:" e) ;;
         ret None) ;;
  match found with
  | Some key => ret key
  | None => throw (Error API_KEY_MISSING)
  end.

Definition getMarksForType (type : string) : Z :=
  if type =? "MCQ" then 1
  else if type =? "FillBlanks" then 1
  else if type =? "VeryShort" then 2
  else if type =? "Short" then 3
  else if type =? "CaseBased" then 4
  else if type =? "ExtractBased" then 4
  else if type =? "Long" then 5
  else 1.

(** An element of the array that [generateQuiz] returns. [question] is
    copied as it is read, so it can be [undefined]. *)
Record QuizQuestion : Type :=
  { type : string;
    question : value;
    options : json;
    correctAnswer : json;
    modelAnswer : json;
    context : json;
    explanation : json;
    marks : Z }.

(** The callback of [parsed.questions.map]. *)
Definition toQuizQuestion (questionType : string) (q : json) : exn + QuizQuestion :=
  q_question <~ get q "question" ;;
  q_options <~ get q "options" ;;
  q_correctAnswer <~ get q "correctAnswer" ;;
  q_modelAnswer <~ get q "modelAnswer" ;;
  q_context <~ get q "context" ;;
  q_explanation <~ get q "explanation" ;;
  inr {| type := questionType;
         question := q_question;
         options := or_else q_options (JArr []);
         correctAnswer := or_else q_correctAnswer (JStr "");
         modelAnswer := or_else q_modelAnswer (JStr "");
         context := or_else q_context (JStr "");
         explanation := or_else q_explanation (JStr "");
         marks := getMarksForType questionType |}.

Definition INVALID_RESPONSE_FORMAT : string :=
  "Invalid response format from AI. Expected a 'questions' array.".

Definition contextLabel (examContext : string) : string :=
  if examContext =? "" then "Standard Board Exam"
  else dq ++ examContext ++ dq.

Definition typeInstructions (questionType examContext : string) : string :=
  let contextLabel := contextLabel examContext in
  if questionType =? "MCQ" then
    "Generate Multiple Choice Questions suitable for " ++ contextLabel ++ ". Provide 4 options and 1 correct answer."
  else if questionType =? "FillBlanks" then
    "Generate Fill in the Blank questions suitable for " ++ contextLabel ++ ". The question text must contain " ++ dq ++ "______" ++ dq ++ " where the word goes. 'correctAnswer' must be the missing word(s). Do not provide options."
  else if includes ["Short"; "VeryShort"; "Long"; "Brief"] questionType then
    "Generate " ++ questionType ++ " Answer Type Questions. " ++ nl ++
    "    CRITICAL: You are an expert Examiner for " ++ contextLabel ++ ". " ++ nl ++
    "    - You MUST provide a 'modelAnswer' field." ++ nl ++
    "    - The 'modelAnswer' must be a " ++ dq ++ "Topper's Answer" ++ dq ++ " that scores full marks in " ++ contextLabel ++ "." ++ nl ++
    "    - Analyze strictly based on " ++ contextLabel ++ " marking schemes: use point-wise answers, highlight keywords, and structure the answer exactly how a student needs to write it." ++ nl ++
    "    - Do not just copy the PDF text. Synthesize a perfect exam answer." ++ nl ++
    "    - 'options' and 'correctAnswer' fields should be empty/null."
  else if includes ["CaseBased"; "ExtractBased"] questionType then
    "Generate " ++ questionType ++ " questions suitable for " ++ contextLabel ++ "." ++ nl ++
    "     - Select a relevant paragraph or case from the text and put it in the 'context' field." ++ nl ++
    "     - Ask a question based on that context." ++ nl ++
    "     - Provide a 'modelAnswer' that yields full marks based on the context and " ++ contextLabel ++ " standards."
  else "".

Definition PRIMARY_MODEL : string := "gemini-3-pro-preview".
Definition SECONDARY_MODEL : string := "gemini-2.5-flash".

(** The request of [generateQuiz], but for the model it goes to. *)
Definition quiz_request (model : string) (pdfText : string) (numQuestions : Z)
  (difficulty questionType examContext : string) : GenerateContentParameters :=
  {| model := model;
     contents :=
       prompt_contents
         (quiz_prompt pdfText numQuestions difficulty questionType examContext
            (typeInstructions questionType examContext));
     config := {| responseMimeType := "application/json";
                  responseSchema := quizSchema |} |}.

Definition evaluation_prompt (question modelAnswer : string) (maxMarks : Z) : string :=
    nl ++
    "    Role: Strict CBSE Board Examiner." ++ nl ++
    "    Task: Grade the student's handwritten answer (image) against the reference Topper Answer." ++ nl ++
    "    " ++ nl ++
    "    Question: " ++ question ++ nl ++
    "    Reference Topper Answer: " ++ modelAnswer ++ nl ++
    "    Maximum Marks: " ++ Number_toString maxMarks ++ nl ++
    nl ++
    "    Instructions:" ++ nl ++
    "    1. Read the handwriting in the image." ++ nl ++
    "    2. Compare it strictly with the Topper Answer." ++ nl ++
    "    3. Award marks based on CBSE step-marking (keywords, definition, structure)." ++ nl ++
    "    4. List where marks were cut (mistakes)." ++ nl ++
    "    5. Provide brief advice." ++ nl ++
    "    ".

Definition evaluation_request (question modelAnswer imageBase64 mimeType : string)
  (maxMarks : Z) : GenerateContentParameters :=
  {| model := "gemini-3-pro-preview";
     contents :=
       parts_contents
         [inlineData mimeType imageBase64;
          text_part (evaluation_prompt question modelAnswer maxMarks)];
     config := {| responseMimeType := "application/json";
                  responseSchema := evaluationSchema |} |}.

(** What [evaluateAnswer] returns: the cast [as EvaluationResult] checks
    nothing, the value is whatever [JSON.parse] gave. *)
Definition EvaluationResult : Type := json.

Section Client.

Variable JSON_parse : string -> exn + json.
Variable network : Network.

(** The helper that parses and validates a response text. *)
Definition processResponse (questionType : string) (jsonString : string)
  : exn + list QuizQuestion :=
  parsed <~ JSON_parse jsonString ;;
  questions <~ get parsed "questions" ;;
  if negb (truthy questions) || negb (isArray questions) then
    inl (Error INVALID_RESPONSE_FORMAT)
  else
    map_throwing (toQuizQuestion questionType) (elements questions).

(** One attempt: the body of each of the two [try] blocks. *)
Definition attempt (ai : GoogleGenAI) (model : string) (pdfText : string)
  (numQuestions : Z) (difficulty questionType examContext : string)
  : M (list QuizQuestion) :=
  response <-
    generateContent network ai
      (quiz_request model pdfText numQuestions difficulty questionType examContext) ;;
  lift (jsonString <~ text_trim response ;;
        processResponse questionType jsonString).

Definition generateQuiz (env : environment) (pdfText : string) (numQuestions : Z)
  (difficulty questionType examContext : string) : M (list QuizQuestion) :=
  apiKey <- getApiKey env ;;
  let ai := {| apiKey := apiKey |} in
  try_catch
    (attempt ai PRIMARY_MODEL pdfText numQuestions difficulty questionType examContext)
    (fun error =>
       emit (console_warn "Gemini 3 Pro failed, retrying with Gemini 2.5 Flash..." error) ;;
       try_catch
         (attempt ai SECONDARY_MODEL pdfText numQuestions difficulty questionType
            examContext)
         (fun retryError =>
            emit (console_error "Gemini generation failed:" retryError) ;;
            let msg := message_or retryError (message_or error "Unknown error") in
            throw (Error ("AI Generation Failed: " ++ msg
                          ++ ". Please check your API Key and Quota.")))).

Definition evaluateAnswer (env : environment)
  (question modelAnswer imageBase64 mimeType : string) (maxMarks : Z)
  : M EvaluationResult :=
  apiKey <- getApiKey env ;;
  let ai := {| apiKey := apiKey |} in
  try_catch
    (response <-
       generateContent network ai
         (evaluation_request question modelAnswer imageBase64 mimeType maxMarks) ;;
     lift (jsonString <~ text_trim response ;;
           JSON_parse jsonString))
    (fun error =>
       emit (console_error "Error evaluating answer:" error) ;;
       throw (Error ("Evaluation failed: "
                     ++ message_or error "Please check your API Key."))).

End Client.

End Part000.

(** ** The service of [src/services/geminiService.ts] *)

Module GeminiService.

(** An element of the array that [generateQuiz] returns. *)
Record QuizQuestion : Type :=
  { type : string;
    question : value;
    options : json;
    correctAnswer : json;
    modelAnswer : json;
    context : json;
    explanation : json }.

(** The callback of [parsed.questions.map]. *)
Definition toQuizQuestion (questionType : string) (q : json) : exn + QuizQuestion :=
  q_question <~ get q "question" ;;
  q_options <~ get q "options" ;;
  q_correctAnswer <~ get q "correctAnswer" ;;
  q_modelAnswer <~ get q "modelAnswer" ;;
  q_context <~ get q "context" ;;
  q_explanation <~ get q "explanation" ;;
  inr {| type := questionType;
         question := q_question;
         options := or_else q_options (JArr []);
         correctAnswer := or_else q_correctAnswer (JStr "");
         modelAnswer := or_else q_modelAnswer (JStr "");
         context := or_else q_context (JStr "");
         explanation := or_else q_explanation (JStr "") |}.

Definition typeInstructions (questionType : string) : string :=
  if questionType =? "MCQ" then
    "Generate Multiple Choice Questions. Provide 4 options and 1 correct answer."
  else if questionType =? "FillBlanks" then
    "Generate Fill in the Blank questions. The question text must contain " ++ dq ++ "______" ++ dq ++ " where the word goes. 'correctAnswer' must be the missing word(s). Do not provide options."
  else if includes ["Short"; "VeryShort"; "Long"; "Brief"] questionType then
    "Generate " ++ questionType ++ " Answer Type Questions. " ++ nl ++
    "    CRITICAL: You are an expert Board Examiner (e.g., CBSE Class 10/12). " ++ nl ++
    "    - You MUST provide a 'modelAnswer' field." ++ nl ++
    "    - The 'modelAnswer' must be a " ++ dq ++ "Topper's Answer" ++ dq ++ "." ++ nl ++
    "    - Analyze previous board topper sheets: use point-wise answers, highlight keywords, and structure the answer exactly how a student needs to write it to get FULL MARKS." ++ nl ++
    "    - Do not just copy the PDF text. Synthesize a perfect exam answer." ++ nl ++
    "    - 'options' and 'correctAnswer' fields should be empty/null."
  else if includes ["CaseBased"; "ExtractBased"] questionType then
    "Generate " ++ questionType ++ " questions." ++ nl ++
    "     - Select a relevant paragraph or case from the text and put it in the 'context' field." ++ nl ++
    "     - Ask a question based on that context." ++ nl ++
    "     - Provide a 'modelAnswer' that yields full marks based on the context."
  else "".

Definition quiz_request (pdfText : string) (numQuestions : Z)
  (difficulty questionType examContext : string) : GenerateContentParameters :=
  {| model := "gemini-flash-latest";
     contents :=
       prompt_contents
         (quiz_prompt pdfText numQuestions difficulty questionType examContext
            (typeInstructions questionType));
     config := {| responseMimeType := "application/json";
                  responseSchema := quizSchema |} |}.

Section Client.

Variable JSON_parse : string -> exn + json.
Variable network : Network.

(** The statements of the [try] block after the request. *)
Definition validate (questionType : string) (response : GenerateContentResponse)
  : exn + list QuizQuestion :=
  jsonString <~ text_trim response ;;
  parsed <~ JSON_parse jsonString ;;
  questions <~ get parsed "questions" ;;
  if negb (truthy questions) || negb (isArray questions) then
    inl (Error "Invalid response format from AI. Expected a 'questions' array.")
  else
    map_throwing (toQuizQuestion questionType) (elements questions).

Definition generateQuiz (env : environment) (pdfText : string) (numQuestions : Z)
  (difficulty questionType examContext : string) : M (list QuizQuestion) :=
  key <- read (process_env_API_KEY env) ;;
  match key with
  | Some apiKey =>
      if apiKey =? "" then throw (Error "API_KEY environment variable not set")
      else
        let ai := {| apiKey := apiKey |} in
        try_catch
          (response <-
             generateContent network ai
               (quiz_request pdfText numQuestions difficulty questionType examContext) ;;
           lift (validate questionType response))
          (fun error =>
             emit (console_error "Error generating quiz with Gemini:" error) ;;
             throw (Error "Failed to generate quiz. The AI model might be unavailable or the content could not be processed."))
  | None => throw (Error "API_KEY environment variable not set")
  end.

(** The request of [evaluateAnswer]: the image is always sent as a JPEG. The
    prompt is the template of the other version, character for character. *)
Definition evaluation_request (question modelAnswer imageBase64 : string)
  (maxMarks : Z) : GenerateContentParameters :=
  {| model := "gemini-2.5-flash";
     contents :=
       parts_contents
         [inlineData "image/jpeg" imageBase64;
          text_part (Part000.evaluation_prompt question modelAnswer maxMarks)];
     config := {| responseMimeType := "application/json";
                  responseSchema := evaluationSchema |} |}.

Definition evaluateAnswer (env : environment)
  (question modelAnswer imageBase64 : string) (maxMarks : Z)
  : M Part000.EvaluationResult :=
  key <- read (process_env_API_KEY env) ;;
  match key with
  | Some apiKey =>
      if apiKey =? "" then throw (Error "API_KEY environment variable not set")
      else
        let ai := {| apiKey := apiKey |} in
        try_catch
          (response <-
             generateContent network ai
               (evaluation_request question modelAnswer imageBase64 maxMarks) ;;
           lift (jsonString <~ text_trim response ;;
                 JSON_parse jsonString))
          (fun error =>
             emit (console_error "Error evaluating answer:" error) ;;
             throw (Error "Failed to evaluate answer. Please try again."))
  | None => throw (Error "API_KEY environment variable not set")
  end.

End Client.

End GeminiService.

(** ** Text extraction ([extractTextFromPdf], the same function in both
    versions of the service) *)

Module Pdf.

(** What pdf.js gives for a page: [getPage(i)] or [getTextContent()] throws,
    or the page gives the [str] of its items, in order. *)
Definition Page : Type := exn + list string.

(** The outcome of [readAsArrayBuffer]: [onerror] fires, or [onload] fires
    with [event.target?.result], [None] when it is missing. *)
Inductive FileRead : Type :=
| onerror
| onload (result : option (list Byte.byte)).

(** [items.map(s => s.str).join(' ')]. *)
Definition page_text (items : list string) : string := String.concat " " items.

(** The loop over the pages, from the first to [numPages], with the text
    accumulated so far. *)
Fixpoint read_pages (pages : list Page) (textContent : string) : exn + string :=
  match pages with
  | [] => inr textContent
  | page :: rest =>
      items <~ page ;;
      read_pages rest (textContent ++ page_text items)
  end.

(** ["..." + error.message]: a missing message is written [undefined]. *)
Definition message_text (e : exn) : string :=
  match message e with
  | Some m => m
  | None => "undefined"
  end.

Section Extraction.

(** [pdfjsLib.getDocument(typedarray).promise]: throws, or gives the pages. *)
Variable getDocument : list Byte.byte -> exn + list Page.

Definition extractTextFromPdf (file : FileRead) : exn + string :=
  match file with
  | onerror => inl (Error "Error reading file")
  | onload None => inl (Error "Failed to read file")
  | onload (Some typedarray) =>
      match (pdf <~ getDocument typedarray ;; read_pages pdf "") with
      | inr textContent => inr textContent
      | inl error => inl (Error ("Failed to parse PDF: " ++ message_text error))
      end
  end.

End Extraction.

End Pdf.

(** ** The quiz view ([src/components/QuizView.tsx], and its later version
    in the second part of [src/components/PdfUploadForm.tsx]) *)

Module QuizView.

(** [s.padStart(targetLength, c)] for a pad string of one character. *)
Definition padStart (targetLength : nat) (c : ascii) (s : string) : string :=
  string_of_list_ascii (repeat c (targetLength - String.length s)) ++ s.

(** The display of a number of seconds that is an integer: [Math.floor] of
    the quotient rounds down, [%] takes the sign of the dividend. *)
Definition formatTime (seconds : Z) : string :=
  let mins := (seconds / 60)%Z in
  let secs := Z.rem seconds 60 in
  Number_toString mins ++ ":" ++ padStart 2 "0" (Number_toString secs).

(** The seconds left at the time [now], both times in milliseconds. *)
Definition calculateTimeLeft (expiryTime now : Z) : Z :=
  let diff := ((expiryTime - now) / 1000)%Z in
  if (0 <? diff)%Z then diff else 0%Z.

(** What the timer effect stores at the time [now]: [null] without an
    expiry time ([null] or [0]). *)
Definition timeLeft (expiryTime : option Z) (now : Z) : option Z :=
  match expiryTime with
  | Some t => if (t =? 0)%Z then None else Some (calculateTimeLeft t now)
  | None => None
  end.

Definition isSubjective (type : string) : bool :=
  includes ["Short"; "VeryShort"; "Long"; "CaseBased"; "ExtractBased"] type.

(** The heuristic of [handleUploadAndEvaluate] for the maximum of marks. *)
Definition marks_heuristic (type : string) : Z :=
  if type =? "VeryShort" then 2 else if type =? "Short" then 3 else 5.

(** The maximum that the later version passes to [evaluateAnswer]:
    [question.marks || heuristic]. *)
Definition maxMarks (question : Part000.QuizQuestion) : Z :=
  if (Part000.marks question =? 0)%Z then marks_heuristic (Part000.type question)
  else Part000.marks question.

(** [handleTextSubmit]: the answer passed to [onAnswerSelect], if any. *)
Definition handleTextSubmit (textInput : string) : option string :=
  if trim textInput =? "" then None else Some (trim textInput).

End QuizView.

(** ** The answers of a quiz (JavaScript arrays of [string | null]) *)

Module Answers.

(** An element of [userAnswers]: [null] until the question is answered,
    then the answer. An index that was never written is a hole; the spread
    of an array reads a hole as [undefined]. *)
Inductive slot : Type :=
| hole
| undefined_slot
| null_slot
| text_slot (answer : string).

(** [new Array(n).fill(null)]. *)
Definition fresh (n : nat) : list slot := repeat null_slot n.

(** [[...a]]. *)
Definition spread (a : list slot) : list slot :=
  map (fun x => match x with hole => undefined_slot | _ => x end) a.

(** [a[i] = v], for an index that is a natural number: past the end the
    array grows and the indices skipped are holes. *)
Fixpoint array_set (a : list slot) (i : nat) (v : slot) : list slot :=
  match a, i with
  | [], O => [v]
  | [], S i' => hole :: array_set [] i' v
  | _ :: rest, O => v :: rest
  | x :: rest, S i' => x :: array_set rest i' v
  end.

(** [answer === v] for an element that is not a hole. *)
Definition strict_equal (answer : slot) (v : value) : bool :=
  match answer, v with
  | text_slot s, Some (JStr s') => s =? s'
  | null_slot, Some JNull => true
  | undefined_slot, None => true
  | _, _ => false
  end.

End Answers.

(** ** The results view ([src/components/ResultsView.tsx]) *)

Module ResultsView.

Import Answers.

Section Score.

(** The questions, and [question.correctAnswer]. *)
Variable Q : Type.
Variable correctAnswer : Q -> value.

(** [userAnswers.reduce((acc, answer, index) => ..., 0)] from the index
    [index] on: [reduce] skips the holes, and reading [correctAnswer] of a
    question that does not exist throws. *)
Fixpoint reduce_from (quizData : list Q) (userAnswers : list slot) (index : nat)
  (acc : Z) : exn + Z :=
  match userAnswers with
  | [] => inr acc
  | hole :: rest => reduce_from quizData rest (S index) acc
  | answer :: rest =>
      match nth_error quizData index with
      | None => inl (cannot_read "undefined" "correctAnswer")
      | Some question =>
          reduce_from quizData rest (S index)
            (if strict_equal answer (correctAnswer question) then acc + 1 else acc)%Z
      end
  end.

Definition score (quizData : list Q) (userAnswers : list slot) : exn + Z :=
  reduce_from quizData userAnswers 0 0.

End Score.

End ResultsView.

(** ** The application state and its handlers ([src/App.tsx]) *)

Module App.

Import Answers.

Inductive AppState : Type :=
| setup
| loading
| quiz
| results
| browse
| profile.

Definition AppState_eqb (a b : AppState) : bool :=
  match a, b with
  | setup, setup | loading, loading | quiz, quiz
  | results, results | browse, browse | profile, profile => true
  | _, _ => false
  end.

Section Handlers.

(** The handlers never look inside a question. *)
Variable Q : Type.

(** [SavedQuiz] of [src/types.ts]. *)
Record SavedQuiz : Type :=
  { id : string;
    name : string;
    questions : list Q;
    creatorId : string;
    creatorName : string;
    difficulty : option string;
    timeLimit : option Z;
    questionType : option string }.

(** The state variables of the component. The index of the current
    question is a natural number. *)
Record state : Type :=
  { appState : AppState;
    quizData : list Q;
    currentQuizName : string;
    userAnswers : list slot;
    currentQuestionIndex : nat;
    quizExpiryTime : option Z;
    error : option string;
    isOverviewOpen : bool }.

Definition initial : state :=
  {| appState := setup; quizData := []; currentQuizName := ""; userAnswers := [];
     currentQuestionIndex := 0; quizExpiryTime := None; error := None;
     isOverviewOpen := false |}.

Definition setAppState (page : AppState) (st : state) : state :=
  {| appState := page; quizData := quizData st;
     currentQuizName := currentQuizName st; userAnswers := userAnswers st;
     currentQuestionIndex := currentQuestionIndex st;
     quizExpiryTime := quizExpiryTime st; error := error st;
     isOverviewOpen := isOverviewOpen st |}.

Definition setCurrentQuestionIndex (index : nat) (st : state) : state :=
  {| appState := appState st; quizData := quizData st;
     currentQuizName := currentQuizName st; userAnswers := userAnswers st;
     currentQuestionIndex := index;
     quizExpiryTime := quizExpiryTime st; error := error st;
     isOverviewOpen := isOverviewOpen st |}.

Definition setUserAnswers (answers : list slot) (st : state) : state :=
  {| appState := appState st; quizData := quizData st;
     currentQuizName := currentQuizName st; userAnswers := answers;
     currentQuestionIndex := currentQuestionIndex st;
     quizExpiryTime := quizExpiryTime st; error := error st;
     isOverviewOpen := isOverviewOpen st |}.

Definition setIsOverviewOpen (open : bool) (st : state) : state :=
  {| appState := appState st; quizData := quizData st;
     currentQuizName := currentQuizName st; userAnswers := userAnswers st;
     currentQuestionIndex := currentQuestionIndex st;
     quizExpiryTime := quizExpiryTime st; error := error st;
     isOverviewOpen := open |}.

(** The expiry time of a quiz started at the time [now] (milliseconds) with
    a limit in minutes: [timeLimit > 0 ? Date.now() + timeLimit * 60 * 1000
    : null]. *)
Definition expiry (timeLimit now : Z) : option Z :=
  if (0 <? timeLimit)%Z then Some (now + timeLimit * 60 * 1000)%Z else None.

(** Every render of the component makes its own handlers, which close over
    the state variables of that render. [handleAnswerSelect] copies the
    [userAnswers] of its render, writes the answer at the
    [currentQuestionIndex] of its render and installs the copy with
    [setUserAnswers], which replaces the answers of the state at the time
    of the call whatever they are. The quiz view calls the handler it was
    given after [await evaluateAnswer], so the render of the handler
    ([render]) may be older than the state at the time of the call ([st]);
    a call from a button of the view on screen is the case [render = st]. *)
Definition handleAnswerSelect (render : state) (answer : string) (st : state)
  : state :=
  let newAnswers := spread (userAnswers render) in
  setUserAnswers
    (array_set newAnswers (currentQuestionIndex render) (text_slot answer)) st.

(** The handlers below are called from the buttons of the view on screen
    only, with no [await] before the call: the render they close over is
    the state at the time of the call. *)

Definition handleNextQuestion (st : state) : state :=
  if (Z.of_nat (currentQuestionIndex st)
      <? Z.of_nat (List.length (quizData st)) - 1)%Z
  then setCurrentQuestionIndex (currentQuestionIndex st + 1) st
  else setAppState results st.

Definition handlePreviousQuestion (st : state) : state :=
  if (0 <? currentQuestionIndex st)%nat
  then setCurrentQuestionIndex (currentQuestionIndex st - 1) st
  else st.

Definition resetQuiz (st : state) : state :=
  {| appState := setup; quizData := []; currentQuizName := ""; userAnswers := [];
     currentQuestionIndex := 0; quizExpiryTime := None; error := None;
     isOverviewOpen := isOverviewOpen st |}.

Definition handleStartQuiz (quiz : SavedQuiz) (now : Z) (st : state) : state :=
  {| appState := App.quiz;
     quizData := questions quiz;
     currentQuizName := name quiz;
     userAnswers := fresh (List.length (questions quiz));
     currentQuestionIndex := 0;
     quizExpiryTime :=
       match timeLimit quiz with
       | Some limit => if (limit =? 0)%Z then None else expiry limit now
       | None => None
       end;
     error := error st;
     isOverviewOpen := isOverviewOpen st |}.

Definition handleTimeUp (st : state) : state := setAppState results st.

Definition handleLogout (st : state) : state := setAppState browse st.

Definition handleNavigate (page : AppState) (st : state) : state :=
  if AppState_eqb page setup then resetQuiz st else setAppState page st.

Definition handleToggleOverview (st : state) : state :=
  setIsOverviewOpen (negb (isOverviewOpen st)) st.

Definition handleJumpToQuestion (index : nat) (st : state) : state :=
  setIsOverviewOpen false (setCurrentQuestionIndex index st).

(** The state once a generation has succeeded at the time [now]. *)
Definition generated (questions : list Q) (quizName : string) (timeLimit now : Z)
  (st : state) : state :=
  {| appState := App.quiz;
     quizData := questions;
     currentQuizName := quizName;
     userAnswers := fresh (List.length questions);
     currentQuestionIndex := 0;
     quizExpiryTime := expiry timeLimit now;
     error := None;
     isOverviewOpen := isOverviewOpen st |}.

(** The state once a generation has failed with the exception [err].
    Every exception of this development is an [Error] object, so that
    [err instanceof Error] holds and the error shown is [err.message]. *)
Definition failed (err : exn) (st : state) : state :=
  {| appState := setup; quizData := quizData st;
     currentQuizName := currentQuizName st; userAnswers := userAnswers st;
     currentQuestionIndex := currentQuestionIndex st;
     quizExpiryTime := quizExpiryTime st; error := message err;
     isOverviewOpen := isOverviewOpen st |}.

End Handlers.

Arguments appState {Q} _.
Arguments quizData {Q} _.
Arguments currentQuizName {Q} _.
Arguments userAnswers {Q} _.
Arguments currentQuestionIndex {Q} _.
Arguments quizExpiryTime {Q} _.
Arguments error {Q} _.
Arguments isOverviewOpen {Q} _.
Arguments setAppState {Q} _ _.
Arguments setCurrentQuestionIndex {Q} _ _.
Arguments handleAnswerSelect {Q} _ _ _.
Arguments handleNextQuestion {Q} _.
Arguments handlePreviousQuestion {Q} _.
Arguments resetQuiz {Q} _.
Arguments handleStartQuiz {Q} _ _ _.
Arguments handleTimeUp {Q} _.
Arguments handleLogout {Q} _.
Arguments handleNavigate {Q} _ _.
Arguments handleToggleOverview {Q} _.
Arguments handleJumpToQuestion {Q} _ _.
Arguments generated {Q} _ _ _ _ _.
Arguments failed {Q} _ _.
Arguments questions {Q} _.
Arguments name {Q} _.
Arguments timeLimit {Q} _.

End App.

(** ** The browser: the console and [localStorage] *)

Module Browser.

(** The items of [localStorage]: a key is bound once. *)
Definition Storage : Type := list (string * string).

Fixpoint lookup (key : string) (items : Storage) : option string :=
  match items with
  | [] => None
  | (k, v) :: rest => if k =? key then Some v else lookup key rest
  end.

Fixpoint remove (key : string) (items : Storage) : Storage :=
  match items with
  | [] => []
  | (k, v) :: rest =>
      if k =? key then remove key rest else (k, v) :: remove key rest
  end.

Record world : Type := { console : list event; items : Storage }.

(** An access to the storage. *)
Inductive access : Type :=
| reading (key : string)
| writing (key value : string).

(** Whether an access throws (the storage is blocked, the quota is
    exceeded), given the world it is made in. *)
Definition Faults : Type := world -> access -> option exn.

(** A computation on the world that returns or throws. *)
Definition B (A : Type) : Type := world -> (exn + A) * world.

Definition retB {A} (a : A) : B A := fun w => (inr a, w).

Definition bindB {A C} (m : B A) (k : A -> B C) : B C :=
  fun w =>
    match m w with
    | (inr a, w') => k a w'
    | (inl e, w') => (inl e, w')
    end.

Definition try_catchB {A} (m : B A) (handler : exn -> B A) : B A :=
  fun w =>
    match m w with
    | (inr a, w') => (inr a, w')
    | (inl e, w') => handler e w'
    end.

(** A step that returns or throws without an effect. *)
Definition liftR {A} (r : exn + A) : B A := fun w => (r, w).

(** A computation of the service, run on the console of the world. *)
Definition liftM {A} (m : M A) : B A :=
  fun w =>
    let (r, log) := m (console w) in
    (r, {| console := log; items := items w |}).

Definition console_errorB (label : string) (e : exn) : B unit :=
  liftM (emit (console_error label e)).

Definition getItem (faults : Faults) (key : string) : B (option string) :=
  fun w =>
    match faults w (reading key) with
    | Some e => (inl e, w)
    | None => (inr (lookup key (items w)), w)
    end.

Definition setItem (faults : Faults) (key value : string) : B unit :=
  fun w =>
    match faults w (writing key value) with
    | Some e => (inl e, w)
    | None =>
        (inr tt, {| console := console w;
                    items := (key, value) :: remove key (items w) |})
    end.

Declare Scope browser_scope.
Delimit Scope browser_scope with browser.
Notation "x <- m ;; k" := (bindB m (fun x => k))
  (at level 61, m at next level, right associativity) : browser_scope.
Notation "m ;; k" := (bindB m (fun _ => k))
  (at level 61, right associativity) : browser_scope.

End Browser.

(** ** The quiz library ([src/services/quizStorageService.ts]) *)

Module QuizStorageService.

Import Browser.
Local Open Scope browser_scope.

Definition STORAGE_KEY : string := "communityQuizzes".

(** [User] of [src/types.ts]. *)
Record User : Type :=
  { id : string; name : string; email : string; picture : string }.

(** [quiz.creatorId === userId]. *)
Definition created_by (userId : string) (quiz : json) : exn + bool :=
  creatorId <~ get quiz "creatorId" ;;
  inr match creatorId with
      | Some (JStr s) => s =? userId
      | _ => false
      end.

(** [quizzes.filter(p)] for a callback that can throw. *)
Fixpoint filter_throwing {A} (p : A -> exn + bool) (l : list A) : exn + list A :=
  match l with
  | [] => inr []
  | x :: rest =>
      keep <~ p x ;;
      kept <~ filter_throwing p rest ;;
      inr (if keep then x :: kept else kept)
  end.

(** The object that [saveQuiz] builds, as [JSON.stringify] reads it; the
    questions are given as the JSON values of their objects. *)
Definition newQuiz (quizName : string) (questions : list json) (user : User)
  (difficulty : string) (timeLimit now : Z) : json :=
  JObj [("id", JStr ("quiz_" ++ Number_toString now));
        ("name", JStr quizName);
        ("questions", JArr questions);
        ("creatorId", JStr (id user));
        ("creatorName", JStr (name user));
        ("difficulty", JStr difficulty);
        ("timeLimit", JNum (inject_Z timeLimit))].

Section Service.

Variable JSON_parse : string -> exn + json.
Variable JSON_stringify : json -> string.
Variable faults : Faults.

Definition getQuizzes : B (list json) :=
  try_catchB
    (quizzesJSON <- getItem faults STORAGE_KEY ;;
     match quizzesJSON with
     | Some quizzesText =>
         if quizzesText =? "" then retB []
         else
           quizzes <- liftR (JSON_parse quizzesText) ;;
           retB (if isArray (Some quizzes) then elements (Some quizzes) else [])
     | None => retB []
     end)
    (fun error =>
       console_errorB "Failed to retrieve quizzes from localStorage:" error ;;
       retB []).

Definition getQuizzesByCreator (userId : string) : B (list json) :=
  allQuizzes <- getQuizzes ;;
  liftR (filter_throwing (created_by userId) allQuizzes).

(** [saveQuiz] at the time [now] ([new Date().getTime()]). *)
Definition saveQuiz (quizName : string) (questions : list json) (user : User)
  (difficulty : string) (timeLimit now : Z) : B unit :=
  try_catchB
    (quizzes <- getQuizzes ;;
     let newQuiz := newQuiz quizName questions user difficulty timeLimit now in
     setItem faults STORAGE_KEY (JSON_stringify (JArr (newQuiz :: quizzes))))
    (fun error => console_errorB "Failed to save quiz to localStorage:" error).

End Service.

End QuizStorageService.

(** ** The generation handler of the application ([handleGenerateQuiz] of
    [src/App.tsx]) *)

Module Generation.

Import Browser.
Local Open Scope browser_scope.

Definition GUEST_USER : QuizStorageService.User :=
  {| QuizStorageService.id := "guest_user";
     QuizStorageService.name := "Student";
     QuizStorageService.email := "guest@student.com";
     QuizStorageService.picture :=
       "https://api.dicebear.com/8.x/notionists/svg?seed=Student" |}.

(** The object of a question as [JSON.stringify] reads it: a property whose
    value is [undefined] is left out. *)
Definition json_of_question (q : Part000.QuizQuestion) : json :=
  JObj ([("type", JStr (Part000.type q))]
        ++ match Part000.question q with
           | Some v => [("question", v)]
           | None => []
           end
        ++ [("options", Part000.options q);
            ("correctAnswer", Part000.correctAnswer q);
            ("modelAnswer", Part000.modelAnswer q);
            ("context", Part000.context q);
            ("explanation", Part000.explanation q);
            ("marks", JNum (inject_Z (Part000.marks q)))])%list.

(** The state while the quiz is generated: [setAppState('loading')] and
    [setError(null)]. *)
Definition generating (st : App.state Part000.QuizQuestion)
  : App.state Part000.QuizQuestion :=
  {| App.appState := App.loading; App.quizData := App.quizData st;
     App.currentQuizName := App.currentQuizName st;
     App.userAnswers := App.userAnswers st;
     App.currentQuestionIndex := App.currentQuestionIndex st;
     App.quizExpiryTime := App.quizExpiryTime st; App.error := None;
     App.isOverviewOpen := App.isOverviewOpen st |}.

Section Handler.

Variable JSON_parse : string -> exn + json.
Variable JSON_stringify : json -> string.
Variable network : Network.
Variable faults : Faults.
Variable getDocument : list Byte.byte -> exn + list Pdf.Page.
Variable env : environment.

(** The state after the call, with the time [now] of [Date.now()] and the
    time [saved_at] of the [new Date()] of [saveQuiz]. An exception is
    caught with the state as it is when it is thrown. *)
Definition handleGenerateQuiz (file : Pdf.FileRead) (numQuestions : Z)
  (quizName difficulty : string) (timeLimit : Z)
  (questionType examContext : string) (now saved_at : Z)
  (st : App.state Part000.QuizQuestion) : B (App.state Part000.QuizQuestion) :=
  let st1 := generating st in
  try_catchB
    (pdfText <- liftR (Pdf.extractTextFromPdf getDocument file) ;;
     questions <-
       liftM (Part000.generateQuiz JSON_parse network env pdfText numQuestions
                difficulty questionType examContext) ;;
     let st2 := App.generated questions quizName timeLimit now st1 in
     try_catchB
       (QuizStorageService.saveQuiz JSON_parse JSON_stringify faults quizName
          (map json_of_question questions) GUEST_USER difficulty timeLimit
          saved_at ;;
        retB st2)
       (fun err => retB (App.failed err st2)))
    (fun err => retB (App.failed err st1)).

End Handler.

End Generation.

(** ** A runtime to run the client on response texts *)

(** [JSON.parse] by the reader above. The message of the [SyntaxError]
    depends on the engine; one text stands for all of them. *)
Definition JSON_parse_reader (s : string) : exn + json :=
  match parse_json s with
  | Some v => inr v
  | None => inl (SyntaxError "Unexpected token in JSON")
  end.

(** A far end that answers by the model of the request alone. *)
Definition network_by_model
  (answer : string -> exn + GenerateContentResponse) : Network :=
  fun _ _ params => answer (model params).

(** A far end where every model answers with the same text. *)
Definition network_text (t : string) : Network :=
  fun _ _ _ => inr {| text := Some t |}.

Definition env_with_key : environment :=
  {| process_env_API_KEY := Holds "k";
     import_meta_env_VITE_API_KEY := Unset |}.

Definition env_without_key : environment :=
  {| process_env_API_KEY := Unset;
     import_meta_env_VITE_API_KEY := Unset |}.

(** A far end whose primary model is out of quota and whose secondary model
    answers with the text [t]. *)
Definition primary_down (t : string) : Network :=
  network_by_model
    (fun m =>
       if m =? "gemini-3-pro-preview" then inl (Error "quota exceeded")
       else inr {| text := Some t |}).

(** A far end where both models fail, the secondary with message [m]. *)
Definition both_down (m : option string) : Network :=
  network_by_model
    (fun model =>
       if model =? "gemini-3-pro-preview" then inl (Error "quota exceeded")
       else inl (Throw "ApiError" m)).

(** Two questions that claim kinds and marks of their own. *)
Definition two_questions : string :=
  quoted "{'questions':[{'type':'Long','marks':9,'question':'Q1','options':['a','b','c','d'],'correctAnswer':'a'},{'type':'Short','question':'Q2','modelAnswer':'A2'}]}".

(** A grade above the maximum. *)
Definition seven_out_of_five : string :=
  quoted "{'score':7,'maxMarks':5,'mistakes':['late'],'feedback':'ok'}".

(** A text of 30001 characters. *)
Definition long_text : string := string_of_list_ascii (repeat "a"%char 30001).

(** * Vocabulary of the properties *)

(** The key that a lookup path makes available, if any. *)
Definition credential (l : lookup) : option string :=
  match l with
  | Holds v => if v =? "" then None else Some v
  | Unset => None
  | Raises _ => None
  end.

(** No credential through either of the two lookup paths. *)
Definition no_credential (env : environment) : Prop :=
  credential (process_env_API_KEY env) = None /\
  credential (import_meta_env_VITE_API_KEY env) = None.

(** The message of an exception when it has one that is not empty. *)
Definition detail (e : exn) : option string :=
  match message e with
  | Some m => if m =? "" then None else Some m
  | None => None
  end.

(** The four required fields of an evaluation result are present. *)
Definition complete_result (r : json) : Prop :=
  forall p, In p ["score"; "maxMarks"; "mistakes"; "feedback"] ->
  exists v, get r p = inr (Some v).

(** The result carries a score that is a number and at most [maxMarks]. *)
Definition score_within (r : json) (maxMarks : Z) : Prop :=
  exists s, get r "score" = inr (Some (JNum s)) /\ (s <= inject_Z maxMarks)%Q.

Section Vocabulary.

Variable JSON_parse : string -> exn + json.
Variable network : Network.

(** What an attempt of [generateQuiz] yields once the far end has answered:
    the rest of the [try] block. *)
Definition validated (questionType : string)
  (answer : exn + GenerateContentResponse) : exn + list Part000.QuizQuestion :=
  response <~ answer ;;
  jsonString <~ text_trim response ;;
  Part000.processResponse JSON_parse questionType jsonString.

(** The same for [evaluateAnswer]. *)
Definition parsed_answer (answer : exn + GenerateContentResponse)
  : exn + Part000.EvaluationResult :=
  response <~ answer ;;
  jsonString <~ text_trim response ;;
  JSON_parse jsonString.

(** C5 as the specification words it: no call returns a result that misses
    a required field. *)
Definition returns_complete_results (env : environment)
  (question modelAnswer imageBase64 mimeType : string) (maxMarks : Z)
  (log : list event) : Prop :=
  forall r log',
    Part000.evaluateAnswer JSON_parse network env question modelAnswer
      imageBase64 mimeType maxMarks log = (inr r, log') ->
    complete_result r.

(** C6 as the specification words it: with a positive [maxMarks] the
    returned score is at most [maxMarks]. *)
Definition returns_score_within (env : environment)
  (question modelAnswer imageBase64 mimeType : string) (maxMarks : Z)
  (log : list event) : Prop :=
  (0 < maxMarks)%Z ->
  forall r log',
    Part000.evaluateAnswer JSON_parse network env question modelAnswer
      imageBase64 mimeType maxMarks log = (inr r, log') ->
    score_within r maxMarks.

(** C10 as the specification words it: a primary response whose parsed body
    has a [questions] array gives one question per element. *)
Definition returns_one_per_element (env : environment) (pdfText : string)
  (numQuestions : Z) (difficulty questionType examContext : string)
  (log : list event) : Prop :=
  forall key t parsed items,
    Part000.getApiKey env log = (inr key, log) ->
    network log {| apiKey := key |}
      (Part000.quiz_request Part000.PRIMARY_MODEL pdfText numQuestions difficulty
         questionType examContext) = inr {| text := Some t |} ->
    JSON_parse (trim t) = inr parsed ->
    get parsed "questions" = inr (Some (JArr items)) ->
    exists qs log',
      Part000.generateQuiz JSON_parse network env pdfText numQuestions difficulty
        questionType examContext log = (inr qs, log') /\
      List.length qs = List.length items.

End Vocabulary.

(** ** A writer of JSON texts

    [JSON.stringify] belongs to the runtime and is a parameter of the quiz
    library. [stringify] is one instance, used to run the library: numbers
    are written in decimal notation with at most 17 decimals. *)

Definition hex_digit (n : nat) : ascii :=
  ascii_of_nat (if (n <? 10)%nat then 48 + n else 87 + n).

Definition escape_char (c : ascii) : string :=
  let n := nat_of_ascii c in
  if (c =? dquote)%char then String backslash dq
  else if (c =? backslash)%char then String backslash (String backslash "")
  else if (n =? 8)%nat then String backslash "b"
  else if (n =? 9)%nat then String backslash "t"
  else if (n =? 10)%nat then String backslash "n"
  else if (n =? 12)%nat then String backslash "f"
  else if (n =? 13)%nat then String backslash "r"
  else if (n <? 32)%nat then
    String backslash
      (String "u" (String "0" (String "0"
         (String (hex_digit (n / 16)) (String (hex_digit (n mod 16)) "")))))
  else String c "".

Fixpoint escape (s : string) : string :=
  match s with
  | String c r => escape_char c ++ escape r
  | EmptyString => EmptyString
  end.

Definition quote (s : string) : string := dq ++ escape s ++ dq.

(** The decimals of [r / d], for [0 <= r < d]. *)
Fixpoint fraction_digits (fuel : nat) (r d : Z) : string :=
  match fuel with
  | O => ""
  | S fuel' =>
      if (r =? 0)%Z then ""
      else Number_toString (r * 10 / d) ++ fraction_digits fuel' ((r * 10) mod d) d
  end.

Definition number_text (q : Q) : string :=
  let n := Qnum q in
  let d := Zpos (Qden q) in
  let sign := if (n <? 0)%Z then "-" else "" in
  let whole := (Z.abs n / d)%Z in
  let r := (Z.abs n mod d)%Z in
  if (r =? 0)%Z then sign ++ Number_toString whole
  else sign ++ Number_toString whole ++ "." ++ fraction_digits 17 r d.

Fixpoint stringify (v : json) : string :=
  match v with
  | JNull => "null"
  | JBool b => if b then "true" else "false"
  | JNum n => number_text n
  | JStr s => quote s
  | JArr items => "[" ++ String.concat "," (map stringify items) ++ "]"
  | JObj members =>
      "{" ++ String.concat ","
               (map (fun kv => quote (fst kv) ++ ":" ++ stringify (snd kv)) members)
      ++ "}"
  end.

(** A storage that never throws. *)
Definition no_fault : Browser.Faults := fun _ _ => None.

(** A storage whose quota is exceeded by every write. *)
Definition quota_exceeded : Browser.Faults :=
  fun _ a =>
    match a with
    | Browser.reading _ => None
    | Browser.writing _ _ =>
        Some (Throw "QuotaExceededError" (Some "The quota has been exceeded."))
    end.

Definition empty_world : Browser.world :=
  {| Browser.console := []; Browser.items := [] |}.

(** A document of two pages. *)
Definition two_pages : list Byte.byte -> exn + list Pdf.Page :=
  fun _ => inr [inr ["Water"; "boils"]; inr ["at"; "100"]].

(** * Vocabulary of the further properties *)

(** A field filled by [v || d]: it is the default or a truthy value. *)
Definition defaulted (d v : json) : Prop :=
  v = d \/ truthy (Some v) = true.

(** The fields of a question that the mapping fills with defaults. *)
Definition fields_defined (q : Part000.QuizQuestion) : Prop :=
  truthy (Some (Part000.options q)) = true /\
  defaulted (JStr "") (Part000.correctAnswer q) /\
  defaulted (JStr "") (Part000.modelAnswer q) /\
  defaulted (JStr "") (Part000.context q) /\
  defaulted (JStr "") (Part000.explanation q).

(** An environment whose first lookup path holds an empty key and whose
    second path holds the key ["v"]. *)
Definition env_with_vite_key : environment :=
  {| process_env_API_KEY := Holds "";
     import_meta_env_VITE_API_KEY := Holds "v" |}.

(** An environment whose first lookup path throws on access while the
    second path holds a key. *)
Definition env_access_throws : environment :=
  {| process_env_API_KEY := Raises (Throw "ReferenceError" (Some "process is not defined"));
     import_meta_env_VITE_API_KEY := Holds "v" |}.

(** The entries of [userAnswers] that hold an answer. *)
Definition is_text (x : Answers.slot) : bool :=
  match x with
  | Answers.text_slot _ => true
  | _ => false
  end.

Definition answered (userAnswers : list Answers.slot) : nat :=
  List.length (filter is_text userAnswers).

(** A state in which a quiz can be played: the current index designates a
    question, and there is one entry of [userAnswers] per question, each
    [null] or an answer. *)
Definition playable {Q} (st : App.state Q) : Prop :=
  (App.currentQuestionIndex st < List.length (App.quizData st))%nat /\
  List.length (App.userAnswers st) = List.length (App.quizData st) /\
  Forall (fun x => x = Answers.null_slot \/ is_text x = true) (App.userAnswers st).

(** A quiz of three questions that has just been generated. *)
Definition sample_state : App.state string :=
  App.generated ["q1"; "q2"; "q3"] "Quiz" 0 1700000000000 (App.initial string).

(** The same quiz once the player has gone to the second question and
    answered it, each time through the handler of the state on screen. *)
Definition second_answered : App.state string :=
  let st := App.handleNextQuestion sample_state in
  App.handleAnswerSelect st "b" st.

(** A quiz of one question, generated after the quiz of three questions. *)
Definition later_quiz : App.state string :=
  App.generated ["q"] "Later" 0 1700000100000 sample_state.

(** Whether a stored quiz names the user as its creator. *)
Definition is_created_by (userId : string) (quiz : json) : bool :=
  match quiz with
  | JObj members =>
      match member "creatorId" members with
      | Some (JStr s) => s =? userId
      | _ => false
      end
  | _ => false
  end.

(** What [getQuizzes] reads in a world: the array under the key of the
    library, when reading does not throw and the item parses as an array. *)
Definition stored_quizzes (JSON_parse : string -> exn + json)
  (faults : Browser.Faults) (w : Browser.world) : list json :=
  match faults w (Browser.reading QuizStorageService.STORAGE_KEY) with
  | Some _ => []
  | None =>
      match Browser.lookup QuizStorageService.STORAGE_KEY (Browser.items w) with
      | Some quizzesText =>
          if quizzesText =? "" then []
          else
            match JSON_parse quizzesText with
            | inr (JArr quizzes) => quizzes
            | _ => []
            end
      | None => []
      end
  end.

(** A library of three quizzes by two creators. *)
Definition sample_library : Browser.world :=
  {| Browser.console := [];
     Browser.items :=
       [(QuizStorageService.STORAGE_KEY,
         quoted "[{'name':'A','creatorId':'u1'},{'name':'B','creatorId':'u2'},{'name':'C','creatorId':'u1'}]")] |}.

(** * Properties *)

(** ** The reader and the string helpers at sample texts *)

Example parse_json_object :
  parse_json (quoted " {'a': [1, 2.50, -1e2, null, true], 'b': 'x\ny'} ")
  = Some (JObj [("a", JArr [JNum 1; JNum (5 # 2); JNum (-100); JNull; JBool true]);
                ("b", JStr ("x" ++ nl ++ "y"))]).
Proof. reflexivity. Qed.

Example parse_json_refuses :
  map parse_json ["01"; "[1,]"; quoted "{'a':1,}"; "nul"; "1 2"; ""; quoted "'a"]
  = [None; None; None; None; None; None; None].
Proof. reflexivity. Qed.

Example member_last_wins :
  option_map (fun v => get v "a") (parse_json (quoted "{'a':1,'b':2,'a':3}"))
  = Some (inr (Some (JNum 3))).
Proof. reflexivity. Qed.

Example trim_both_ends :
  trim ("  " ++ nl ++ " a b " ++ nl) = "a b".
Proof. reflexivity. Qed.

Example Number_toString_decimal :
  map Number_toString [5; 0; -12; 30000]%Z = ["5"; "0"; "-12"; "30000"].
Proof. reflexivity. Qed.

(** ** Strings *)

Lemma append_assoc (a b c : string) : (a ++ b) ++ c = a ++ (b ++ c).
Proof.
  induction a as [|x a IH]; simpl; [reflexivity|].
  now rewrite IH.
Qed.

Lemma prepend (a x head rest : string) :
  x = head ++ rest -> a ++ x = (a ++ head) ++ rest.
Proof.
  intros ->. now rewrite append_assoc.
Qed.

Lemma substring_short (n : nat) (s : string) :
  (String.length s <= n)%nat -> substring 0 n s = s.
Proof.
  revert n; induction s as [|c s IH]; intros [|n] H; simpl in *;
    try reflexivity; try lia.
  rewrite IH; [reflexivity | lia].
Qed.

Lemma substring_long (n : nat) (s : string) :
  (n <= String.length s)%nat -> String.length (substring 0 n s) = n.
Proof.
  revert n; induction s as [|c s IH]; intros [|n] H; simpl in *;
    try reflexivity; try lia.
  rewrite IH; [reflexivity | lia].
Qed.

Lemma substring_is_prefix (n : nat) (s : string) :
  exists rest, s = substring 0 n s ++ rest.
Proof.
  revert n; induction s as [|c s IH]; intros [|n]; simpl.
  - now exists "".
  - now exists "".
  - now exists (String c s).
  - destruct (IH n) as [rest Hrest]. exists rest. now rewrite <- Hrest.
Qed.

(** The template puts the first 30000 characters of the text between two
    strings that do not depend on the text. *)
Lemma quiz_prompt_embeds (numQuestions : Z)
  (difficulty questionType examContext typeInstructions : string) :
  exists head tail, forall pdfText,
    quiz_prompt pdfText numQuestions difficulty questionType examContext
      typeInstructions
    = head ++ substring 0 30000 pdfText ++ tail.
Proof.
  unfold quiz_prompt.
  eexists; eexists; intros pdfText.
  repeat first [ exact (eq_refl : _ = "" ++ _) | apply prepend ].
Qed.

(** ** Mapping the elements *)

Lemma map_throwing_Forall2 {A B} (f : A -> exn + B) (items : list A) (ys : list B) :
  map_throwing f items = inr ys ->
  Forall2 (fun x y => f x = inr y) items ys.
Proof.
  revert ys; induction items as [|x items IH]; simpl; intros ys H.
  - injection H as <-. constructor.
  - destruct (f x) as [e|y] eqn:Hx; simpl in H; [discriminate|].
    destruct (map_throwing f items) as [e|ys'] eqn:Hrest; simpl in H;
      [discriminate|].
    injection H as <-. constructor; auto.
Qed.

Lemma Forall2_right {A B} (R : A -> B -> Prop) (P : B -> Prop) (l : list A)
  (l' : list B) :
  (forall x y, R x y -> P y) -> Forall2 R l l' -> Forall P l'.
Proof.
  intros HR; induction 1; constructor; eauto.
Qed.

(** ** The credential *)

Lemma requests_app (log extra : list event) :
  requests (log ++ extra) = (requests log ++ requests extra)%list.
Proof. apply filter_app. Qed.

Lemma getApiKey_found (env : environment) (log log' : list event) (key : string) :
  Part000.getApiKey env log = (inr key, log') -> log' = log /\ key <> "".
Proof.
  unfold Part000.getApiKey, bind, try_catch, read, ret, throw, emit.
  destruct env as [[|a|e] l2]; simpl.
  - destruct l2 as [|b|e]; simpl; try discriminate.
    destruct (b =? "") eqn:Hb; simpl; [discriminate|].
    intros H; injection H as <- <-. split; [reflexivity|].
    now apply String.eqb_neq.
  - destruct (a =? "") eqn:Ha; simpl.
    + destruct l2 as [|b|e]; simpl; try discriminate.
      destruct (b =? "") eqn:Hb; simpl; [discriminate|].
      intros H; injection H as <- <-. split; [reflexivity|].
      now apply String.eqb_neq.
    + intros H; injection H as <- <-. split; [reflexivity|].
      now apply String.eqb_neq.
  - discriminate.
Qed.

Lemma getApiKey_missing (env : environment) (log : list event) :
  no_credential env ->
  exists log',
    Part000.getApiKey env log = (inl (Error Part000.API_KEY_MISSING), log') /\
    requests log' = requests log.
Proof.
  unfold no_credential, Part000.getApiKey, bind, try_catch, read, ret, throw, emit.
  destruct env as [[|a|e] l2]; simpl; intros [H1 H2].
  - destruct l2 as [|b|e]; simpl in *.
    + now exists log.
    + destruct (b =? ""); [|discriminate]. now exists log.
    + eexists; split; [reflexivity|].
      rewrite requests_app; simpl. apply app_nil_r.
  - destruct (a =? ""); [|discriminate]. simpl.
    destruct l2 as [|b|e]; simpl in *.
    + now exists log.
    + destruct (b =? ""); [|discriminate]. now exists log.
    + eexists; split; [reflexivity|].
      rewrite requests_app; simpl. apply app_nil_r.
  - eexists; split; [reflexivity|].
    rewrite requests_app; simpl. apply app_nil_r.
Qed.

(** ** Mapping one element *)

Lemma toQuizQuestion_kind_marks (questionType : string) (q : json)
  (r : Part000.QuizQuestion) :
  Part000.toQuizQuestion questionType q = inr r ->
  Part000.type r = questionType /\
  Part000.marks r = Part000.getMarksForType questionType.
Proof.
  unfold Part000.toQuizQuestion.
  destruct q; simpl; try discriminate; intros H; injection H as <-; auto.
Qed.

Lemma toQuizQuestion_defined (questionType : string) (q : json) :
  q <> JNull -> exists r, Part000.toQuizQuestion questionType q = inr r.
Proof.
  unfold Part000.toQuizQuestion.
  destruct q; simpl; try congruence; eauto.
Qed.

Lemma toQuizQuestion_kind_gs (questionType : string) (q : json)
  (r : GeminiService.QuizQuestion) :
  GeminiService.toQuizQuestion questionType q = inr r ->
  GeminiService.type r = questionType.
Proof.
  unfold GeminiService.toQuizQuestion.
  destruct q; simpl; try discriminate; intros H; injection H as <-; auto.
Qed.

Lemma toQuizQuestion_defined_gs (questionType : string) (q : json) :
  q <> JNull -> exists r, GeminiService.toQuizQuestion questionType q = inr r.
Proof.
  unfold GeminiService.toQuizQuestion.
  destruct q; simpl; try congruence; eauto.
Qed.

Lemma map_throwing_defined {A B} (f : A -> exn + B) (items : list A) :
  Forall (fun x => exists y, f x = inr y) items ->
  exists ys, map_throwing f items = inr ys.
Proof.
  induction 1 as [|x items [y Hx] _ [ys IH]]; simpl; [now exists []|].
  rewrite Hx, IH. simpl. eauto.
Qed.

Lemma Forall2_length_eq {A B} (R : A -> B -> Prop) (l : list A) (l' : list B) :
  Forall2 R l l' -> List.length l' = List.length l.
Proof. induction 1; simpl; congruence. Qed.

(** ** The two services *)

Section Clients.

Variable JSON_parse : string -> exn + json.
Variable network : Network.

Local Abbreviation processResponse := (Part000.processResponse JSON_parse).
Local Abbreviation generateQuiz := (Part000.generateQuiz JSON_parse network).
Local Abbreviation evaluateAnswer := (Part000.evaluateAnswer JSON_parse network).
Local Abbreviation attempt := (Part000.attempt JSON_parse network).

(** A text is accepted exactly through the map over its [questions] array. *)
Lemma processResponse_accepts (questionType jsonString : string)
  (qs : list Part000.QuizQuestion) :
  processResponse questionType jsonString = inr qs ->
  exists parsed items,
    JSON_parse jsonString = inr parsed /\
    get parsed "questions" = inr (Some (JArr items)) /\
    map_throwing (Part000.toQuizQuestion questionType) items = inr qs.
Proof.
  unfold Part000.processResponse, and_then.
  destruct (JSON_parse jsonString) as [e|parsed] eqn:Hparsed; [discriminate|].
  destruct (get parsed "questions") as [e|questions] eqn:Hget; [discriminate|].
  destruct questions as [[| | | |items|]|]; simpl; try discriminate.
  - destruct b; discriminate.
  - destruct (negb (Qeq_bool n 0)); discriminate.
  - destruct (negb (s =? "")); discriminate.
  - intros H. exists parsed, items. auto.
Qed.

Lemma processResponse_array (questionType jsonString : string) (parsed : json)
  (items : list json) :
  JSON_parse jsonString = inr parsed ->
  get parsed "questions" = inr (Some (JArr items)) ->
  processResponse questionType jsonString
  = map_throwing (Part000.toQuizQuestion questionType) items.
Proof.
  unfold Part000.processResponse, and_then. now intros -> ->.
Qed.

(** Every shape but [null] that has no [questions] array is refused with
    the diagnostic of the validation. *)
Lemma processResponse_refuses (questionType jsonString : string) (parsed : json) :
  JSON_parse jsonString = inr parsed ->
  parsed <> JNull ->
  (forall items, get parsed "questions" <> inr (Some (JArr items))) ->
  processResponse questionType jsonString
  = inl (Error Part000.INVALID_RESPONSE_FORMAT).
Proof.
  unfold Part000.processResponse, and_then. intros -> Hnull Hshape.
  destruct parsed; simpl in *; try congruence.
  destruct (member "questions" members) as [[| | | |items|]|]; simpl;
    try reflexivity.
  - now destruct b.
  - now destruct (Qeq_bool n 0).
  - now destruct (s =? "").
  - now destruct (Hshape items).
Qed.

Lemma processResponse_kind_marks (questionType jsonString : string)
  (qs : list Part000.QuizQuestion) :
  processResponse questionType jsonString = inr qs ->
  Forall (fun q => Part000.type q = questionType /\
                   Part000.marks q = Part000.getMarksForType questionType) qs.
Proof.
  intros H. apply processResponse_accepts in H.
  destruct H as (parsed & items & _ & _ & H).
  apply map_throwing_Forall2 in H.
  eapply Forall2_right; [|exact H].
  intros x y. apply toQuizQuestion_kind_marks.
Qed.

Lemma attempt_run (ai : GoogleGenAI) (model pdfText : string) (numQuestions : Z)
  (difficulty questionType examContext : string) (log : list event) :
  let request :=
    Part000.quiz_request model pdfText numQuestions difficulty questionType
      examContext in
  attempt ai model pdfText numQuestions difficulty questionType examContext log
  = (validated JSON_parse questionType (network log ai request),
     (log ++ [generateContent_sent ai request])%list).
Proof.
  unfold Part000.attempt, validated, bind, generateContent, lift, and_then.
  simpl. now destruct (network log ai _).
Qed.

(** The two-shot protocol, once the key is found. *)
Lemma generateQuiz_run (env : environment) (pdfText : string) (numQuestions : Z)
  (difficulty questionType examContext : string) (log : list event)
  (key : string) :
  Part000.getApiKey env log = (inr key, log) ->
  let ai := {| apiKey := key |} in
  let request model :=
    Part000.quiz_request model pdfText numQuestions difficulty questionType
      examContext in
  let sent model := generateContent_sent ai (request model) in
  generateQuiz env pdfText numQuestions difficulty questionType examContext log
  = match validated JSON_parse questionType (network log ai (request Part000.PRIMARY_MODEL)) with
    | inr qs => (inr qs, (log ++ [sent Part000.PRIMARY_MODEL])%list)
    | inl error =>
        let warned :=
          ((log ++ [sent Part000.PRIMARY_MODEL])
           ++ [console_warn "Gemini 3 Pro failed, retrying with Gemini 2.5 Flash..."
                 error])%list in
        match validated JSON_parse questionType
                (network warned ai (request Part000.SECONDARY_MODEL)) with
        | inr qs => (inr qs, (warned ++ [sent Part000.SECONDARY_MODEL])%list)
        | inl retryError =>
            (inl (Error ("AI Generation Failed: "
                         ++ message_or retryError (message_or error "Unknown error")
                         ++ ". Please check your API Key and Quota.")),
             ((warned ++ [sent Part000.SECONDARY_MODEL])
              ++ [console_error "Gemini generation failed:" retryError])%list)
        end
    end.
Proof.
  intros Hkey ai request sent.
  unfold Part000.generateQuiz, bind at 1. rewrite Hkey.
  unfold try_catch at 1. rewrite attempt_run.
  fold ai. fold (request Part000.PRIMARY_MODEL). fold (sent Part000.PRIMARY_MODEL).
  destruct (validated JSON_parse questionType (network log ai (request Part000.PRIMARY_MODEL)))
    as [error|qs]; [|reflexivity].
  unfold bind at 1, emit at 1. unfold try_catch at 1. rewrite attempt_run.
  fold (request Part000.SECONDARY_MODEL). fold (sent Part000.SECONDARY_MODEL).
  cbv zeta.
  destruct (validated JSON_parse questionType _) as [retryError|qs]; reflexivity.
Qed.

Lemma validated_text (questionType t : string) :
  validated JSON_parse questionType (inr {| text := Some t |})
  = processResponse questionType (trim t).
Proof. reflexivity. Qed.

Lemma validated_accepts (questionType : string)
  (answer : exn + GenerateContentResponse) (qs : list Part000.QuizQuestion) :
  validated JSON_parse questionType answer = inr qs ->
  exists response t,
    answer = inr response /\ text response = Some t /\
    processResponse questionType (trim t) = inr qs.
Proof.
  unfold validated, and_then, text_trim.
  destruct answer as [e|response]; [discriminate|].
  destruct (text response) as [t|] eqn:Ht; [|discriminate].
  intros H. exists response, t. auto.
Qed.

Lemma getApiKey_throws (env : environment) (pdfText : string) (numQuestions : Z)
  (difficulty questionType examContext : string) (log log' : list event)
  (e : exn) :
  Part000.getApiKey env log = (inl e, log') ->
  generateQuiz env pdfText numQuestions difficulty questionType examContext log
  = (inl e, log').
Proof.
  intros H. unfold Part000.generateQuiz, bind at 1. now rewrite H.
Qed.

(** Whatever [generateQuiz] returns went through [processResponse]. *)
Lemma generateQuiz_returns (env : environment) (pdfText : string)
  (numQuestions : Z) (difficulty questionType examContext : string)
  (log log' : list event) (qs : list Part000.QuizQuestion) :
  generateQuiz env pdfText numQuestions difficulty questionType examContext log
  = (inr qs, log') ->
  exists jsonString, processResponse questionType jsonString = inr qs.
Proof.
  intros H.
  destruct (Part000.getApiKey env log) as [[e|key] log0] eqn:Hkey.
  - erewrite getApiKey_throws in H by eassumption. discriminate.
  - destruct (getApiKey_found _ _ _ _ Hkey) as [-> _].
    rewrite (generateQuiz_run _ _ _ _ _ _ _ _ Hkey) in H. cbv zeta in H.
    destruct (validated JSON_parse questionType _) as [error|qs1] eqn:H1 in H.
    + destruct (validated JSON_parse questionType _) as [retryError|qs2] eqn:H2 in H;
        [discriminate|].
      injection H as <- _.
      apply validated_accepts in H2. destruct H2 as (? & t & _ & _ & H2). eauto.
    + injection H as <- _.
      apply validated_accepts in H1. destruct H1 as (? & t & _ & _ & H1). eauto.
Qed.

(** The version of [geminiService.ts]: one request, then the validation. *)
Lemma gs_generateQuiz_run (env : environment) (pdfText : string)
  (numQuestions : Z) (difficulty questionType examContext : string)
  (log : list event) (key : string) :
  process_env_API_KEY env = Holds key ->
  key <> "" ->
  let ai := {| apiKey := key |} in
  let request :=
    GeminiService.quiz_request pdfText numQuestions difficulty questionType
      examContext in
  let sent := (log ++ [generateContent_sent ai request])%list in
  GeminiService.generateQuiz JSON_parse network env pdfText numQuestions
    difficulty questionType examContext log
  = match response <~ network log ai request ;;
          GeminiService.validate JSON_parse questionType response with
    | inr qs => (inr qs, sent)
    | inl error =>
        (inl (Error "Failed to generate quiz. The AI model might be unavailable or the content could not be processed."),
         (sent ++ [console_error "Error generating quiz with Gemini:" error])%list)
    end.
Proof.
  intros Henv Hkey ai request sent.
  unfold GeminiService.generateQuiz, bind at 1, read. rewrite Henv. unfold ret.
  apply String.eqb_neq in Hkey. rewrite Hkey.
  unfold try_catch, bind, generateContent, lift, and_then, emit, throw.
  fold ai. fold request. fold sent.
  destruct (network log ai request) as [e|response]; [reflexivity|].
  destruct (GeminiService.validate JSON_parse questionType response); reflexivity.
Qed.

Lemma gs_generateQuiz_returns (env : environment) (pdfText : string)
  (numQuestions : Z) (difficulty questionType examContext : string)
  (log log' : list event) (qs : list GeminiService.QuizQuestion) :
  GeminiService.generateQuiz JSON_parse network env pdfText numQuestions
    difficulty questionType examContext log = (inr qs, log') ->
  exists response,
    GeminiService.validate JSON_parse questionType response = inr qs.
Proof.
  intros H.
  destruct (process_env_API_KEY env) as [|key|e] eqn:Henv;
    try (unfold GeminiService.generateQuiz, bind, read in H; rewrite Henv in H;
         discriminate).
  destruct (key =? "") eqn:Hkey.
  - unfold GeminiService.generateQuiz, bind, read in H. rewrite Henv in H.
    unfold ret in H. rewrite Hkey in H. discriminate.
  - apply String.eqb_neq in Hkey.
    rewrite (gs_generateQuiz_run _ _ _ _ _ _ _ _ Henv Hkey) in H. cbv zeta in H.
    unfold and_then in H.
    destruct (network log _ _) as [e|response]; [discriminate|].
    destruct (GeminiService.validate JSON_parse questionType response) as [e|qs']
      eqn:Hv; [discriminate|].
    injection H as <- _. eauto.
Qed.

Lemma gs_validate_accepts (questionType : string)
  (response : GenerateContentResponse) (qs : list GeminiService.QuizQuestion) :
  GeminiService.validate JSON_parse questionType response = inr qs ->
  exists t parsed items,
    text response = Some t /\
    JSON_parse (trim t) = inr parsed /\
    get parsed "questions" = inr (Some (JArr items)) /\
    map_throwing (GeminiService.toQuizQuestion questionType) items = inr qs.
Proof.
  unfold GeminiService.validate, and_then, text_trim.
  destruct (text response) as [t|] eqn:Ht; [|discriminate].
  destruct (JSON_parse (trim t)) as [e|parsed] eqn:Hparsed; [discriminate|].
  destruct (get parsed "questions") as [e|questions] eqn:Hget; [discriminate|].
  destruct questions as [[| | | |items|]|]; simpl; try discriminate.
  - destruct b; discriminate.
  - destruct (negb (Qeq_bool n 0)); discriminate.
  - destruct (negb (s =? "")); discriminate.
  - intros H. exists t, parsed, items. auto.
Qed.

(** C1: for every requested kind, every question that [generateQuiz] returns
    has [type] equal to the requested [questionType], whatever [type] the
    elements of the response carry; in both versions of the service. *)
Theorem generateQuiz_kind_is_requested (env : environment) (pdfText : string)
  (numQuestions : Z) (difficulty questionType examContext : string)
  (log : list event) :
  (forall qs log',
     generateQuiz env pdfText numQuestions difficulty questionType examContext log
     = (inr qs, log') ->
     Forall (fun q => Part000.type q = questionType) qs) /\
  (forall qs log',
     GeminiService.generateQuiz JSON_parse network env pdfText numQuestions
       difficulty questionType examContext log = (inr qs, log') ->
     Forall (fun q => GeminiService.type q = questionType) qs).
Proof.
  split; intros qs log' H.
  - apply generateQuiz_returns in H. destruct H as [jsonString H].
    apply processResponse_kind_marks in H.
    eapply Forall_impl; [|exact H]. now intros q [Hq _].
  - apply gs_generateQuiz_returns in H. destruct H as [response H].
    apply gs_validate_accepts in H. destruct H as (t & parsed & items & _ & _ & _ & H).
    apply map_throwing_Forall2 in H.
    eapply Forall2_right; [|exact H].
    intros x y. apply toQuizQuestion_kind_gs.
Qed.

(** C2: the marks of every question that [generateQuiz] returns are the
    value of the fixed table at the requested kind (MCQ 1, FillBlanks 1,
    VeryShort 2, Short 3, CaseBased 4, ExtractBased 4, Long 5, any other
    kind 1), whatever the response holds. *)
Theorem generateQuiz_marks_from_table (env : environment) (pdfText : string)
  (numQuestions : Z) (difficulty questionType examContext : string)
  (log : list event) :
  (Part000.getMarksForType "MCQ" = 1%Z /\
   Part000.getMarksForType "FillBlanks" = 1%Z /\
   Part000.getMarksForType "VeryShort" = 2%Z /\
   Part000.getMarksForType "Short" = 3%Z /\
   Part000.getMarksForType "CaseBased" = 4%Z /\
   Part000.getMarksForType "ExtractBased" = 4%Z /\
   Part000.getMarksForType "Long" = 5%Z /\
   (~ In questionType
        ["MCQ"; "FillBlanks"; "VeryShort"; "Short"; "CaseBased"; "ExtractBased";
         "Long"] ->
    Part000.getMarksForType questionType = 1%Z)) /\
  (forall qs log',
     generateQuiz env pdfText numQuestions difficulty questionType examContext log
     = (inr qs, log') ->
     Forall (fun q => Part000.marks q = Part000.getMarksForType questionType) qs).
Proof.
  split.
  - repeat (split; [reflexivity|]).
    intros Hother. unfold Part000.getMarksForType.
    repeat match goal with
           | |- context [questionType =? ?k] =>
               destruct (String.eqb_spec questionType k) as [->|_];
               [exfalso; apply Hother; simpl; tauto|]
           end.
    reflexivity.
  - intros qs log' H.
    apply generateQuiz_returns in H. destruct H as [jsonString H].
    apply processResponse_kind_marks in H.
    eapply Forall_impl; [|exact H]. now intros q [_ Hq].
Qed.

Lemma getApiKey_key (env : environment) (log : list event) (key : string) :
  fst (Part000.getApiKey env log) = inr key ->
  Part000.getApiKey env log = (inr key, log).
Proof.
  destruct (Part000.getApiKey env log) as [r log0] eqn:H. simpl. intros ->.
  now destruct (getApiKey_found _ _ _ _ H) as [-> _].
Qed.

Lemma message_or_detail (e : exn) (dflt : string) :
  message_or e dflt = match detail e with Some m => m | None => dflt end.
Proof.
  unfold message_or, detail. destruct (message e) as [m|]; [|reflexivity].
  now destruct (m =? "").
Qed.

(** C3: when the attempt on the primary model fails, for any reason, and the
    attempt on the secondary model gives a valid response, [generateQuiz]
    sends to the secondary model a request with the same contents and
    configuration and returns the questions validated from the secondary
    response, with no exception. *)
Theorem fallback_is_transparent (env : environment) (pdfText : string)
  (numQuestions : Z) (difficulty questionType examContext : string)
  (log : list event) (key : string) (error : exn)
  (qs : list Part000.QuizQuestion) :
  let ai := {| apiKey := key |} in
  let request model :=
    Part000.quiz_request model pdfText numQuestions difficulty questionType
      examContext in
  let primary := generateContent_sent ai (request Part000.PRIMARY_MODEL) in
  let secondary := generateContent_sent ai (request Part000.SECONDARY_MODEL) in
  let warning :=
    console_warn "Gemini 3 Pro failed, retrying with Gemini 2.5 Flash..." error in
  fst (Part000.getApiKey env log) = inr key ->
  validated JSON_parse questionType (network log ai (request Part000.PRIMARY_MODEL))
  = inl error ->
  validated JSON_parse questionType
    (network (log ++ [primary; warning])%list ai (request Part000.SECONDARY_MODEL))
  = inr qs ->
  generateQuiz env pdfText numQuestions difficulty questionType examContext log
  = (inr qs, (log ++ [primary; warning; secondary])%list) /\
  contents (request Part000.SECONDARY_MODEL)
  = contents (request Part000.PRIMARY_MODEL) /\
  config (request Part000.SECONDARY_MODEL)
  = config (request Part000.PRIMARY_MODEL) /\
  model (request Part000.PRIMARY_MODEL) = "gemini-3-pro-preview" /\
  model (request Part000.SECONDARY_MODEL) = "gemini-2.5-flash".
Proof.
  intros ai request primary secondary warning Hkey H1 H2.
  repeat split.
  rewrite (generateQuiz_run _ _ _ _ _ _ _ _ (getApiKey_key _ _ _ Hkey)).
  cbv zeta. fold ai. fold (request Part000.PRIMARY_MODEL). rewrite H1.
  fold primary. fold warning.
  replace ((log ++ [primary]) ++ [warning])%list
    with (log ++ [primary; warning])%list by now rewrite <- app_assoc.
  fold (request Part000.SECONDARY_MODEL). rewrite H2. fold secondary.
  now rewrite <- app_assoc.
Qed.

(** C4: when both attempts fail, [generateQuiz] throws an error whose
    message is not empty and carries the message of the secondary failure
    when there is one, else the message of the primary failure, else a fixed
    text; two requests are sent and no more. *)
Theorem both_attempts_fail (env : environment) (pdfText : string)
  (numQuestions : Z) (difficulty questionType examContext : string)
  (log : list event) (key : string) (error retryError : exn) :
  let ai := {| apiKey := key |} in
  let request model :=
    Part000.quiz_request model pdfText numQuestions difficulty questionType
      examContext in
  let primary := generateContent_sent ai (request Part000.PRIMARY_MODEL) in
  let secondary := generateContent_sent ai (request Part000.SECONDARY_MODEL) in
  let warning :=
    console_warn "Gemini 3 Pro failed, retrying with Gemini 2.5 Flash..." error in
  fst (Part000.getApiKey env log) = inr key ->
  validated JSON_parse questionType (network log ai (request Part000.PRIMARY_MODEL))
  = inl error ->
  validated JSON_parse questionType
    (network (log ++ [primary; warning])%list ai (request Part000.SECONDARY_MODEL))
  = inl retryError ->
  exists msg log',
    generateQuiz env pdfText numQuestions difficulty questionType examContext log
    = (inl (Error ("AI Generation Failed: " ++ msg
                   ++ ". Please check your API Key and Quota.")), log') /\
    "AI Generation Failed: " ++ msg ++ ". Please check your API Key and Quota."
    <> "" /\
    (forall m, detail retryError = Some m -> msg = m) /\
    (detail retryError = None -> forall m, detail error = Some m -> msg = m) /\
    (detail retryError = None -> detail error = None -> msg = "Unknown error") /\
    log' = (log ++ [primary; warning; secondary;
                    console_error "Gemini generation failed:" retryError])%list /\
    requests log' = (requests log ++ [primary; secondary])%list.
Proof.
  intros ai request primary secondary warning Hkey H1 H2.
  exists (message_or retryError (message_or error "Unknown error")).
  eexists. split; [|split; [|split; [|split; [|split; [|split]]]]].
  - rewrite (generateQuiz_run _ _ _ _ _ _ _ _ (getApiKey_key _ _ _ Hkey)).
    cbv zeta. fold ai. fold (request Part000.PRIMARY_MODEL). rewrite H1.
    fold primary. fold warning.
    replace ((log ++ [primary]) ++ [warning])%list
      with (log ++ [primary; warning])%list by now rewrite <- app_assoc.
    fold (request Part000.SECONDARY_MODEL). rewrite H2. fold secondary.
    reflexivity.
  - discriminate.
  - intros m Hm. rewrite message_or_detail, Hm. reflexivity.
  - intros Hnone m Hm. rewrite !message_or_detail, Hnone, Hm. reflexivity.
  - intros Hnone Hnone'. rewrite !message_or_detail, Hnone, Hnone'. reflexivity.
  - now rewrite <- !app_assoc.
  - rewrite <- !app_assoc. rewrite requests_app. reflexivity.
Qed.

Lemma evaluateAnswer_run (env : environment)
  (question modelAnswer imageBase64 mimeType : string) (maxMarks : Z)
  (log : list event) (key : string) :
  Part000.getApiKey env log = (inr key, log) ->
  let ai := {| apiKey := key |} in
  let request :=
    Part000.evaluation_request question modelAnswer imageBase64 mimeType maxMarks in
  let sent := (log ++ [generateContent_sent ai request])%list in
  evaluateAnswer env question modelAnswer imageBase64 mimeType maxMarks log
  = match parsed_answer JSON_parse (network log ai request) with
    | inr r => (inr r, sent)
    | inl error =>
        (inl (Error ("Evaluation failed: "
                     ++ message_or error "Please check your API Key.")),
         (sent ++ [console_error "Error evaluating answer:" error])%list)
    end.
Proof.
  intros Hkey ai request sent.
  unfold Part000.evaluateAnswer, bind at 1. rewrite Hkey.
  unfold try_catch, bind, generateContent, lift, emit, throw,
    parsed_answer, and_then.
  fold ai. fold request. fold sent.
  destruct (network log ai request) as [e|response]; [reflexivity|].
  destruct (text_trim response) as [e|jsonString]; [reflexivity|].
  destruct (JSON_parse jsonString); reflexivity.
Qed.

(** C9: without a credential on either lookup path, [generateQuiz] and
    [evaluateAnswer] throw the error of the missing key and the log gains no
    request. *)
Theorem missing_credential_fails_before_network (env : environment) :
  no_credential env ->
  (forall pdfText numQuestions difficulty questionType examContext log,
     exists log',
       generateQuiz env pdfText numQuestions difficulty questionType examContext
         log = (inl (Error Part000.API_KEY_MISSING), log') /\
       requests log' = requests log) /\
  (forall question modelAnswer imageBase64 mimeType maxMarks log,
     exists log',
       evaluateAnswer env question modelAnswer imageBase64 mimeType maxMarks log
       = (inl (Error Part000.API_KEY_MISSING), log') /\
       requests log' = requests log).
Proof.
  intros Hnone. split; intros.
  - destruct (getApiKey_missing env log Hnone) as (log' & Hkey & Hlog).
    exists log'. split; [|exact Hlog].
    now apply getApiKey_throws.
  - destruct (getApiKey_missing env log Hnone) as (log' & Hkey & Hlog).
    exists log'. split; [|exact Hlog].
    unfold Part000.evaluateAnswer, bind at 1. now rewrite Hkey.
Qed.

(** C5, amended: when the request, the reading of the text or the parse
    of the response throws, [evaluateAnswer] throws an error whose message
    is [Evaluation failed: ] followed by the message of that exception (by
    an advice to check the key when that message is missing or empty); a
    response that parses is returned as it is, with no check of its
    fields. *)
Theorem evaluateAnswer_fails_or_passes_through (env : environment)
  (question modelAnswer imageBase64 mimeType : string) (maxMarks : Z)
  (log : list event) (key : string) :
  let ai := {| apiKey := key |} in
  let request :=
    Part000.evaluation_request question modelAnswer imageBase64 mimeType maxMarks in
  let sent := generateContent_sent ai request in
  fst (Part000.getApiKey env log) = inr key ->
  (forall error,
     parsed_answer JSON_parse (network log ai request) = inl error ->
     evaluateAnswer env question modelAnswer imageBase64 mimeType maxMarks log
     = (inl (Error ("Evaluation failed: "
                    ++ match detail error with
                       | Some m => m
                       | None => "Please check your API Key."
                       end)),
        (log ++ [sent; console_error "Error evaluating answer:" error])%list)) /\
  (forall response t error,
     network log ai request = inr response ->
     text response = Some t ->
     JSON_parse (trim t) = inl error ->
     parsed_answer JSON_parse (network log ai request) = inl error /\
     exists m,
       fst (evaluateAnswer env question modelAnswer imageBase64 mimeType maxMarks
              log) = inl (Error ("Evaluation failed: " ++ m)) /\
       (forall d, detail error = Some d -> m = d)) /\
  (forall r,
     parsed_answer JSON_parse (network log ai request) = inr r ->
     evaluateAnswer env question modelAnswer imageBase64 mimeType maxMarks log
     = (inr r, (log ++ [sent])%list)).
Proof.
  intros ai request sent Hkey.
  pose proof (evaluateAnswer_run env question modelAnswer imageBase64 mimeType
                maxMarks log key (getApiKey_key _ _ _ Hkey)) as Hrun.
  cbv zeta in Hrun. fold ai in Hrun. fold request in Hrun. fold sent in Hrun.
  split; [|split].
  - intros error Herror. rewrite Hrun, Herror, message_or_detail.
    now rewrite <- app_assoc.
  - intros response t error Hresponse Ht Hparse.
    assert (Herror : parsed_answer JSON_parse (network log ai request) = inl error).
    { unfold parsed_answer, and_then, text_trim.
      now rewrite Hresponse, Ht, Hparse. }
    split; [exact Herror|].
    exists (message_or error "Please check your API Key.").
    rewrite Hrun, Herror. split; [reflexivity|].
    intros d Hd. now rewrite message_or_detail, Hd.
  - intros r Hr. now rewrite Hrun, Hr.
Qed.

(** C6, amended: whatever [maxMarks] is, the result that [evaluateAnswer]
    returns is the parsed response of the model, unchanged: its score is the
    score that the model reported, within [maxMarks] or not. *)
Theorem evaluateAnswer_returns_response_unchanged (env : environment)
  (question modelAnswer imageBase64 mimeType : string) (maxMarks : Z)
  (log log' : list event) (r : Part000.EvaluationResult) :
  evaluateAnswer env question modelAnswer imageBase64 mimeType maxMarks log
  = (inr r, log') ->
  exists key response t,
    fst (Part000.getApiKey env log) = inr key /\
    network log {| apiKey := key |}
      (Part000.evaluation_request question modelAnswer imageBase64 mimeType
         maxMarks) = inr response /\
    text response = Some t /\
    JSON_parse (trim t) = inr r.
Proof.
  intros H.
  destruct (Part000.getApiKey env log) as [[e|key] log0] eqn:Hkey.
  - unfold Part000.evaluateAnswer, bind at 1 in H. rewrite Hkey in H. discriminate.
  - destruct (getApiKey_found _ _ _ _ Hkey) as [-> _].
    rewrite (evaluateAnswer_run _ _ _ _ _ _ _ _ Hkey) in H. cbv zeta in H.
    exists key.
    unfold parsed_answer, and_then, text_trim in H.
    destruct (network log _ _) as [e|response]; [discriminate|].
    destruct (text response) as [t|] eqn:Ht; [|discriminate].
    destruct (JSON_parse (trim t)) as [e|r'] eqn:Hparse; [discriminate|].
    injection H as <- _. exists response, t. auto.
Qed.

Lemma getApiKey_log (env : environment) (log : list event) :
  exists extra,
    snd (Part000.getApiKey env log) = (log ++ extra)%list /\
    Forall (fun ev => is_request ev = false) extra.
Proof.
  unfold Part000.getApiKey, bind, try_catch, read, ret, throw, emit.
  destruct env as [[|a|e] l2]; simpl.
  - destruct l2 as [|b|e]; simpl.
    + exists []. now rewrite app_nil_r.
    + exists []. rewrite app_nil_r. now destruct (b =? "").
    + eexists. split; [reflexivity|]. now repeat constructor.
  - destruct (a =? ""); simpl.
    + destruct l2 as [|b|e]; simpl.
      * exists []. now rewrite app_nil_r.
      * exists []. rewrite app_nil_r. now destruct (b =? "").
      * eexists. split; [reflexivity|]. now repeat constructor.
    + exists []. now rewrite app_nil_r.
  - eexists. split; [reflexivity|]. now repeat constructor.
Qed.

(** The requests of a run of [generateQuiz] carry the prompt of the call,
    and with a key there is one at least. *)
Lemma generateQuiz_requests (env : environment) (pdfText : string)
  (numQuestions : Z) (difficulty questionType examContext : string)
  (log : list event) :
  exists extra,
    snd (generateQuiz env pdfText numQuestions difficulty questionType
           examContext log) = (log ++ extra)%list /\
    (forall ai params,
       In (generateContent_sent ai params) extra ->
       contents params
       = prompt_contents
           (quiz_prompt pdfText numQuestions difficulty questionType examContext
              (Part000.typeInstructions questionType examContext))) /\
    (forall key,
       fst (Part000.getApiKey env log) = inr key ->
       In (generateContent_sent {| apiKey := key |}
             (Part000.quiz_request Part000.PRIMARY_MODEL pdfText numQuestions
                difficulty questionType examContext)) extra).
Proof.
  destruct (Part000.getApiKey env log) as [[e|key] log0] eqn:Hkey.
  - erewrite getApiKey_throws by eassumption. simpl.
    destruct (getApiKey_log env log) as (extra & Hlog & Hextra).
    rewrite Hkey in Hlog. simpl in Hlog. exists extra.
    split; [exact Hlog|]. split; [|discriminate].
    intros ai params Hin. rewrite Forall_forall in Hextra.
    apply Hextra in Hin. discriminate.
  - destruct (getApiKey_found _ _ _ _ Hkey) as [-> _].
    rewrite (generateQuiz_run _ _ _ _ _ _ _ _ Hkey). cbv zeta.
    assert (Hfirst : forall k rest,
               @inr exn string key = inr k ->
               In (generateContent_sent {| apiKey := k |}
                     (Part000.quiz_request Part000.PRIMARY_MODEL pdfText
                        numQuestions difficulty questionType examContext))
                  (generateContent_sent {| apiKey := key |}
                     (Part000.quiz_request Part000.PRIMARY_MODEL pdfText
                        numQuestions difficulty questionType examContext)
                   :: rest)).
    { intros k rest Hk. injection Hk as <-. now left. }
    destruct (validated JSON_parse questionType _) as [error|qs1].
    + destruct (validated JSON_parse questionType _) as [retryError|qs2]; simpl;
        rewrite <- !app_assoc; simpl; eexists; (split; [reflexivity|]);
        (split; [|intros k; apply Hfirst]);
        intros ai params Hin; simpl in Hin;
        repeat (destruct Hin as [Hin|Hin]; [inversion Hin; reflexivity|]);
        contradiction.
    + simpl. eexists; split; [reflexivity|].
      split; [|intros k; apply Hfirst].
      intros ai params [Hin|[]]. inversion Hin; reflexivity.
Qed.

(** The same for the version of [geminiService.ts], whose key is the one
    of [process.env.API_KEY]. *)
Lemma gs_generateQuiz_requests (env : environment) (pdfText : string)
  (numQuestions : Z) (difficulty questionType examContext : string)
  (log : list event) :
  exists extra,
    snd (GeminiService.generateQuiz JSON_parse network env pdfText numQuestions
           difficulty questionType examContext log) = (log ++ extra)%list /\
    (forall ai params,
       In (generateContent_sent ai params) extra ->
       contents params
       = prompt_contents
           (quiz_prompt pdfText numQuestions difficulty questionType examContext
              (GeminiService.typeInstructions questionType))) /\
    (forall key,
       process_env_API_KEY env = Holds key ->
       key <> "" ->
       In (generateContent_sent {| apiKey := key |}
             (GeminiService.quiz_request pdfText numQuestions difficulty
                questionType examContext)) extra).
Proof.
  destruct (process_env_API_KEY env) as [|key|e] eqn:Henv;
    try (unfold GeminiService.generateQuiz, bind, read; rewrite Henv; simpl;
         exists []; split; [now rewrite app_nil_r|];
         split; [intros ? ? []|discriminate]).
  destruct (key =? "") eqn:Hkey.
  - unfold GeminiService.generateQuiz, bind, read; rewrite Henv. unfold ret.
    rewrite Hkey. simpl. exists []; split; [now rewrite app_nil_r|].
    split; [intros ? ? []|].
    intros k Hk Hnonempty. injection Hk as <-.
    apply String.eqb_eq in Hkey. contradiction.
  - apply String.eqb_neq in Hkey.
    rewrite (gs_generateQuiz_run _ _ _ _ _ _ _ _ Henv Hkey). cbv zeta.
    destruct (and_then _ _); simpl; rewrite <- ?app_assoc; simpl;
      eexists; (split; [reflexivity|]);
      (split; [|intros k Hk _; injection Hk as <-; now left]);
      intros ai params Hin; simpl in Hin;
      repeat (destruct Hin as [Hin|Hin]; [inversion Hin; reflexivity|]);
      contradiction.
Qed.

(** C7: every request of [generateQuiz] embeds the first 30000 characters
    of the text and nothing else of it: the prompt is [head], these
    characters, [tail], for a [head] and a [tail] that do not depend on the
    text, and with a key such a request is sent (the key that [getApiKey]
    finds in [part_000], a key of [process.env.API_KEY] that is not empty
    in [geminiService.ts]); a text of at most 30000 characters is embedded
    unchanged, a longer one is cut to exactly its first 30000 characters;
    in both versions of the service. *)
Theorem sourceText_truncated (numQuestions : Z)
  (difficulty questionType examContext : string) :
  exists head tail head' tail',
  forall (env : environment) (pdfText : string) (log : list event),
    (exists extra,
       snd (generateQuiz env pdfText numQuestions difficulty questionType
              examContext log) = (log ++ extra)%list /\
       (forall ai params,
          In (generateContent_sent ai params) extra ->
          contents params
          = prompt_contents (head ++ substring 0 30000 pdfText ++ tail)) /\
       (forall key,
          fst (Part000.getApiKey env log) = inr key ->
          In (generateContent_sent {| apiKey := key |}
                (Part000.quiz_request Part000.PRIMARY_MODEL pdfText numQuestions
                   difficulty questionType examContext)) extra)) /\
    (exists extra,
       snd (GeminiService.generateQuiz JSON_parse network env pdfText
              numQuestions difficulty questionType examContext log)
       = (log ++ extra)%list /\
       (forall ai params,
          In (generateContent_sent ai params) extra ->
          contents params
          = prompt_contents (head' ++ substring 0 30000 pdfText ++ tail')) /\
       (forall key,
          process_env_API_KEY env = Holds key ->
          key <> "" ->
          In (generateContent_sent {| apiKey := key |}
                (GeminiService.quiz_request pdfText numQuestions difficulty
                   questionType examContext)) extra)) /\
    ((String.length pdfText <= 30000)%nat -> substring 0 30000 pdfText = pdfText) /\
    ((30000 < String.length pdfText)%nat ->
     String.length (substring 0 30000 pdfText) = 30000%nat /\
     exists rest, pdfText = substring 0 30000 pdfText ++ rest).
Proof.
  destruct (quiz_prompt_embeds numQuestions difficulty questionType examContext
              (Part000.typeInstructions questionType examContext))
    as (head & tail & Hembed).
  destruct (quiz_prompt_embeds numQuestions difficulty questionType examContext
              (GeminiService.typeInstructions questionType))
    as (head' & tail' & Hembed').
  exists head, tail, head', tail'. intros env pdfText log.
  split; [|split; [|split]].
  - destruct (generateQuiz_requests env pdfText numQuestions difficulty
                questionType examContext log) as (extra & Hlog & Hreq & Hfirst).
    exists extra. split; [exact Hlog|]. split; [|exact Hfirst].
    intros ai params Hin. rewrite (Hreq ai params Hin). now rewrite Hembed.
  - destruct (gs_generateQuiz_requests env pdfText numQuestions difficulty
                questionType examContext log) as (extra & Hlog & Hreq & Hfirst).
    exists extra. split; [exact Hlog|]. split; [|exact Hfirst].
    intros ai params Hin. rewrite (Hreq ai params Hin). now rewrite Hembed'.
  - apply substring_short.
  - intros Hlong. split.
    + apply substring_long. lia.
    + apply substring_is_prefix.
Qed.

(** C10, amended: when the parsed body of the response has a [questions]
    array with no [null] element, the validation gives one question per
    element, in the order of the array, and [generateQuiz] returns them,
    whatever number of questions was asked for; an empty array gives an
    empty result; in both versions of the service. *)
Theorem one_question_per_element (env : environment) (pdfText : string)
  (numQuestions : Z) (difficulty questionType examContext : string)
  (log : list event) (t : string) (parsed : json) (items : list json) :
  JSON_parse (trim t) = inr parsed ->
  get parsed "questions" = inr (Some (JArr items)) ->
  Forall (fun q => q <> JNull) items ->
  (exists qs,
     Forall2 (fun item q => Part000.toQuizQuestion questionType item = inr q)
       items qs /\
     List.length qs = List.length items /\
     (items = [] -> qs = []) /\
     processResponse questionType (trim t) = inr qs /\
     forall key,
       let ai := {| apiKey := key |} in
       let request :=
         Part000.quiz_request Part000.PRIMARY_MODEL pdfText numQuestions
           difficulty questionType examContext in
       fst (Part000.getApiKey env log) = inr key ->
       network log ai request = inr {| text := Some t |} ->
       generateQuiz env pdfText numQuestions difficulty questionType examContext
         log = (inr qs, (log ++ [generateContent_sent ai request])%list)) /\
  (exists qs,
     Forall2
       (fun item q => GeminiService.toQuizQuestion questionType item = inr q)
       items qs /\
     List.length qs = List.length items /\
     (items = [] -> qs = []) /\
     forall key,
       let ai := {| apiKey := key |} in
       let request :=
         GeminiService.quiz_request pdfText numQuestions difficulty questionType
           examContext in
       process_env_API_KEY env = Holds key ->
       key <> "" ->
       network log ai request = inr {| text := Some t |} ->
       GeminiService.generateQuiz JSON_parse network env pdfText numQuestions
         difficulty questionType examContext log
       = (inr qs, (log ++ [generateContent_sent ai request])%list)).
Proof.
  intros Hparsed Hget Hitems. split.
  - destruct (map_throwing_defined (Part000.toQuizQuestion questionType) items)
      as [qs Hqs].
    { eapply Forall_impl; [|exact Hitems].
      intros q. apply toQuizQuestion_defined. }
    exists qs.
    pose proof (map_throwing_Forall2 _ _ _ Hqs) as Hall.
    assert (Hvalid : processResponse questionType (trim t) = inr qs)
      by now rewrite (processResponse_array _ _ _ _ Hparsed Hget).
    split; [exact Hall|]. split; [now apply Forall2_length_eq in Hall|].
    split; [intros ->; simpl in Hqs; now injection Hqs as <-|].
    split; [exact Hvalid|].
    intros key ai request Hkey Hanswer.
    rewrite (generateQuiz_run _ _ _ _ _ _ _ _ (getApiKey_key _ _ _ Hkey)).
    cbv zeta. fold ai. fold request. rewrite Hanswer.
    now rewrite validated_text, Hvalid.
  - destruct (map_throwing_defined (GeminiService.toQuizQuestion questionType)
                items) as [qs Hqs].
    { eapply Forall_impl; [|exact Hitems].
      intros q. apply toQuizQuestion_defined_gs. }
    exists qs.
    pose proof (map_throwing_Forall2 _ _ _ Hqs) as Hall.
    split; [exact Hall|]. split; [now apply Forall2_length_eq in Hall|].
    split; [intros ->; simpl in Hqs; now injection Hqs as <-|].
    intros key ai request Hkey Hnonempty Hanswer.
    rewrite (gs_generateQuiz_run _ _ _ _ _ _ _ _ Hkey Hnonempty).
    cbv zeta. fold ai. fold request. rewrite Hanswer.
    unfold GeminiService.validate, and_then, text_trim. simpl.
    rewrite Hparsed, Hget. simpl. now rewrite Hqs.
Qed.

(** When both models answer with a body that is not [null] and has no
    [questions] array, the call fails with the diagnostic of the format. *)
Lemma invalid_shape_from_both_models (env : environment) (pdfText : string)
  (numQuestions : Z) (difficulty questionType examContext : string)
  (log : list event) (key t1 t2 : string) (parsed1 parsed2 : json) :
  let ai := {| apiKey := key |} in
  let request model :=
    Part000.quiz_request model pdfText numQuestions difficulty questionType
      examContext in
  let primary := generateContent_sent ai (request Part000.PRIMARY_MODEL) in
  let warning :=
    console_warn "Gemini 3 Pro failed, retrying with Gemini 2.5 Flash..."
      (Error Part000.INVALID_RESPONSE_FORMAT) in
  fst (Part000.getApiKey env log) = inr key ->
  network log ai (request Part000.PRIMARY_MODEL) = inr {| text := Some t1 |} ->
  network (log ++ [primary; warning])%list ai (request Part000.SECONDARY_MODEL)
  = inr {| text := Some t2 |} ->
  JSON_parse (trim t1) = inr parsed1 ->
  JSON_parse (trim t2) = inr parsed2 ->
  parsed1 <> JNull ->
  parsed2 <> JNull ->
  (forall items, get parsed1 "questions" <> inr (Some (JArr items))) ->
  (forall items, get parsed2 "questions" <> inr (Some (JArr items))) ->
  fst (generateQuiz env pdfText numQuestions difficulty questionType examContext
         log)
  = inl (Error ("AI Generation Failed: " ++ Part000.INVALID_RESPONSE_FORMAT
                ++ ". Please check your API Key and Quota.")).
Proof.
  intros ai request primary warning Hkey Hanswer1 Hanswer2 Hparsed1 Hparsed2
    Hnull1 Hnull2 Hshape1 Hshape2.
  rewrite (generateQuiz_run _ _ _ _ _ _ _ _ (getApiKey_key _ _ _ Hkey)).
  cbv zeta. fold ai. fold (request Part000.PRIMARY_MODEL). rewrite Hanswer1.
  rewrite validated_text, (processResponse_refuses _ _ _ Hparsed1 Hnull1 Hshape1).
  fold primary. fold warning.
  replace ((log ++ [primary]) ++ [warning])%list
    with (log ++ [primary; warning])%list by now rewrite <- app_assoc.
  fold (request Part000.SECONDARY_MODEL). rewrite Hanswer2.
  rewrite validated_text, (processResponse_refuses _ _ _ Hparsed2 Hnull2 Hshape2).
  reflexivity.
Qed.

End Clients.

(** ** The services at sample responses *)

Lemma generateQuiz_kind_is_requested_witness :
  (exists qs log',
     Part000.generateQuiz JSON_parse_reader (network_text two_questions)
       env_with_key "pdf" 2 "Easy" "MCQ" "" [] = (inr qs, log') /\
     List.length qs = 2%nat /\
     Forall (fun q => Part000.type q = "MCQ") qs) /\
  (exists qs log',
     GeminiService.generateQuiz JSON_parse_reader (network_text two_questions)
       env_with_key "pdf" 2 "Easy" "MCQ" "" [] = (inr qs, log') /\
     List.length qs = 2%nat /\
     Forall (fun q => GeminiService.type q = "MCQ") qs).
Proof.
  split; eexists; eexists.
  - split; [vm_compute; reflexivity|]. split; [reflexivity|].
    eapply (proj1 (generateQuiz_kind_is_requested JSON_parse_reader
                     (network_text two_questions) env_with_key "pdf" 2 "Easy"
                     "MCQ" "" [])).
    vm_compute; reflexivity.
  - split; [vm_compute; reflexivity|]. split; [reflexivity|].
    eapply (proj2 (generateQuiz_kind_is_requested JSON_parse_reader
                     (network_text two_questions) env_with_key "pdf" 2 "Easy"
                     "MCQ" "" [])).
    vm_compute; reflexivity.
Defined.

Lemma generateQuiz_marks_from_table_witness :
  Part000.getMarksForType "Brief" = 1%Z /\
  (exists qs log',
     Part000.generateQuiz JSON_parse_reader (network_text two_questions)
       env_with_key "pdf" 2 "Easy" "Long" "" [] = (inr qs, log') /\
     List.length qs = 2%nat /\
     Forall (fun q => Part000.marks q = 5%Z) qs).
Proof.
  split.
  - apply (generateQuiz_marks_from_table JSON_parse_reader
             (network_text two_questions) env_with_key "pdf" 2 "Easy" "Brief" "" []).
    simpl. intuition discriminate.
  - eexists; eexists.
    split; [vm_compute; reflexivity|]. split; [reflexivity|].
    eapply (proj2 (generateQuiz_marks_from_table JSON_parse_reader
                     (network_text two_questions) env_with_key "pdf" 2 "Easy"
                     "Long" "" [])).
    vm_compute; reflexivity.
Defined.

Lemma fallback_is_transparent_witness :
  exists qs log',
    Part000.generateQuiz JSON_parse_reader (primary_down two_questions)
      env_with_key "pdf" 2 "Easy" "MCQ" "" [] = (inr qs, log') /\
    List.length qs = 2%nat /\
    List.length (requests log') = 2%nat.
Proof.
  eexists; eexists. split; [|split].
  - eapply (fallback_is_transparent JSON_parse_reader (primary_down two_questions)
              env_with_key "pdf" 2 "Easy" "MCQ" "" [] "k" (Error "quota exceeded")).
    + reflexivity.
    + vm_compute; reflexivity.
    + vm_compute; reflexivity.
  - reflexivity.
  - reflexivity.
Defined.

Lemma both_attempts_fail_witness :
  exists log',
    Part000.generateQuiz JSON_parse_reader (both_down (Some "model overloaded"))
      env_with_key "pdf" 2 "Easy" "MCQ" "" []
    = (inl (Error "AI Generation Failed: model overloaded. Please check your API Key and Quota."),
       log') /\
    List.length (requests log') = 2%nat.
Proof.
  destruct (both_attempts_fail JSON_parse_reader
              (both_down (Some "model overloaded")) env_with_key "pdf" 2 "Easy"
              "MCQ" "" [] "k" (Error "quota exceeded")
              (Throw "ApiError" (Some "model overloaded")))
    as (msg & log' & Hrun & _ & Hmsg & _ & _ & _ & Hrequests).
  - reflexivity.
  - vm_compute; reflexivity.
  - vm_compute; reflexivity.
  - exists log'. rewrite (Hmsg "model overloaded" eq_refl) in Hrun.
    split; [exact Hrun|]. now rewrite Hrequests.
Defined.

Lemma missing_credential_fails_before_network_witness :
  exists log',
    Part000.generateQuiz JSON_parse_reader (network_text two_questions)
      env_without_key "pdf" 2 "Easy" "MCQ" "" []
    = (inl (Error Part000.API_KEY_MISSING), log') /\
    requests log' = [].
Proof.
  apply (missing_credential_fails_before_network JSON_parse_reader
           (network_text two_questions) env_without_key).
  split; reflexivity.
Defined.

Lemma evaluateAnswer_fails_or_passes_through_witness :
  fst (Part000.evaluateAnswer JSON_parse_reader (network_text "not json")
         env_with_key "Q" "A" "img" "image/png" 5 [])
  = inl (Error "Evaluation failed: Unexpected token in JSON") /\
  fst (Part000.evaluateAnswer JSON_parse_reader (network_text "{}")
         env_with_key "Q" "A" "img" "image/png" 5 [])
  = inr (JObj []).
Proof.
  split.
  - destruct (evaluateAnswer_fails_or_passes_through JSON_parse_reader
                (network_text "not json") env_with_key "Q" "A" "img" "image/png"
                5 [] "k" eq_refl) as (Hfail & Hparse & _).
    rewrite (Hfail (SyntaxError "Unexpected token in JSON")); [reflexivity|].
    apply (Hparse {| text := Some "not json" |} "not json");
      vm_compute; reflexivity.
  - destruct (evaluateAnswer_fails_or_passes_through JSON_parse_reader
                (network_text "{}") env_with_key "Q" "A" "img" "image/png"
                5 [] "k" eq_refl) as (_ & _ & Hpass).
    rewrite (Hpass (JObj [])); [reflexivity|].
    vm_compute; reflexivity.
Defined.

(** C5 fails as worded: an empty object is returned as a result. *)
Lemma evaluateAnswer_returns_incomplete_result :
  ~ returns_complete_results JSON_parse_reader (network_text "{}") env_with_key
      "Q" "A" "img" "image/png" 5 [].
Proof.
  intros H.
  assert (Hrun : exists log',
             Part000.evaluateAnswer JSON_parse_reader (network_text "{}")
               env_with_key "Q" "A" "img" "image/png" 5 []
             = (inr (JObj []), log')).
  { eexists. vm_compute; reflexivity. }
  destruct Hrun as [log' Hrun].
  destruct (H _ _ Hrun "score") as [v Hv]; [now left|].
  discriminate.
Qed.

Lemma evaluateAnswer_returns_response_unchanged_witness :
  exists key response t,
    fst (Part000.getApiKey env_with_key []) = inr key /\
    network_text seven_out_of_five [] {| apiKey := key |}
      (Part000.evaluation_request "Q" "A" "img" "image/png" 5) = inr response /\
    text response = Some t /\
    JSON_parse_reader (trim t)
    = inr (JObj [("score", JNum 7); ("maxMarks", JNum 5);
                 ("mistakes", JArr [JStr "late"]); ("feedback", JStr "ok")]).
Proof.
  eapply (evaluateAnswer_returns_response_unchanged JSON_parse_reader
            (network_text seven_out_of_five) env_with_key "Q" "A" "img"
            "image/png" 5 []).
  vm_compute; reflexivity.
Defined.

(** C6 fails as worded: a score of 7 with 5 marks at most is returned. *)
Lemma evaluateAnswer_returns_score_above_maxMarks :
  ~ returns_score_within JSON_parse_reader (network_text seven_out_of_five)
      env_with_key "Q" "A" "img" "image/png" 5 [].
Proof.
  intros H.
  assert (Hrun : exists log',
             Part000.evaluateAnswer JSON_parse_reader
               (network_text seven_out_of_five) env_with_key "Q" "A" "img"
               "image/png" 5 []
             = (inr (JObj [("score", JNum 7); ("maxMarks", JNum 5);
                           ("mistakes", JArr [JStr "late"]);
                           ("feedback", JStr "ok")]), log')).
  { eexists. vm_compute; reflexivity. }
  destruct Hrun as [log' Hrun].
  destruct (H eq_refl _ _ Hrun) as (s & Hs & Hle).
  simpl in Hs. injection Hs as <-.
  unfold Qle in Hle. simpl in Hle. lia.
Qed.

Lemma sourceText_truncated_witness :
  (exists head tail,
     contents
       (Part000.quiz_request Part000.PRIMARY_MODEL "abc" 2 "Easy" "MCQ" "")
     = prompt_contents (head ++ "abc" ++ tail)) /\
  (exists head' tail',
     contents (GeminiService.quiz_request "abc" 2 "Easy" "MCQ" "")
     = prompt_contents (head' ++ "abc" ++ tail')) /\
  (30000 < String.length long_text)%nat /\
  String.length (substring 0 30000 long_text) = 30000%nat.
Proof.
  destruct (sourceText_truncated JSON_parse_reader (network_text two_questions)
              2 "Easy" "MCQ" "") as (head & tail & head' & tail' & H).
  split; [|split; [|split]].
  - exists head, tail.
    destruct (H env_with_key "abc" []) as ((extra & _ & Hreq & Hfirst) & _ & Hshort & _).
    rewrite <- (Hshort ltac:(apply Nat.leb_le; vm_compute; reflexivity)) at 2.
    apply (Hreq {| apiKey := "k" |}). apply Hfirst. reflexivity.
  - exists head', tail'.
    destruct (H env_with_key "abc" []) as (_ & (extra & _ & Hreq & Hsent) & Hshort & _).
    rewrite <- (Hshort ltac:(apply Nat.leb_le; vm_compute; reflexivity)) at 2.
    apply (Hreq {| apiKey := "k" |}). apply Hsent; [reflexivity|discriminate].
  - apply Nat.ltb_lt. vm_compute; reflexivity.
  - destruct (H env_with_key long_text []) as (_ & _ & _ & Hlong).
    apply Hlong. apply Nat.ltb_lt. vm_compute; reflexivity.
Defined.

(** C8 at a response whose body is [null]: reading [questions] throws a
    [TypeError] before the validation, and with both models answering so
    [generateQuiz] fails with the message of that [TypeError], not with the
    diagnostic of the invalid format. *)
Theorem null_body_diagnostic :
  Part000.processResponse JSON_parse_reader "MCQ" "null"
  = inl (cannot_read "null" "questions") /\
  cannot_read "null" "questions" <> Error Part000.INVALID_RESPONSE_FORMAT /\
  fst (Part000.generateQuiz JSON_parse_reader (network_text "null") env_with_key
         "pdf" 5 "Easy" "MCQ" "" [])
  = inl (Error "AI Generation Failed: Cannot read properties of null (reading 'questions'). Please check your API Key and Quota.").
Proof.
  split; [|split].
  - vm_compute; reflexivity.
  - discriminate.
  - vm_compute; reflexivity.
Qed.

Lemma one_question_per_element_witness :
  (exists qs,
     fst (Part000.generateQuiz JSON_parse_reader (network_text two_questions)
            env_with_key "pdf" 5 "Easy" "MCQ" "" []) = inr qs /\
     List.length qs = 2%nat) /\
  (exists qs,
     fst (GeminiService.generateQuiz JSON_parse_reader
            (network_text two_questions) env_with_key "pdf" 5 "Easy" "MCQ" "" [])
     = inr qs /\
     List.length qs = 2%nat).
Proof.
  assert (Hparsed : exists parsed items,
             JSON_parse_reader (trim two_questions) = inr parsed /\
             get parsed "questions" = inr (Some (JArr items)) /\
             Forall (fun q => q <> JNull) items /\
             List.length items = 2%nat).
  { eexists; eexists. split; [vm_compute; reflexivity|].
    split; [vm_compute; reflexivity|].
    split; [|reflexivity]. repeat constructor; discriminate. }
  destruct Hparsed as (parsed & items & Hparsed & Hget & Hitems & Hlength).
  destruct (one_question_per_element JSON_parse_reader
              (network_text two_questions) env_with_key "pdf" 5 "Easy" "MCQ" ""
              [] two_questions parsed items Hparsed Hget Hitems)
    as [(qs & _ & Hlen & _ & _ & Hrun) (qs' & _ & Hlen' & _ & Hrun')].
  split.
  - exists qs. rewrite (Hrun "k" eq_refl eq_refl).
    split; [reflexivity|]. now rewrite Hlen.
  - exists qs'. rewrite (Hrun' "k" eq_refl ltac:(discriminate) eq_refl).
    split; [reflexivity|]. now rewrite Hlen'.
Defined.

(** C10 fails as worded: an array that holds [null] gives no question. *)
Lemma null_element_gives_no_question :
  ~ returns_one_per_element JSON_parse_reader
      (network_text (quoted "{'questions':[null]}")) env_with_key "pdf" 1 "Easy"
      "MCQ" "" [].
Proof.
  intros H.
  destruct (H "k" (quoted "{'questions':[null]}") (JObj [("questions", JArr [JNull])])
              [JNull] eq_refl eq_refl) as (qs & log' & Hrun & _).
  - vm_compute; reflexivity.
  - reflexivity.
  - vm_compute in Hrun. discriminate.
Qed.

(** * Further properties *)

(** ** The credential lookup *)

(** X1: [getApiKey] returns the key of [process.env.API_KEY] when that one
    is not empty, and otherwise the key of [import.meta.env.VITE_API_KEY]
    when the first access did not throw and the second key is not empty; it
    returns in no other case. *)
Theorem getApiKey_precedence (env : environment) (log : list event) (key : string) :
  fst (Part000.getApiKey env log) = inr key <->
  credential (process_env_API_KEY env) = Some key \/
  (credential (process_env_API_KEY env) = None /\
   (forall e, process_env_API_KEY env <> Raises e) /\
   credential (import_meta_env_VITE_API_KEY env) = Some key).
Proof.
  unfold Part000.getApiKey, bind, try_catch, read, ret, throw, emit.
  destruct env as [[|a|e] [|b|e']]; simpl;
    try destruct (a =? ""); try destruct (b =? ""); simpl;
    split; intros H;
    repeat match goal with
           | H : _ \/ _ |- _ => destruct H
           | H : _ /\ _ |- _ => destruct H
           | H : forall e, Raises _ <> Raises e |- _ =>
               exfalso; eapply H; reflexivity
           | H : inr _ = inr _ |- _ => injection H as <-
           | H : Some _ = Some _ |- _ => injection H as <-
           end;
    try discriminate; try reflexivity;
    try (left; reflexivity);
    try (right; repeat split; congruence).
Qed.

Lemma getApiKey_precedence_witness :
  fst (Part000.getApiKey env_with_vite_key []) = inr "v".
Proof.
  apply (getApiKey_precedence env_with_vite_key [] "v").
  right. repeat split; [discriminate].
Defined.

(** X2: when reading an environment variable throws, [getApiKey] logs a
    warning and fails with the error of the missing key; a throwing access
    to [process.env.API_KEY] hides a key held by the other lookup path. *)
Theorem getApiKey_access_throws (env : environment) (log : list event) (e : exn) :
  process_env_API_KEY env = Raises e \/
  (credential (process_env_API_KEY env) = None /\
   (forall e', process_env_API_KEY env <> Raises e') /\
   import_meta_env_VITE_API_KEY env = Raises e) ->
  Part000.getApiKey env log
  = (inl (Error Part000.API_KEY_MISSING),
     (log ++ [console_warn "Error accessing environment variables:" e])%list).
Proof.
  unfold Part000.getApiKey, bind, try_catch, read, ret, throw, emit.
  destruct env as [[|a|e1] l2]; simpl; intros [H|(H1 & H2 & H3)];
    try discriminate; subst; try reflexivity.
  - destruct (a =? ""); [reflexivity|discriminate].
  - injection H as <-. reflexivity.
  - now destruct (H2 e1).
Qed.

Lemma getApiKey_access_throws_witness :
  exists log',
    Part000.getApiKey env_access_throws [] = (inl (Error Part000.API_KEY_MISSING), log') /\
    credential (import_meta_env_VITE_API_KEY env_access_throws) = Some "v".
Proof.
  eexists. split; [|reflexivity].
  apply (getApiKey_access_throws env_access_throws []). left. reflexivity.
Defined.

(** ** Requests and errors of the services *)

Lemma substring_idem (n : nat) (s : string) :
  substring 0 n (substring 0 n s) = substring 0 n s.
Proof.
  revert n; induction s as [|c s IH]; intros [|n]; simpl; try reflexivity.
  now rewrite IH.
Qed.

Lemma quiz_prompt_prefix (pdfText : string) (numQuestions : Z)
  (difficulty questionType examContext typeInstructions : string) :
  quiz_prompt (substring 0 30000 pdfText) numQuestions difficulty questionType
    examContext typeInstructions
  = quiz_prompt pdfText numQuestions difficulty questionType examContext
      typeInstructions.
Proof. unfold quiz_prompt. now rewrite substring_idem. Qed.

Lemma message_or_nonempty (e : exn) (dflt : string) :
  dflt <> "" -> message_or e dflt <> "".
Proof.
  unfold message_or. intros Hd.
  destruct (message e) as [m|]; [|exact Hd].
  destruct (String.eqb_spec m ""); assumption.
Qed.

Lemma getApiKey_fails (env : environment) (log : list event) (e : exn) :
  fst (Part000.getApiKey env log) = inl e -> e = Error Part000.API_KEY_MISSING.
Proof.
  unfold Part000.getApiKey, bind, try_catch, read, ret, throw, emit.
  destruct env as [[|a|e1] [|b|e2]]; simpl;
    try destruct (a =? ""); try destruct (b =? ""); simpl;
    intros H; try discriminate; now injection H as <-.
Qed.

Lemma or_else_defaulted (a : value) (d : json) : defaulted d (or_else a d).
Proof.
  unfold defaulted, or_else. destruct a as [j|]; [|now left].
  destruct (truthy (Some j)) eqn:Hj; [now right|now left].
Qed.

Lemma or_else_array_truthy (a : value) :
  truthy (Some (or_else a (JArr []))) = true.
Proof. now destruct (or_else_defaulted a (JArr [])) as [-> | ->]. Qed.

Lemma toQuizQuestion_fields_defined (questionType : string) (q : json)
  (r : Part000.QuizQuestion) :
  Part000.toQuizQuestion questionType q = inr r -> fields_defined r.
Proof.
  unfold Part000.toQuizQuestion, fields_defined.
  destruct q; simpl; try discriminate; intros H; injection H as <-; simpl;
    repeat split; try (now left); try apply or_else_defaulted.
  exact (or_else_array_truthy (member "options" members)).
Qed.

Lemma requests_none (extra : list event) :
  Forall (fun ev => is_request ev = false) extra -> requests extra = [].
Proof.
  unfold requests. induction 1 as [|ev extra Hev _ IH]; [reflexivity|].
  simpl. now rewrite Hev.
Qed.

Section MoreClients.

Variable JSON_parse : string -> exn + json.
Variable network : Network.

Local Abbreviation generateQuiz := (Part000.generateQuiz JSON_parse network).
Local Abbreviation evaluateAnswer := (Part000.evaluateAnswer JSON_parse network).

(** X3: when the response of the primary model validates, [generateQuiz]
    returns its questions after that single request: the secondary model is
    not contacted and nothing is written to the console. *)
Theorem primary_success_single_request (env : environment) (pdfText : string)
  (numQuestions : Z) (difficulty questionType examContext : string)
  (log : list event) (key : string) (qs : list Part000.QuizQuestion) :
  let ai := {| apiKey := key |} in
  let request :=
    Part000.quiz_request Part000.PRIMARY_MODEL pdfText numQuestions difficulty
      questionType examContext in
  fst (Part000.getApiKey env log) = inr key ->
  validated JSON_parse questionType (network log ai request) = inr qs ->
  generateQuiz env pdfText numQuestions difficulty questionType examContext log
  = (inr qs, (log ++ [generateContent_sent ai request])%list).
Proof.
  intros ai request Hkey Hvalid.
  rewrite (generateQuiz_run _ _ _ _ _ _ _ _ _ _ (getApiKey_key _ _ _ Hkey)).
  cbv zeta. fold ai. fold request. now rewrite Hvalid.
Qed.

(** X4: a run of [generateQuiz] only appends to the log, and what it
    appends holds no request (no key), the request to the primary model
    alone, or the request to the primary model followed by the request to
    the secondary model, both made with the key found. *)
Theorem generateQuiz_at_most_two_requests (env : environment) (pdfText : string)
  (numQuestions : Z) (difficulty questionType examContext : string)
  (log : list event) :
  exists extra,
    snd (generateQuiz env pdfText numQuestions difficulty questionType
           examContext log) = (log ++ extra)%list /\
    (requests extra = [] \/
     exists key,
       fst (Part000.getApiKey env log) = inr key /\
       let sent model :=
         generateContent_sent {| apiKey := key |}
           (Part000.quiz_request model pdfText numQuestions difficulty
              questionType examContext) in
       (requests extra = [sent Part000.PRIMARY_MODEL] \/
        requests extra = [sent Part000.PRIMARY_MODEL; sent Part000.SECONDARY_MODEL])).
Proof.
  destruct (Part000.getApiKey env log) as [[e|key] log0] eqn:Hkey.
  - erewrite getApiKey_throws by eassumption. simpl.
    destruct (getApiKey_log env log) as (extra & Hlog & Hextra).
    rewrite Hkey in Hlog. simpl in Hlog. exists extra. split; [exact Hlog|].
    left. now apply requests_none.
  - destruct (getApiKey_found _ _ _ _ Hkey) as [-> _].
    rewrite (generateQuiz_run _ _ _ _ _ _ _ _ _ _ Hkey). cbv zeta.
    destruct (validated JSON_parse questionType _) as [error|qs1].
    + destruct (validated JSON_parse questionType _) as [retryError|qs2]; simpl;
        rewrite <- !app_assoc; simpl; eexists; (split; [reflexivity|]);
        right; exists key; (split; [reflexivity|]); right; reflexivity.
    + simpl. eexists; split; [reflexivity|].
      right; exists key; (split; [reflexivity|]); left; reflexivity.
Qed.

(** X5: [generateQuiz] reads the text through its first 30000 characters
    only: a call with a text and a call with the first 30000 characters of
    that text return the same result and write the same log; in both
    versions of the service. *)
Theorem generateQuiz_reads_30000_characters (env : environment)
  (pdfText : string) (numQuestions : Z)
  (difficulty questionType examContext : string) (log : list event) :
  generateQuiz env (substring 0 30000 pdfText) numQuestions difficulty
    questionType examContext log
  = generateQuiz env pdfText numQuestions difficulty questionType examContext log
  /\
  GeminiService.generateQuiz JSON_parse network env (substring 0 30000 pdfText)
    numQuestions difficulty questionType examContext log
  = GeminiService.generateQuiz JSON_parse network env pdfText numQuestions
      difficulty questionType examContext log.
Proof.
  split.
  - unfold Part000.generateQuiz, Part000.attempt, Part000.quiz_request.
    now rewrite quiz_prompt_prefix.
  - unfold GeminiService.generateQuiz, GeminiService.quiz_request.
    now rewrite quiz_prompt_prefix.
Qed.

(** X6: in every question that [generateQuiz] returns, [options] is truthy
    (an array when the response gave none), and [correctAnswer],
    [modelAnswer], [context] and [explanation] are the empty string or a
    truthy value: none of them is [null], [false], [0] or missing. *)
Theorem generateQuiz_fields_defined (env : environment) (pdfText : string)
  (numQuestions : Z) (difficulty questionType examContext : string)
  (log log' : list event) (qs : list Part000.QuizQuestion) :
  generateQuiz env pdfText numQuestions difficulty questionType examContext log
  = (inr qs, log') ->
  Forall fields_defined qs.
Proof.
  intros H. apply generateQuiz_returns in H. destruct H as [jsonString H].
  apply processResponse_accepts in H.
  destruct H as (parsed & items & _ & _ & H).
  apply map_throwing_Forall2 in H.
  eapply Forall2_right; [|exact H].
  intros x y. apply toQuizQuestion_fields_defined.
Qed.

(** X7: with a key, a run of [evaluateAnswer] sends exactly one request,
    to the model [gemini-3-pro-preview], whether it returns or throws: an
    evaluation is never retried. The request carries the image with the
    given MIME type before the prompt. *)
Theorem evaluateAnswer_single_request (env : environment)
  (question modelAnswer imageBase64 mimeType : string) (maxMarks : Z)
  (log : list event) (key : string) :
  fst (Part000.getApiKey env log) = inr key ->
  exists params prompt,
    requests (snd (evaluateAnswer env question modelAnswer imageBase64 mimeType
                     maxMarks log))
    = (requests log ++ [generateContent_sent {| apiKey := key |} params])%list /\
    model params = "gemini-3-pro-preview" /\
    contents params
    = parts_contents [inlineData mimeType imageBase64; text_part prompt].
Proof.
  intros Hkey.
  exists (Part000.evaluation_request question modelAnswer imageBase64 mimeType
            maxMarks).
  eexists. split; [|split; reflexivity].
  rewrite (evaluateAnswer_run _ _ _ _ _ _ _ _ _ _ (getApiKey_key _ _ _ Hkey)).
  cbv zeta.
  destruct (parsed_answer JSON_parse _) as [error|r]; simpl;
    rewrite ?requests_app; simpl; now rewrite ?app_nil_r.
Qed.

(** X8: the only exceptions that leave [generateQuiz] and [evaluateAnswer]
    are errors made by the service: the error of the missing key, or an
    error whose message is [AI Generation Failed: ] (respectively
    [Evaluation failed: ]) followed by a text that is not empty. No
    exception of the SDK or of the runtime reaches the caller as it is. *)
Theorem service_errors_are_wrapped (env : environment) (log : list event) (e : exn) :
  (forall pdfText numQuestions difficulty questionType examContext,
     fst (generateQuiz env pdfText numQuestions difficulty questionType
            examContext log) = inl e ->
     e = Error Part000.API_KEY_MISSING \/
     exists msg,
       msg <> "" /\
       e = Error ("AI Generation Failed: " ++ msg
                  ++ ". Please check your API Key and Quota.")) /\
  (forall question modelAnswer imageBase64 mimeType maxMarks,
     fst (evaluateAnswer env question modelAnswer imageBase64 mimeType maxMarks
            log) = inl e ->
     e = Error Part000.API_KEY_MISSING \/
     exists msg, msg <> "" /\ e = Error ("Evaluation failed: " ++ msg)).
Proof.
  split; intros.
  - destruct (Part000.getApiKey env log) as [[e0|key] log0] eqn:Hkey.
    + erewrite getApiKey_throws in H by eassumption. simpl in H.
      injection H as <-. left. apply (getApiKey_fails env log).
      now rewrite Hkey.
    + destruct (getApiKey_found _ _ _ _ Hkey) as [-> _].
      rewrite (generateQuiz_run _ _ _ _ _ _ _ _ _ _ Hkey) in H. cbv zeta in H.
      destruct (validated JSON_parse questionType _) as [error|qs1];
        [|discriminate].
      destruct (validated JSON_parse questionType _) as [retryError|qs2];
        [|discriminate].
      simpl in H. injection H as <-. right.
      eexists. split; [|reflexivity].
      apply message_or_nonempty, message_or_nonempty. discriminate.
  - destruct (Part000.getApiKey env log) as [[e0|key] log0] eqn:Hkey.
    + unfold Part000.evaluateAnswer, bind at 1 in H. rewrite Hkey in H.
      simpl in H. injection H as <-. left. apply (getApiKey_fails env log).
      now rewrite Hkey.
    + destruct (getApiKey_found _ _ _ _ Hkey) as [-> _].
      rewrite (evaluateAnswer_run _ _ _ _ _ _ _ _ _ _ Hkey) in H. cbv zeta in H.
      destruct (parsed_answer JSON_parse _) as [error|r]; [|discriminate].
      simpl in H. injection H as <-. right.
      eexists. split; [|reflexivity].
      apply message_or_nonempty. discriminate.
Qed.

End MoreClients.

Lemma primary_success_single_request_witness :
  exists qs,
    Part000.generateQuiz JSON_parse_reader (network_text two_questions)
      env_with_key "pdf" 2 "Easy" "MCQ" "" []
    = (inr qs,
       [generateContent_sent {| apiKey := "k" |}
          (Part000.quiz_request Part000.PRIMARY_MODEL "pdf" 2 "Easy" "MCQ" "")]) /\
    List.length qs = 2%nat.
Proof.
  eexists. split.
  - apply (primary_success_single_request JSON_parse_reader
             (network_text two_questions) env_with_key "pdf" 2 "Easy" "MCQ" "" []
             "k").
    + reflexivity.
    + vm_compute; reflexivity.
  - reflexivity.
Defined.

Lemma generateQuiz_fields_defined_witness :
  exists qs log',
    Part000.generateQuiz JSON_parse_reader
      (network_text (quoted "{'questions':[{'question':'Q','options':null,'correctAnswer':0,'context':false}]}"))
      env_with_key "pdf" 1 "Easy" "Short" "" [] = (inr qs, log') /\
    List.length qs = 1%nat /\
    Forall fields_defined qs.
Proof.
  eexists; eexists. split; [vm_compute; reflexivity|]. split; [reflexivity|].
  eapply (generateQuiz_fields_defined JSON_parse_reader
            (network_text (quoted "{'questions':[{'question':'Q','options':null,'correctAnswer':0,'context':false}]}"))
            env_with_key "pdf" 1 "Easy" "Short" "" []).
  vm_compute; reflexivity.
Defined.

Lemma evaluateAnswer_single_request_witness :
  exists params prompt,
    requests (snd (Part000.evaluateAnswer JSON_parse_reader (network_text "not json")
                     env_with_key "Q" "A" "img" "image/png" 5 []))
    = [generateContent_sent {| apiKey := "k" |} params] /\
    model params = "gemini-3-pro-preview" /\
    contents params = parts_contents [inlineData "image/png" "img"; text_part prompt].
Proof.
  apply (evaluateAnswer_single_request JSON_parse_reader (network_text "not json")
           env_with_key "Q" "A" "img" "image/png" 5 [] "k").
  reflexivity.
Defined.

Lemma service_errors_are_wrapped_witness :
  (exists msg,
     msg <> "" /\
     Error "AI Generation Failed: model overloaded. Please check your API Key and Quota."
     = Error ("AI Generation Failed: " ++ msg
              ++ ". Please check your API Key and Quota.")) /\
  (exists msg,
     msg <> "" /\
     Error "Evaluation failed: Unexpected token in JSON"
     = Error ("Evaluation failed: " ++ msg)).
Proof.
  split.
  - destruct (proj1 (service_errors_are_wrapped JSON_parse_reader
                       (both_down (Some "model overloaded")) env_with_key []
                       (Error "AI Generation Failed: model overloaded. Please check your API Key and Quota."))
                "pdf" 2%Z "Easy" "MCQ" "") as [H|H].
    + vm_compute; reflexivity.
    + discriminate.
    + exact H.
  - destruct (proj2 (service_errors_are_wrapped JSON_parse_reader
                       (network_text "not json") env_with_key []
                       (Error "Evaluation failed: Unexpected token in JSON"))
                "Q" "A" "img" "image/png" 5%Z) as [H|H].
    + vm_compute; reflexivity.
    + discriminate.
    + exact H.
Defined.

(** ** The service of [geminiService.ts] *)

Section OlderClient.

Variable JSON_parse : string -> exn + json.
Variable network : Network.

Lemma gs_evaluateAnswer_run (env : environment)
  (question modelAnswer imageBase64 : string) (maxMarks : Z)
  (log : list event) (key : string) :
  process_env_API_KEY env = Holds key ->
  key <> "" ->
  let ai := {| apiKey := key |} in
  let request :=
    GeminiService.evaluation_request question modelAnswer imageBase64 maxMarks in
  let sent := (log ++ [generateContent_sent ai request])%list in
  GeminiService.evaluateAnswer JSON_parse network env question modelAnswer
    imageBase64 maxMarks log
  = match parsed_answer JSON_parse (network log ai request) with
    | inr r => (inr r, sent)
    | inl error =>
        (inl (Error "Failed to evaluate answer. Please try again."),
         (sent ++ [console_error "Error evaluating answer:" error])%list)
    end.
Proof.
  intros Henv Hkey ai request sent.
  unfold GeminiService.evaluateAnswer, bind at 1, read. rewrite Henv. unfold ret.
  apply String.eqb_neq in Hkey. rewrite Hkey.
  unfold try_catch, bind, generateContent, lift, emit, throw, parsed_answer,
    and_then.
  fold ai. fold request. fold sent.
  destruct (network log ai request) as [e|response]; [reflexivity|].
  destruct (text_trim response) as [e|jsonString]; [reflexivity|].
  destruct (JSON_parse jsonString); reflexivity.
Qed.


(** X10: the entry points of [geminiService.ts] look for the key in
    [process.env.API_KEY] only: when it is unset or empty they throw
    [API_KEY environment variable not set] and leave the log as it is,
    whatever [import.meta.env.VITE_API_KEY] holds. *)
Theorem gs_needs_process_env_key (env : environment) (log : list event) :
  credential (process_env_API_KEY env) = None ->
  (forall e, process_env_API_KEY env <> Raises e) ->
  (forall pdfText numQuestions difficulty questionType examContext,
     GeminiService.generateQuiz JSON_parse network env pdfText numQuestions
       difficulty questionType examContext log
     = (inl (Error "API_KEY environment variable not set"), log)) /\
  (forall question modelAnswer imageBase64 maxMarks,
     GeminiService.evaluateAnswer JSON_parse network env question modelAnswer
       imageBase64 maxMarks log
     = (inl (Error "API_KEY environment variable not set"), log)).
Proof.
  intros Hnone Haccess.
  unfold GeminiService.generateQuiz, GeminiService.evaluateAnswer, bind, read,
    ret, throw.
  destruct (process_env_API_KEY env) as [|a|e]; simpl in *.
  - split; reflexivity.
  - destruct (a =? ""); [split; reflexivity|discriminate].
  - now destruct (Haccess e).
Qed.

End OlderClient.


Lemma gs_needs_process_env_key_witness :
  GeminiService.generateQuiz JSON_parse_reader (network_text two_questions)
    env_with_vite_key "pdf" 2 "Easy" "MCQ" "" []
  = (inl (Error "API_KEY environment variable not set"), []) /\
  exists qs log',
    Part000.generateQuiz JSON_parse_reader (network_text two_questions)
      env_with_vite_key "pdf" 2 "Easy" "MCQ" "" [] = (inr qs, log').
Proof.
  split.
  - apply (gs_needs_process_env_key JSON_parse_reader (network_text two_questions)
             env_with_vite_key []).
    + reflexivity.
    + discriminate.
  - eexists; eexists. vm_compute; reflexivity.
Defined.

(** ** Text extraction *)

Lemma append_nil_r (s : string) : s ++ "" = s.
Proof. induction s as [|c s IH]; simpl; [reflexivity|now rewrite IH]. Qed.

(** The loop adds to the text accumulated so far the texts of the pages. *)
Lemma read_pages_readable (pages : list (list string)) (textContent : string) :
  Pdf.read_pages (map inr pages) textContent
  = inr (textContent ++ fold_right append "" (map Pdf.page_text pages)).
Proof.
  revert textContent; induction pages as [|items pages IH]; intros textContent;
    simpl.
  - now rewrite append_nil_r.
  - rewrite IH. now rewrite append_assoc.
Qed.

Lemma read_pages_failing (good : list (list string)) (cause : exn)
  (rest : list Pdf.Page) (textContent : string) :
  Pdf.read_pages (map inr good ++ inl cause :: rest) textContent = inl cause.
Proof.
  revert textContent; induction good as [|items good IH]; intros textContent;
    simpl; [reflexivity|apply IH].
Qed.

Section Extraction.

Variable getDocument : list Byte.byte -> exn + list Pdf.Page.

(** X11: when the file is read and every page gives its items,
    [extractTextFromPdf] resolves to the texts of the pages in page order,
    each page being its items joined by single spaces, with nothing between
    two pages; a document without pages gives the empty text. *)
Theorem extractTextFromPdf_concatenates (typedarray : list Byte.byte)
  (pages : list (list string)) :
  getDocument typedarray = inr (map inr pages) ->
  Pdf.extractTextFromPdf getDocument (Pdf.onload (Some typedarray))
  = inr (fold_right append "" (map (String.concat " ") pages)) /\
  (pages = [] ->
   Pdf.extractTextFromPdf getDocument (Pdf.onload (Some typedarray)) = inr "").
Proof.
  intros Hdoc.
  assert (H : Pdf.extractTextFromPdf getDocument (Pdf.onload (Some typedarray))
              = inr (fold_right append "" (map (String.concat " ") pages))).
  { unfold Pdf.extractTextFromPdf, and_then. rewrite Hdoc.
    now rewrite read_pages_readable. }
  split; [exact H|]. intros ->. exact H.
Qed.


End Extraction.

Lemma extractTextFromPdf_concatenates_witness :
  Pdf.extractTextFromPdf (fun _ => inr [inr ["Hello"; "world"]; inr []; inr ["again"]])
    (Pdf.onload (Some []))
  = inr "Hello worldagain".
Proof.
  apply (extractTextFromPdf_concatenates
           (fun _ => inr [inr ["Hello"; "world"]; inr []; inr ["again"]]) []
           [["Hello"; "world"]; []; ["again"]]).
  reflexivity.
Defined.


(** ** The quiz view *)

Lemma Number_toString_inj (a b : Z) :
  Number_toString a = Number_toString b -> a = b.
Proof.
  unfold Number_toString. intros H. apply DecimalZ.to_int_inj.
  assert (Hnil : forall n, Z.to_int n <> Decimal.Pos Decimal.Nil /\
                           Z.to_int n <> Decimal.Neg Decimal.Nil).
  { intros [|p|p]; simpl; split; try discriminate; intros Hp; injection Hp;
      apply DecimalPos.Unsigned.to_uint_nonnil. }
  apply (f_equal NilZero.int_of_string) in H.
  rewrite !NilZero.isi in H by apply Hnil.
  now injection H.
Qed.

Lemma append_same_length (a b x y : string) :
  String.length a = String.length b -> a ++ x = b ++ y -> a = b /\ x = y.
Proof.
  revert b; induction a as [|c a IH]; intros [|d b] Hlen H; simpl in *;
    try discriminate; [auto|].
  injection H as -> H. injection Hlen as Hlen.
  destruct (IH b Hlen H) as [-> ->]. auto.
Qed.

Lemma append_length (a b : string) :
  String.length (a ++ b) = (String.length a + String.length b)%nat.
Proof. induction a as [|c a IH]; simpl; [reflexivity|now rewrite IH]. Qed.

(** The seconds of the display, for each of the sixty remainders. *)
Lemma seconds_two_characters (secs : Z) :
  (0 <= secs < 60)%Z ->
  String.length (QuizView.padStart 2 "0" (Number_toString secs)) = 2%nat.
Proof.
  intros H.
  assert (Hin : In secs (map Z.of_nat (seq 0 60))).
  { apply in_map_iff. exists (Z.to_nat secs). split; [lia|].
    apply in_seq. lia. }
  clear H. revert secs Hin. apply Forall_forall.
  repeat constructor.
Qed.

(** X13: for a number of seconds that is not negative, the display of
    [formatTime] is the minutes, a colon and exactly two characters for the
    seconds, and two different numbers of seconds are never displayed the
    same. *)
Theorem formatTime_unambiguous (a b : Z) :
  (0 <= a)%Z ->
  (0 <= b)%Z ->
  (exists secs,
     String.length secs = 2%nat /\
     QuizView.formatTime a = Number_toString (a / 60) ++ ":" ++ secs) /\
  (QuizView.formatTime a = QuizView.formatTime b -> a = b).
Proof.
  intros Ha Hb.
  assert (Hrem : forall n, (0 <= n)%Z -> Z.rem n 60 = (n mod 60)%Z).
  { intros n Hn. apply Z.rem_mod_nonneg; lia. }
  assert (Hsecs : forall n, (0 <= n)%Z ->
            String.length (QuizView.padStart 2 "0" (Number_toString (Z.rem n 60)))
            = 2%nat).
  { intros n Hn. apply seconds_two_characters. rewrite Hrem by assumption.
    apply Z.mod_pos_bound. lia. }
  split.
  - eexists. split; [apply (Hsecs a Ha)|reflexivity].
  - unfold QuizView.formatTime. cbv zeta. intros H.
    assert (Hlen : String.length (Number_toString (a / 60))
                   = String.length (Number_toString (b / 60))).
    { apply (f_equal String.length) in H.
      rewrite !append_length, (Hsecs a Ha), (Hsecs b Hb) in H. simpl in H. lia. }
    destruct (append_same_length _ _ _ _ Hlen H) as [Hmins Hrest].
    apply Number_toString_inj in Hmins.
    injection Hrest as Hrest.
    assert (Hs : Z.rem a 60 = Z.rem b 60).
    { assert (Hra : (0 <= Z.rem a 60 < 60)%Z)
        by (rewrite Hrem by assumption; apply Z.mod_pos_bound; lia).
      assert (Hrb : (0 <= Z.rem b 60 < 60)%Z)
        by (rewrite Hrem by assumption; apply Z.mod_pos_bound; lia).
      revert Hrest. generalize (Z.rem a 60) (Z.rem b 60) Hra Hrb.
      intros x y Hx Hy.
      assert (Hinx : In x (map Z.of_nat (seq 0 60))).
      { apply in_map_iff. exists (Z.to_nat x). split; [lia|]. apply in_seq. lia. }
      assert (Hiny : In y (map Z.of_nat (seq 0 60))).
      { apply in_map_iff. exists (Z.to_nat y). split; [lia|]. apply in_seq. lia. }
      assert (Hall : forallb
                (fun x => forallb
                   (fun y => implb
                      (QuizView.padStart 2 "0" (Number_toString x)
                       =? QuizView.padStart 2 "0" (Number_toString y))
                      (x =? y)%Z)
                   (map Z.of_nat (seq 0 60)))
                (map Z.of_nat (seq 0 60)) = true) by (vm_compute; reflexivity).
      rewrite forallb_forall in Hall. specialize (Hall x Hinx).
      rewrite forallb_forall in Hall. specialize (Hall y Hiny).
      intros Heq. rewrite Heq, String.eqb_refl in Hall. simpl in Hall.
      now apply Z.eqb_eq. }
    rewrite (Z.div_mod a 60), (Z.div_mod b 60) by lia.
    rewrite <- !Hrem by assumption. now rewrite Hmins, Hs.
Qed.

Lemma formatTime_unambiguous_witness :
  QuizView.formatTime 125 = "2:05" /\
  (QuizView.formatTime 125 = QuizView.formatTime 125 -> 125 = 125)%Z.
Proof.
  destruct (formatTime_unambiguous 125 125 ltac:(lia) ltac:(lia))
    as [(secs & Hlen & Hfmt) Hinj].
  split; [reflexivity|exact Hinj].
Defined.

(** X14: the time left is never negative; it is zero exactly when less
    than a full second remains, otherwise it is the number of whole seconds
    that remain; and it does not grow as time passes. *)
Theorem calculateTimeLeft_bounds (expiryTime now : Z) :
  let left := QuizView.calculateTimeLeft expiryTime now in
  (0 <= left)%Z /\
  (left = 0%Z <-> (expiryTime - now < 1000)%Z) /\
  ((0 < left)%Z -> (1000 * left <= expiryTime - now < 1000 * (left + 1))%Z) /\
  (forall later,
     (now <= later)%Z -> (QuizView.calculateTimeLeft expiryTime later <= left)%Z).
Proof.
  unfold QuizView.calculateTimeLeft. cbv zeta.
  pose proof (Z.div_mod (expiryTime - now) 1000 ltac:(lia)) as Hdm.
  pose proof (Z.mod_pos_bound (expiryTime - now) 1000 ltac:(lia)) as Hmod.
  destruct (Z.ltb_spec 0 ((expiryTime - now) / 1000)) as [Hpos|Hneg].
  - repeat split; try lia.
    intros later Hlater.
    pose proof (Z.div_le_mono (expiryTime - later) (expiryTime - now) 1000
                  ltac:(lia) ltac:(lia)) as Hmono.
    destruct (Z.ltb_spec 0 ((expiryTime - later) / 1000)); lia.
  - repeat split; try lia.
    intros later Hlater.
    pose proof (Z.div_le_mono (expiryTime - later) (expiryTime - now) 1000
                  ltac:(lia) ltac:(lia)) as Hmono.
    destruct (Z.ltb_spec 0 ((expiryTime - later) / 1000)); lia.
Qed.

Lemma calculateTimeLeft_bounds_witness :
  QuizView.calculateTimeLeft 61500 1000 = 60%Z /\
  (QuizView.calculateTimeLeft 61500 2000 <= QuizView.calculateTimeLeft 61500 1000)%Z.
Proof.
  destruct (calculateTimeLeft_bounds 61500 1000) as (_ & _ & _ & Hmono).
  split; [reflexivity|]. apply Hmono. lia.
Defined.

(** X15: a quiz generated at a time [now] that is not negative, with a
    limit of [timeLimit] minutes above zero, gets an expiry time for which
    the quiz view computes [timeLimit * 60] seconds left at that same time
    and displays the limit followed by [:00]. *)
Theorem timer_starts_at_the_limit (Q : Type) (timeLimit now : Z) :
  (0 < timeLimit)%Z ->
  (0 <= now)%Z ->
  exists expiryTime,
    App.expiry timeLimit now = Some expiryTime /\
    QuizView.timeLeft (Some expiryTime) now = Some (timeLimit * 60)%Z /\
    QuizView.formatTime (timeLimit * 60) = Number_toString timeLimit ++ ":00" /\
    forall (questions : list Q) quizName (st : App.state Q),
      App.quizExpiryTime (App.generated questions quizName timeLimit now st)
      = Some expiryTime.
Proof.
  intros Hlimit Hnow. exists (now + timeLimit * 60 * 1000)%Z.
  assert (Hexpiry : App.expiry timeLimit now = Some (now + timeLimit * 60 * 1000)%Z).
  { unfold App.expiry. destruct (Z.ltb_spec 0 timeLimit); [reflexivity|lia]. }
  split; [exact Hexpiry|]. split; [|split].
  - unfold QuizView.timeLeft, QuizView.calculateTimeLeft.
    destruct (Z.eqb_spec (now + timeLimit * 60 * 1000) 0) as [H0|_]; [lia|].
    replace (now + timeLimit * 60 * 1000 - now)%Z with (timeLimit * 60 * 1000)%Z
      by lia.
    rewrite Z.div_mul by lia.
    destruct (Z.ltb_spec 0 (timeLimit * 60)); [reflexivity|lia].
  - unfold QuizView.formatTime. cbv zeta.
    rewrite Z.div_mul by lia. rewrite Z.rem_mul by lia. reflexivity.
  - intros questions quizName st. simpl. exact Hexpiry.
Qed.

Lemma timer_starts_at_the_limit_witness :
  exists expiryTime,
    App.expiry 10 1700000000000 = Some expiryTime /\
    QuizView.timeLeft (Some expiryTime) 1700000000000 = Some 600%Z /\
    QuizView.formatTime 600 = "10:00".
Proof.
  destruct (timer_starts_at_the_limit unit 10 1700000000000 ltac:(lia) ltac:(lia))
    as (expiryTime & H1 & H2 & H3 & _).
  exists expiryTime. auto.
Defined.

Lemma getMarksForType_range (type : string) :
  (1 <= Part000.getMarksForType type <= 5)%Z.
Proof.
  unfold Part000.getMarksForType.
  repeat match goal with
         | |- context [type =? ?k] => destruct (type =? k)
         end; lia.
Qed.

(** X16: for every question that [generateQuiz] returns, the maximum of
    marks that the quiz view passes to [evaluateAnswer] is the value of the
    marks table at the requested kind, between 1 and 5: the heuristic of
    the view is never used for a generated question. *)
Theorem maxMarks_of_generated_question (JSON_parse : string -> exn + json)
  (network : Network) (env : environment) (pdfText : string) (numQuestions : Z)
  (difficulty questionType examContext : string) (log log' : list event)
  (qs : list Part000.QuizQuestion) :
  Part000.generateQuiz JSON_parse network env pdfText numQuestions difficulty
    questionType examContext log = (inr qs, log') ->
  Forall (fun q =>
            QuizView.maxMarks q = Part000.getMarksForType questionType /\
            (1 <= QuizView.maxMarks q <= 5)%Z) qs.
Proof.
  intros H. apply generateQuiz_returns in H. destruct H as [jsonString H].
  apply processResponse_kind_marks in H.
  eapply Forall_impl; [|exact H]. intros q [_ Hmarks].
  pose proof (getMarksForType_range questionType) as Hrange.
  unfold QuizView.maxMarks. rewrite Hmarks.
  destruct (Z.eqb_spec (Part000.getMarksForType questionType) 0); [lia|].
  split; [reflexivity|exact Hrange].
Qed.

Lemma maxMarks_of_generated_question_witness :
  exists qs log',
    Part000.generateQuiz JSON_parse_reader (network_text two_questions)
      env_with_key "pdf" 2 "Easy" "CaseBased" "" [] = (inr qs, log') /\
    List.length qs = 2%nat /\
    Forall (fun q => QuizView.maxMarks q = 4%Z /\ (1 <= QuizView.maxMarks q <= 5)%Z)
      qs.
Proof.
  eexists; eexists. split; [vm_compute; reflexivity|]. split; [reflexivity|].
  eapply (maxMarks_of_generated_question JSON_parse_reader
            (network_text two_questions) env_with_key "pdf" 2 "Easy" "CaseBased"
            "" []).
  vm_compute; reflexivity.
Defined.

Lemma trimStart_head (s : string) :
  trimStart s = "" \/
  exists c r, trimStart s = String c r /\ is_js_space c = false.
Proof.
  induction s as [|c s IH]; simpl; [now left|].
  destruct (is_js_space c) eqn:Hc; [exact IH|].
  right. now exists c, s.
Qed.

Lemma trimEnd_idem (s : string) : trimEnd (trimEnd s) = trimEnd s.
Proof.
  induction s as [|c s IH]; simpl; [reflexivity|].
  destruct (is_js_space c && (trimEnd s =? "")) eqn:Hc; [reflexivity|].
  simpl. now rewrite IH, Hc.
Qed.

Lemma trim_idem (s : string) : trim (trim s) = trim s.
Proof.
  unfold trim. destruct (trimStart_head s) as [->|(c & r & -> & Hc)];
    [reflexivity|].
  simpl. rewrite Hc. simpl. rewrite Hc. simpl.
  rewrite Hc. simpl. now rewrite trimEnd_idem.
Qed.

(** X17: the answer that [handleTextSubmit] passes on is never empty and
    carries no white space at its ends: trimming it again changes nothing,
    and a blank input passes no answer at all. *)
Theorem handleTextSubmit_trimmed (textInput : string) :
  (trim textInput = "" -> QuizView.handleTextSubmit textInput = None) /\
  (forall answer,
     QuizView.handleTextSubmit textInput = Some answer ->
     answer <> "" /\ trim answer = answer /\
     QuizView.handleTextSubmit answer = Some answer).
Proof.
  unfold QuizView.handleTextSubmit. split.
  - now intros ->.
  - intros answer.
    destruct (String.eqb_spec (trim textInput) "") as [|Hne]; [discriminate|].
    intros H; injection H as <-.
    rewrite trim_idem.
    destruct (String.eqb_spec (trim textInput) ""); [contradiction|]. auto.
Qed.

Lemma handleTextSubmit_trimmed_witness :
  QuizView.handleTextSubmit "   " = None /\
  QuizView.handleTextSubmit "  oxygen " = Some "oxygen" /\
  trim "oxygen" = "oxygen".
Proof.
  destruct (handleTextSubmit_trimmed "   ") as [Hblank _].
  destruct (handleTextSubmit_trimmed "  oxygen ") as [_ Hanswer].
  split; [apply Hblank; reflexivity|].
  split; [reflexivity|].
  apply (Hanswer "oxygen"). reflexivity.
Defined.

(** ** The results view *)

Section Scores.

Variable Q : Type.
Variable correctAnswer : Q -> value.

(** The count grows by at most one per entry, and only on entries that can
    be equal to a correct answer. *)
Lemma reduce_from_bounds (countable : Answers.slot -> bool) (quizData : list Q) :
  (forall x q,
     In q quizData ->
     Answers.strict_equal x (correctAnswer q) = true -> countable x = true) ->
  forall userAnswers index acc,
    (index + List.length userAnswers <= List.length quizData)%nat ->
    exists n,
      ResultsView.reduce_from Q correctAnswer quizData userAnswers index acc
      = inr n /\
      (acc <= n <= acc + Z.of_nat (List.length (filter countable userAnswers)))%Z.
Proof.
  intros Hcount userAnswers.
  induction userAnswers as [|x userAnswers IH]; intros index acc Hlen; simpl in *.
  - exists acc. split; [reflexivity|lia].
  - assert (Hnth : exists q, nth_error quizData index = Some q).
    { destruct (nth_error quizData index) as [q|] eqn:Hq; [eauto|].
      apply nth_error_None in Hq. lia. }
    destruct Hnth as [q Hq].
    assert (Hstep : forall acc',
               (acc <= acc' <= acc + (if countable x then 1 else 0))%Z ->
               exists n,
                 ResultsView.reduce_from Q correctAnswer quizData userAnswers
                   (S index) acc' = inr n /\
                 (acc <= n <= acc + Z.of_nat
                                      (List.length
                                         (if countable x
                                          then x :: filter countable userAnswers
                                          else filter countable userAnswers)))%Z).
    { intros acc' Hacc'.
      destruct (IH (S index) acc' ltac:(lia)) as (n & Hn & Hbound).
      exists n. split; [exact Hn|].
      destruct (countable x); simpl List.length; lia. }
    assert (Hcase : forall acc0 : Z,
               (acc <= (if Answers.strict_equal x (correctAnswer q)
                        then acc + 1 else acc)
                <= acc + (if countable x then 1 else 0))%Z).
    { intros _. destruct (Answers.strict_equal x (correctAnswer q)) eqn:Heq.
      - rewrite (Hcount x q (nth_error_In _ _ Hq) Heq). lia.
      - destruct (countable x); lia. }
    destruct x; rewrite ?Hq; apply Hstep; apply (Hcase 0%Z).
Qed.

(** X18: when there are no more answers than questions, the score of the
    results view is computed without an exception and lies between zero and
    the number of answers. *)
Theorem score_bounded (quizData : list Q) (userAnswers : list Answers.slot) :
  (List.length userAnswers <= List.length quizData)%nat ->
  exists n,
    ResultsView.score Q correctAnswer quizData userAnswers = inr n /\
    (0 <= n <= Z.of_nat (List.length userAnswers))%Z.
Proof.
  intros Hlen.
  destruct (reduce_from_bounds (fun _ => true) quizData ltac:(reflexivity)
              userAnswers 0%nat 0%Z ltac:(simpl; lia)) as (n & Hn & Hbound).
  exists n. split; [exact Hn|].
  assert (Hall : filter (fun _ : Answers.slot => true) userAnswers = userAnswers).
  { clear. induction userAnswers as [|x l IH]; simpl; [reflexivity|now rewrite IH]. }
  rewrite Hall in Hbound. lia.
Qed.

End Scores.

Lemma score_bounded_witness :
  exists n,
    ResultsView.score string (fun q => Some (JStr q)) ["a"; "b"; "c"]
      [Answers.text_slot "a"; Answers.null_slot; Answers.text_slot "x"] = inr n /\
    (0 <= n <= 3)%Z.
Proof.
  apply (score_bounded string (fun q => Some (JStr q)) ["a"; "b"; "c"]
           [Answers.text_slot "a"; Answers.null_slot; Answers.text_slot "x"]).
  simpl. lia.
Defined.

Lemma defaulted_not_null (d v : json) : d <> JNull -> defaulted d v -> v <> JNull.
Proof. intros Hd [->|Hv]; [exact Hd|]. intros ->. discriminate. Qed.

(** X19: for the questions that [generateQuiz] returns and as many answers
    at most, the score counts no question that is not answered: it is at
    most the number of entries that hold an answer, and zero while every
    entry is [null]. *)
Theorem score_of_generated_quiz (JSON_parse : string -> exn + json)
  (network : Network) (env : environment) (pdfText : string) (numQuestions : Z)
  (difficulty questionType examContext : string) (log log' : list event)
  (qs : list Part000.QuizQuestion) (userAnswers : list Answers.slot) :
  Part000.generateQuiz JSON_parse network env pdfText numQuestions difficulty
    questionType examContext log = (inr qs, log') ->
  (List.length userAnswers <= List.length qs)%nat ->
  let correctAnswer (q : Part000.QuizQuestion) := Some (Part000.correctAnswer q) in
  (exists n,
     ResultsView.score Part000.QuizQuestion correctAnswer qs userAnswers = inr n /\
     (0 <= n <= Z.of_nat (answered userAnswers))%Z) /\
  ResultsView.score Part000.QuizQuestion correctAnswer qs
    (Answers.fresh (List.length qs)) = inr 0%Z.
Proof.
  intros Hrun Hlen correctAnswer.
  assert (Hfields : Forall fields_defined qs).
  { apply generateQuiz_returns in Hrun. destruct Hrun as [jsonString H].
    apply processResponse_accepts in H.
    destruct H as (parsed & items & _ & _ & H).
    apply map_throwing_Forall2 in H.
    eapply Forall2_right; [|exact H].
    intros x y. apply toQuizQuestion_fields_defined. }
  assert (Hcount : forall x q,
             In q qs ->
             Answers.strict_equal x (correctAnswer q) = true -> is_text x = true).
  { intros x q Hq Heq. rewrite Forall_forall in Hfields.
    destruct (Hfields q Hq) as (_ & Hca & _).
    apply defaulted_not_null in Hca; [|discriminate].
    unfold correctAnswer in Heq.
    destruct x; simpl in *; try discriminate; [|reflexivity].
    destruct (Part000.correctAnswer q); try discriminate. congruence. }
  split.
  - destruct (reduce_from_bounds Part000.QuizQuestion correctAnswer is_text qs
                Hcount userAnswers 0%nat 0%Z ltac:(simpl; lia))
      as (n & Hn & Hbound).
    exists n. split; [exact Hn|]. unfold answered. lia.
  - destruct (reduce_from_bounds Part000.QuizQuestion correctAnswer is_text qs
                Hcount (Answers.fresh (List.length qs)) 0%nat 0%Z)
      as (n & Hn & Hbound).
    { unfold Answers.fresh. rewrite repeat_length. simpl; lia. }
    unfold ResultsView.score. rewrite Hn. f_equal.
    assert (Hnone : filter is_text (Answers.fresh (List.length qs)) = []).
    { unfold Answers.fresh. generalize (List.length qs). clear.
      intros k; induction k as [|k IH]; simpl; [reflexivity|exact IH]. }
    rewrite Hnone in Hbound. simpl in Hbound. lia.
Qed.

Lemma score_of_generated_quiz_witness :
  exists qs log',
    Part000.generateQuiz JSON_parse_reader (network_text two_questions)
      env_with_key "pdf" 2 "Easy" "MCQ" "" [] = (inr qs, log') /\
    ResultsView.score Part000.QuizQuestion
      (fun q => Some (Part000.correctAnswer q)) qs
      [Answers.text_slot "a"; Answers.null_slot] = inr 1%Z /\
    ResultsView.score Part000.QuizQuestion
      (fun q => Some (Part000.correctAnswer q)) qs (Answers.fresh (List.length qs))
    = inr 0%Z.
Proof.
  eexists; eexists. split; [vm_compute; reflexivity|]. split; [reflexivity|].
  eapply (score_of_generated_quiz JSON_parse_reader (network_text two_questions)
            env_with_key "pdf" 2 "Easy" "MCQ" "" [] _ _
            [Answers.text_slot "a"; Answers.null_slot]).
  - vm_compute; reflexivity.
  - simpl. lia.
Defined.

(** ** The handlers of the application *)

Lemma spread_no_hole (a : list Answers.slot) :
  Forall (fun x => x = Answers.null_slot \/ is_text x = true) a ->
  Answers.spread a = a.
Proof.
  induction 1 as [|x a Hx _ IH]; simpl; [reflexivity|].
  rewrite IH. destruct Hx as [->|Hx]; [reflexivity|].
  destruct x; try discriminate; reflexivity.
Qed.

Lemma array_set_in_range (a : list Answers.slot) (i : nat) (v : Answers.slot) :
  (i < List.length a)%nat ->
  List.length (Answers.array_set a i v) = List.length a /\
  nth_error (Answers.array_set a i v) i = Some v /\
  (forall j, j <> i -> nth_error (Answers.array_set a i v) j = nth_error a j) /\
  (forall P : Answers.slot -> Prop, Forall P a -> P v ->
                                    Forall P (Answers.array_set a i v)).
Proof.
  revert i; induction a as [|x a IH]; intros [|i] Hi; simpl in *; try lia.
  - repeat split; try reflexivity.
    + intros [|j] Hj; [congruence|reflexivity].
    + intros P Ha Hv. inversion Ha; subst. now constructor.
  - destruct (IH i ltac:(lia)) as (Hlen & Hnth & Hother & Hall).
    repeat split.
    + now rewrite Hlen.
    + exact Hnth.
    + intros [|j] Hj; [reflexivity|]. simpl. apply Hother. congruence.
    + intros P Ha Hv. inversion Ha; subst. constructor; auto.
Qed.

Section Play.

Variable Q : Type.
Implicit Types st : App.state Q.

(** X20: the handlers of the quiz view keep the state playable: after
    going to the next or the previous question, the end of the time,
    toggling the overview or jumping to a question of the overview, the
    current index still designates a question and there is still one
    entry, [null] or an answer, per question. After [handleAnswerSelect]
    of a playable render, which is the current state or an older one, the
    state is playable exactly when the quiz of that render has as many
    questions as the current quiz: the handler of the current render keeps
    the state playable, a stale handler of a quiz of another length does
    not. *)
Theorem handlers_keep_playable st :
  playable st ->
  (forall render answer,
     playable render ->
     (playable (App.handleAnswerSelect render answer st) <->
      List.length (App.quizData render) = List.length (App.quizData st))) /\
  (forall answer, playable (App.handleAnswerSelect st answer st)) /\
  playable (App.handleNextQuestion st) /\
  playable (App.handlePreviousQuestion st) /\
  playable (App.handleTimeUp st) /\
  playable (App.handleToggleOverview st) /\
  (forall index,
     (index < List.length (App.quizData st))%nat ->
     playable (App.handleJumpToQuestion index st)).
Proof.
  intros (Hindex & Hlen & Hall).
  assert (Hanswer : forall render answer,
             playable render ->
             (playable (App.handleAnswerSelect render answer st) <->
              List.length (App.quizData render) = List.length (App.quizData st))).
  { intros render answer (Hindex' & Hlen' & Hall').
    unfold playable, App.handleAnswerSelect. simpl.
    rewrite (spread_no_hole _ Hall').
    destruct (array_set_in_range (App.userAnswers render)
                (App.currentQuestionIndex render) (Answers.text_slot answer)
                ltac:(lia)) as (Hl & _ & _ & HP).
    rewrite Hl, Hlen'. split.
    - intros (_ & Hsame & _). exact Hsame.
    - intros Hsame. split; [exact Hindex|]. split; [exact Hsame|].
      apply HP; [exact Hall'|now right]. }
  split; [exact Hanswer|].
  split; [|split; [|split; [|split; [|split]]]].
  - intros answer. apply Hanswer; [|reflexivity].
    split; [exact Hindex|]. split; [exact Hlen|exact Hall].
  - unfold playable, App.handleNextQuestion.
    destruct (Z.ltb_spec (Z.of_nat (App.currentQuestionIndex st))
                (Z.of_nat (List.length (App.quizData st)) - 1)); simpl;
      repeat split; try assumption; lia.
  - unfold playable, App.handlePreviousQuestion.
    destruct (Nat.ltb_spec 0 (App.currentQuestionIndex st)); simpl;
      repeat split; try assumption; lia.
  - unfold playable; simpl; auto.
  - unfold playable; simpl; auto.
  - intros index Hi. unfold playable; simpl; auto.
Qed.

(** X21: a quiz that is started from the library or has just been
    generated, with one question at least, is playable from its first
    question with every answer [null]; the state is in the [quiz] page. *)
Theorem started_quiz_is_playable (questions : list Q) :
  questions <> [] ->
  (forall quizName timeLimit now st,
     let st' := App.generated questions quizName timeLimit now st in
     playable st' /\
     App.appState st' = App.quiz /\
     App.currentQuestionIndex st' = 0%nat /\
     answered (App.userAnswers st') = 0%nat) /\
  (forall quiz now st,
     App.questions quiz = questions ->
     let st' := App.handleStartQuiz quiz now st in
     playable st' /\
     App.appState st' = App.quiz /\
     App.currentQuestionIndex st' = 0%nat /\
     answered (App.userAnswers st') = 0%nat).
Proof.
  intros Hne.
  assert (Hpos : (0 < List.length questions)%nat)
    by (destruct questions; [congruence|simpl; lia]).
  assert (Hfresh : forall n,
             Forall (fun x => x = Answers.null_slot \/ is_text x = true)
               (Answers.fresh n) /\ answered (Answers.fresh n) = 0%nat).
  { intros n. unfold answered, Answers.fresh.
    induction n as [|n [IH1 IH2]]; simpl; split; auto. }
  split.
  - intros quizName timeLimit now st st'. subst st'. unfold playable; simpl.
    unfold Answers.fresh at 1. rewrite repeat_length.
    destruct (Hfresh (List.length questions)). auto.
  - intros quiz now st Hq st'. subst st'. unfold playable; simpl. rewrite Hq.
    unfold Answers.fresh at 1. rewrite repeat_length.
    destruct (Hfresh (List.length questions)). auto.
Qed.

(** X22: [handleAnswerSelect] of a playable render records the answer at
    the index of that render and takes every other entry from the answers
    of that render, so that an answer given since that render is lost; the
    questions, the current index and the page are those of the state at
    the time of the call. When the render is the current state, the answer
    is recorded at the current index and every other entry is left as it
    is. *)
Theorem handleAnswerSelect_sets_current render st (answer : string) :
  playable render ->
  let st' := App.handleAnswerSelect render answer st in
  nth_error (App.userAnswers st') (App.currentQuestionIndex render)
  = Some (Answers.text_slot answer) /\
  (forall j,
     j <> App.currentQuestionIndex render ->
     nth_error (App.userAnswers st') j = nth_error (App.userAnswers render) j) /\
  App.quizData st' = App.quizData st /\
  App.currentQuestionIndex st' = App.currentQuestionIndex st /\
  App.appState st' = App.appState st /\
  (render = st ->
   nth_error (App.userAnswers st') (App.currentQuestionIndex st)
   = Some (Answers.text_slot answer) /\
   forall j,
     j <> App.currentQuestionIndex st ->
     nth_error (App.userAnswers st') j = nth_error (App.userAnswers st) j).
Proof.
  intros (Hindex & Hlen & Hall) st'. subst st'.
  unfold App.handleAnswerSelect. simpl.
  rewrite (spread_no_hole _ Hall).
  destruct (array_set_in_range (App.userAnswers render)
              (App.currentQuestionIndex render) (Answers.text_slot answer)
              ltac:(lia)) as (_ & Hnth & Hother & _).
  split; [exact Hnth|]. split; [exact Hother|].
  split; [reflexivity|]. split; [reflexivity|]. split; [reflexivity|].
  intros <-. split; [exact Hnth|exact Hother].
Qed.

(** X23: in a playable state, [handleNextQuestion] moves to the next
    question when there is one, and [handlePreviousQuestion] then comes
    back to the same state; on the last question [handleNextQuestion]
    leaves the index as it is and shows the results; on the first question
    [handlePreviousQuestion] does nothing. *)
Theorem question_navigation st :
  playable st ->
  ((App.currentQuestionIndex st + 1 < List.length (App.quizData st))%nat ->
   App.currentQuestionIndex (App.handleNextQuestion st)
   = (App.currentQuestionIndex st + 1)%nat /\
   App.appState (App.handleNextQuestion st) = App.appState st /\
   App.handlePreviousQuestion (App.handleNextQuestion st) = st) /\
  ((App.currentQuestionIndex st + 1 = List.length (App.quizData st))%nat ->
   App.handleNextQuestion st = App.setAppState App.results st) /\
  (App.currentQuestionIndex st = 0%nat -> App.handlePreviousQuestion st = st).
Proof.
  intros (Hindex & _ & _).
  split; [|split].
  - intros Hnext. unfold App.handleNextQuestion.
    destruct (Z.ltb_spec (Z.of_nat (App.currentQuestionIndex st))
                (Z.of_nat (List.length (App.quizData st)) - 1)); [|lia].
    simpl. split; [reflexivity|]. split; [reflexivity|].
    unfold App.handlePreviousQuestion. simpl.
    destruct (Nat.ltb_spec 0 (App.currentQuestionIndex st + 1)); [|lia].
    unfold App.setCurrentQuestionIndex. simpl.
    replace (App.currentQuestionIndex st + 1 - 1)%nat
      with (App.currentQuestionIndex st) by lia.
    now destruct st.
  - intros Hlast. unfold App.handleNextQuestion.
    destruct (Z.ltb_spec (Z.of_nat (App.currentQuestionIndex st))
                (Z.of_nat (List.length (App.quizData st)) - 1)); [lia|reflexivity].
  - intros Hfirst. unfold App.handlePreviousQuestion. now rewrite Hfirst.
Qed.

End Play.

Lemma handlers_keep_playable_witness :
  playable
    (App.handleNextQuestion (App.handleAnswerSelect sample_state "a" sample_state)) /\
  ~ playable (App.handleAnswerSelect sample_state "a" later_quiz).
Proof.
  assert (H : playable sample_state).
  { unfold playable; simpl. repeat split; try lia. repeat constructor. }
  assert (H' : playable later_quiz).
  { unfold playable; simpl. repeat split; try lia. repeat constructor. }
  split.
  - destruct (handlers_keep_playable string sample_state H) as (_ & Hanswer & _).
    destruct (handlers_keep_playable string _ (Hanswer "a")) as (_ & _ & Hnext & _).
    exact Hnext.
  - destruct (handlers_keep_playable string later_quiz H') as (Hstale & _).
    intros Hplayable. apply (Hstale sample_state "a" H) in Hplayable.
    discriminate.
Defined.

Lemma started_quiz_is_playable_witness :
  playable sample_state /\ App.appState sample_state = App.quiz.
Proof.
  destruct (started_quiz_is_playable string ["q1"; "q2"; "q3"] ltac:(discriminate))
    as [H _].
  destruct (H "Quiz" 0%Z 1700000000000%Z (App.initial string)) as (Hp & Hs & _).
  split; assumption.
Defined.

Lemma handleAnswerSelect_sets_current_witness :
  nth_error
    (App.userAnswers (App.handleAnswerSelect sample_state "a" sample_state)) 0
  = Some (Answers.text_slot "a") /\
  nth_error (App.userAnswers second_answered) 1 = Some (Answers.text_slot "b") /\
  nth_error
    (App.userAnswers (App.handleAnswerSelect sample_state "a" second_answered)) 1
  = Some Answers.null_slot /\
  App.currentQuestionIndex (App.handleAnswerSelect sample_state "a" second_answered)
  = 1%nat.
Proof.
  assert (H : playable sample_state).
  { unfold playable; simpl. repeat split; try lia. repeat constructor. }
  split; [|split; [reflexivity|split]].
  - destruct (handleAnswerSelect_sets_current string sample_state sample_state
                "a" H) as (Hrecorded & _).
    exact Hrecorded.
  - destruct (handleAnswerSelect_sets_current string sample_state second_answered
                "a" H) as (_ & Hother & _).
    rewrite (Hother 1%nat); [reflexivity|discriminate].
  - destruct (handleAnswerSelect_sets_current string sample_state second_answered
                "a" H) as (_ & _ & _ & Hindex & _).
    exact Hindex.
Defined.

Lemma question_navigation_witness :
  App.handlePreviousQuestion (App.handleNextQuestion sample_state) = sample_state.
Proof.
  apply (question_navigation string sample_state).
  - unfold playable; simpl. repeat split; try lia. repeat constructor.
  - simpl. lia.
Defined.

(** ** The quiz library *)

Lemma lookup_remove_other (key k : string) (items : Browser.Storage) :
  k <> key -> Browser.lookup k (Browser.remove key items) = Browser.lookup k items.
Proof.
  intros Hk. induction items as [|[k' v] items IH]; simpl; [reflexivity|].
  destruct (String.eqb_spec k' key) as [->|Hk'].
  - rewrite IH. destruct (String.eqb_spec key k); [congruence|reflexivity].
  - simpl. now rewrite IH.
Qed.

Lemma lookup_store (key k value : string) (items : Browser.Storage) :
  Browser.lookup k ((key, value) :: Browser.remove key items)
  = if key =? k then Some value else Browser.lookup k items.
Proof.
  simpl. destruct (String.eqb_spec key k) as [->|Hk]; [reflexivity|].
  apply lookup_remove_other. congruence.
Qed.

Lemma filter_throwing_created_by (userId : string) (all mine : list json) :
  QuizStorageService.filter_throwing (QuizStorageService.created_by userId) all
  = inr mine ->
  mine = filter (is_created_by userId) all.
Proof.
  revert mine; induction all as [|quiz all IH]; simpl; intros mine H.
  - now injection H as <-.
  - unfold and_then in H.
    destruct (QuizStorageService.created_by userId quiz) as [e|keep] eqn:Hq;
      [discriminate|].
    destruct (QuizStorageService.filter_throwing _ all) as [e|kept];
      [discriminate|].
    injection H as <-. rewrite (IH kept eq_refl).
    assert (Hkeep : keep = is_created_by userId quiz).
    { unfold QuizStorageService.created_by, and_then in Hq.
      destruct quiz; simpl in *; try discriminate; now injection Hq as <-. }
    now rewrite Hkeep.
Qed.

Section Library.

Variable JSON_parse : string -> exn + json.
Variable JSON_stringify : json -> string.
Variable faults : Browser.Faults.

Local Abbreviation getQuizzes := (QuizStorageService.getQuizzes JSON_parse faults).
Local Abbreviation getQuizzesByCreator :=
  (QuizStorageService.getQuizzesByCreator JSON_parse faults).
Local Abbreviation saveQuiz :=
  (QuizStorageService.saveQuiz JSON_parse JSON_stringify faults).

Local Abbreviation library_of := (stored_quizzes JSON_parse faults).

Lemma getQuizzes_run (w : Browser.world) :
  exists w',
    getQuizzes w = (inr (library_of w), w') /\
    Browser.items w' = Browser.items w /\
    requests (Browser.console w') = requests (Browser.console w).
Proof.
  unfold QuizStorageService.getQuizzes, stored_quizzes, Browser.try_catchB,
    Browser.bindB, Browser.getItem, Browser.retB, Browser.liftR,
    Browser.console_errorB, Browser.liftM, emit.
  destruct (faults w _) as [e|].
  - simpl. eexists. split; [reflexivity|]. split; [reflexivity|].
    simpl. rewrite requests_app. simpl. apply app_nil_r.
  - destruct (Browser.lookup _ _) as [quizzesText|];
      [|exists w; repeat split; reflexivity].
    destruct (quizzesText =? ""); [exists w; repeat split; reflexivity|].
    destruct (JSON_parse quizzesText) as [e|quizzes].
    + simpl. eexists. split; [reflexivity|]. split; [reflexivity|].
      simpl. rewrite requests_app. simpl. apply app_nil_r.
    + exists w. split; [|split; reflexivity].
      destruct quizzes; reflexivity.
Qed.

(** X24: [getQuizzes] never throws and never writes to the storage: it
    returns the stored array when the item parses as an array, and the
    empty library when the item is missing or empty, when reading or
    parsing it throws, or when it holds anything but an array. *)
Theorem getQuizzes_never_throws (w : Browser.world) :
  exists quizzes w',
    getQuizzes w = (inr quizzes, w') /\
    Browser.items w' = Browser.items w /\
    (forall quizzesText stored,
       faults w (Browser.reading QuizStorageService.STORAGE_KEY) = None ->
       Browser.lookup QuizStorageService.STORAGE_KEY (Browser.items w)
       = Some quizzesText ->
       quizzesText <> "" ->
       JSON_parse quizzesText = inr (JArr stored) ->
       quizzes = stored) /\
    (Browser.lookup QuizStorageService.STORAGE_KEY (Browser.items w) = None \/
     Browser.lookup QuizStorageService.STORAGE_KEY (Browser.items w) = Some "" \/
     (exists e, faults w (Browser.reading QuizStorageService.STORAGE_KEY) = Some e) \/
     (exists quizzesText,
        Browser.lookup QuizStorageService.STORAGE_KEY (Browser.items w)
        = Some quizzesText /\
        forall stored, JSON_parse quizzesText <> inr (JArr stored)) ->
     quizzes = []).
Proof.
  destruct (getQuizzes_run w) as (w' & Hrun & Hitems & _).
  exists (library_of w), w'. split; [exact Hrun|]. split; [exact Hitems|].
  unfold stored_quizzes. split.
  - intros quizzesText stored -> -> Hne ->.
    apply String.eqb_neq in Hne. now rewrite Hne.
  - intros [Hnone|[Hempty|[[e He]|(quizzesText & Htext & Hshape)]]].
    + rewrite Hnone. now destruct (faults w _).
    + rewrite Hempty. now destruct (faults w _).
    + now rewrite He.
    + rewrite Htext. destruct (faults w _); [reflexivity|].
      destruct (quizzesText =? ""); [reflexivity|].
      destruct (JSON_parse quizzesText) as [e|[| | | |stored|]]; try reflexivity.
      now destruct (Hshape stored).
Qed.

(** X25: [getQuizzesByCreator], when it returns, gives the quizzes of
    [getQuizzes] whose [creatorId] is the user, in the order of the
    library, and nothing else. *)
Theorem getQuizzesByCreator_filters (userId : string) (w w' : Browser.world)
  (mine : list json) :
  getQuizzesByCreator userId w = (inr mine, w') ->
  mine = filter (is_created_by userId) (library_of w) /\
  Forall (fun quiz => get quiz "creatorId" = inr (Some (JStr userId))) mine /\
  Browser.items w' = Browser.items w.
Proof.
  unfold QuizStorageService.getQuizzesByCreator, Browser.bindB, Browser.liftR.
  destruct (getQuizzes_run w) as (w1 & -> & Hitems & _).
  destruct (QuizStorageService.filter_throwing _ _) as [e|kept] eqn:Hf;
    [discriminate|].
  intros H; injection H as <- <-.
  apply filter_throwing_created_by in Hf. subst kept.
  split; [reflexivity|]. split; [|exact Hitems].
  apply Forall_forall. intros quiz Hin. apply filter_In in Hin.
  destruct Hin as [_ Hq]. unfold is_created_by in Hq.
  destruct quiz as [| | | | |members]; try discriminate. simpl.
  destruct (member "creatorId" members) as [[| | |s| |]|]; try discriminate.
  apply String.eqb_eq in Hq. now subst.
Qed.

(** X26: [saveQuiz] never throws, whatever the storage holds and whether
    or not the write fails, and it changes no item but the library. *)
Theorem saveQuiz_never_throws (quizName : string) (questions : list json)
  (user : QuizStorageService.User) (difficulty : string) (timeLimit now : Z)
  (w : Browser.world) :
  exists w',
    saveQuiz quizName questions user difficulty timeLimit now w = (inr tt, w') /\
    (forall key,
       key <> QuizStorageService.STORAGE_KEY ->
       Browser.lookup key (Browser.items w') = Browser.lookup key (Browser.items w)) /\
    requests (Browser.console w') = requests (Browser.console w).
Proof.
  unfold QuizStorageService.saveQuiz, Browser.try_catchB, Browser.bindB at 1.
  destruct (getQuizzes_run w) as (w1 & -> & Hitems & Hreq).
  unfold Browser.setItem, Browser.console_errorB, Browser.liftM, emit.
  destruct (faults w1 _) as [e|].
  - eexists. split; [reflexivity|]. cbn [Browser.items Browser.console]. split.
    + intros key _. now rewrite Hitems.
    + rewrite requests_app. cbn. now rewrite app_nil_r.
  - eexists. split; [reflexivity|]. cbn [Browser.items Browser.console].
    split; [|exact Hreq].
    intros key Hkey. rewrite Hitems, lookup_store.
    destruct (String.eqb_spec QuizStorageService.STORAGE_KEY key); [congruence|].
    reflexivity.
Qed.

(** X27: when the storage does not throw, [saveQuiz] writes the library
    with the new quiz first, followed by the quizzes that [getQuizzes] read
    (none when the stored item was unusable); and when the runtime reads the
    written text back as the same array, [getQuizzes] then returns the new
    quiz at the head of the former library. *)
Theorem saveQuiz_prepends (quizName : string) (questions : list json)
  (user : QuizStorageService.User) (difficulty : string) (timeLimit now : Z)
  (w : Browser.world) :
  (forall w0 a, faults w0 a = None) ->
  let library :=
    JArr (QuizStorageService.newQuiz quizName questions user difficulty timeLimit now
          :: library_of w) in
  exists w',
    saveQuiz quizName questions user difficulty timeLimit now w = (inr tt, w') /\
    Browser.lookup QuizStorageService.STORAGE_KEY (Browser.items w')
    = Some (JSON_stringify library) /\
    (JSON_stringify library <> "" ->
     JSON_parse (JSON_stringify library) = inr library ->
     library_of w'
     = QuizStorageService.newQuiz quizName questions user difficulty timeLimit now
       :: library_of w).
Proof.
  intros Hfaults library.
  unfold QuizStorageService.saveQuiz, Browser.try_catchB, Browser.bindB at 1.
  destruct (getQuizzes_run w) as (w1 & -> & Hitems & _).
  unfold Browser.setItem. rewrite Hfaults. fold library.
  eexists. split; [reflexivity|]. cbn [Browser.items Browser.console].
  rewrite lookup_store, String.eqb_refl. split; [reflexivity|].
  intros Hne Hround. unfold stored_quizzes at 1. rewrite Hfaults.
  cbn [Browser.items Browser.console].
  rewrite lookup_store, String.eqb_refl. apply String.eqb_neq in Hne.
  now rewrite Hne, Hround.
Qed.

End Library.

Lemma getQuizzesByCreator_filters_witness :
  exists mine w',
    QuizStorageService.getQuizzesByCreator JSON_parse_reader no_fault "u1"
      sample_library = (inr mine, w') /\
    List.length mine = 2%nat /\
    Forall (fun quiz => get quiz "creatorId" = inr (Some (JStr "u1"))) mine.
Proof.
  eexists; eexists. split; [vm_compute; reflexivity|]. split; [reflexivity|].
  eapply (getQuizzesByCreator_filters JSON_parse_reader no_fault "u1"
            sample_library).
  vm_compute; reflexivity.
Defined.

Lemma saveQuiz_prepends_witness :
  exists w',
    QuizStorageService.saveQuiz JSON_parse_reader stringify no_fault "Quiz"
      [JObj [("type", JStr "MCQ"); ("question", JStr "Q1")]]
      Generation.GUEST_USER "Easy" 10 1700000000000 empty_world = (inr tt, w') /\
    stored_quizzes JSON_parse_reader no_fault w'
    = [QuizStorageService.newQuiz "Quiz"
         [JObj [("type", JStr "MCQ"); ("question", JStr "Q1")]]
         Generation.GUEST_USER "Easy" 10 1700000000000].
Proof.
  destruct (saveQuiz_prepends JSON_parse_reader stringify no_fault "Quiz"
              [JObj [("type", JStr "MCQ"); ("question", JStr "Q1")]]
              Generation.GUEST_USER "Easy" 10 1700000000000 empty_world
              ltac:(reflexivity)) as (w' & Hrun & _ & Hread).
  exists w'. split; [exact Hrun|].
  apply Hread.
  - apply String.eqb_neq. vm_compute; reflexivity.
  - vm_compute; reflexivity.
Defined.

(** ** The generation handler *)

Section Generating.

Variable JSON_parse : string -> exn + json.
Variable JSON_stringify : json -> string.
Variable network : Network.
Variable faults : Browser.Faults.
Variable getDocument : list Byte.byte -> exn + list Pdf.Page.
Variable env : environment.

Local Abbreviation handleGenerateQuiz :=
  (Generation.handleGenerateQuiz JSON_parse JSON_stringify network faults
     getDocument env).

(** What [saveQuiz] does to the world, in one statement. *)
Lemma saveQuiz_effect (quizName : string) (questions : list json)
  (user : QuizStorageService.User) (difficulty : string) (timeLimit now : Z)
  (w : Browser.world) :
  exists w',
    QuizStorageService.saveQuiz JSON_parse JSON_stringify faults quizName
      questions user difficulty timeLimit now w = (inr tt, w') /\
    (forall key,
       key <> QuizStorageService.STORAGE_KEY ->
       Browser.lookup key (Browser.items w') = Browser.lookup key (Browser.items w)) /\
    requests (Browser.console w') = requests (Browser.console w) /\
    ((forall w0 a, faults w0 a = None) ->
     Browser.lookup QuizStorageService.STORAGE_KEY (Browser.items w')
     = Some (JSON_stringify
               (JArr (QuizStorageService.newQuiz quizName questions user difficulty
                        timeLimit now
                      :: stored_quizzes JSON_parse faults w)))).
Proof.
  unfold QuizStorageService.saveQuiz, Browser.try_catchB, Browser.bindB at 1.
  destruct (getQuizzes_run JSON_parse faults w) as (w1 & -> & Hitems & Hreq).
  unfold Browser.setItem, Browser.console_errorB, Browser.liftM, emit.
  destruct (faults w1 _) as [e|] eqn:Hfault.
  - eexists. split; [reflexivity|]. cbn [Browser.items Browser.console].
    split; [intros key _; now rewrite Hitems|]. split.
    + rewrite requests_app. cbn. now rewrite app_nil_r.
    + intros Hnone. rewrite Hnone in Hfault. discriminate.
  - eexists. split; [reflexivity|]. cbn [Browser.items Browser.console].
    split; [|split; [exact Hreq|]].
    + intros key Hkey. rewrite Hitems, lookup_store.
      destruct (String.eqb_spec QuizStorageService.STORAGE_KEY key);
        [congruence|reflexivity].
    + intros _. now rewrite lookup_store, String.eqb_refl.
Qed.



End Generating.


